(** * Storybook MCP API: the tool handlers of [server.js]

    A shallow embedding of [createToolHandlers] and of the REST routes that
    wrap it.  JavaScript values, plain objects (insertion-ordered property
    lists with prototype lookup), exceptions, [fetch], [fs] and [path] are
    modelled explicitly; the parsers of [./parsers] enter as parameters of
    the environment.

    Conventions of the model:
    - a handler runs against a fixed snapshot of the file system and of
      the inventory, and logs every call it makes to the outside;
    - [path] is the POSIX flavour;
    - [index.json] is an object whose [entries] member, if any, is an
      object; the entries themselves are arbitrary values;
    - what is thrown is an [Error] with a message. *)

From Stdlib Require Import String Ascii List ZArith Bool Lia DecimalString.
Import ListNotations.
Local Open Scope list_scope.
Local Open Scope string_scope.
Set Warnings "-register-all".

(** ** Strings

    A JavaScript string is modelled as a [string] whose characters are the
    code units below 256. *)

Module Str.

Fixpoint starts_with (p s : string) : bool :=
  match p, s with
  | EmptyString, _ => true
  | String a p', String b s' => Ascii.eqb a b && starts_with p' s'
  | String _ _, EmptyString => false
  end.

(** [drop_prefix p s] is [Some r] when [s = p ++ r]. *)
Fixpoint drop_prefix (p s : string) : option string :=
  match p, s with
  | EmptyString, _ => Some s
  | String a p', String b s' =>
      if Ascii.eqb a b then drop_prefix p' s' else None
  | String _ _, EmptyString => None
  end.

(** [String.prototype.includes]. *)
Fixpoint includes (s needle : string) : bool :=
  starts_with needle s ||
  match s with
  | EmptyString => false
  | String _ s' => includes s' needle
  end.

(** [String.prototype.endsWith]. *)
Fixpoint ends_with (s suffix : string) : bool :=
  String.eqb s suffix ||
  match s with
  | EmptyString => false
  | String _ s' => ends_with s' suffix
  end.

(** [s.replace(/^\.\//, '')]: one leading "./" is removed, if there is one. *)
Definition strip_dot_slash (s : string) : string :=
  match drop_prefix "./" s with
  | Some r => r
  | None => s
  end.

Fixpoint split_on (sep : ascii) (s : string) : list string :=
  match s with
  | EmptyString => [EmptyString]
  | String c s' =>
      if Ascii.eqb c sep then EmptyString :: split_on sep s'
      else match split_on sep s' with
           | [] => [String c EmptyString]
           | seg :: segs => String c seg :: segs
           end
  end.

Fixpoint join_with (sep : string) (segs : list string) : string :=
  match segs with
  | [] => EmptyString
  | [seg] => seg
  | seg :: rest => seg ++ sep ++ join_with sep rest
  end.

Definition is_empty (s : string) : bool :=
  match s with EmptyString => true | _ => false end.

End Str.

(** ** Values and plain objects *)

Inductive value : Type :=
| VUndefined
| VNull
| VBool (b : bool)
| VNum (n : Z)
| VStr (s : string)
| VArr (items : list value)
| VObj (props : list (string * value))
| VFun (name : string).

(** A plain object: its own enumerable properties in enumeration order. *)
Definition obj : Type := list (string * value).

(** ToBoolean. *)
Definition truthy (v : value) : bool :=
  match v with
  | VUndefined | VNull => false
  | VBool b => b
  | VNum n => negb (Z.eqb n 0)
  | VStr s => negb (Str.is_empty s)
  | VArr _ | VObj _ | VFun _ => true
  end.

(** [a || b] on values. *)
Definition or_else (a b : value) : value := if truthy a then a else b.

Fixpoint own (o : obj) (k : string) : option value :=
  match o with
  | [] => None
  | (k', v) :: o' => if String.eqb k' k then Some v else own o' k
  end.

(** [o[k] = v] on a plain object: an existing property keeps its place, a
    new one is appended.  Keys are ordinary property names, not the
    accessor [__proto__]. *)
Fixpoint obj_set (o : obj) (k : string) (v : value) : obj :=
  match o with
  | [] => [(k, v)]
  | (k', v') :: o' =>
      if String.eqb k' k then (k, v) :: o' else (k', v') :: obj_set o' k v
  end.

Definition keys (o : obj) : list string := map fst o.

(** [Object.values]. *)
Definition values (o : obj) : list value := map snd o.

(** The members every plain object inherits from [Object.prototype]. *)
Definition object_prototype_functions : list string :=
  [ "__defineGetter__"; "__defineSetter__"; "hasOwnProperty";
    "__lookupGetter__"; "__lookupSetter__"; "isPrototypeOf";
    "propertyIsEnumerable"; "toString"; "valueOf"; "toLocaleString" ].

Definition inherited (k : string) : option value :=
  if String.eqb k "constructor" then Some (VFun "Object")
  else if String.eqb k "__proto__" then Some (VObj [])
  else if existsb (String.eqb k) object_prototype_functions then Some (VFun k)
  else None.

(** [o[k]] for a computed key [k] on a plain object: own properties first,
    then the prototype, else [undefined]. *)
Definition lookup (o : obj) (k : string) : value :=
  match own o k with
  | Some v => v
  | None =>
      match inherited k with
      | Some v => v
      | None => VUndefined
      end
  end.

(** ** Regular expressions

    The two patterns of [getStoryDocs] are sequences of literals, single
    character classes, greedy stars over a class and one capturing group
    [(cls+)].  [search] is [String.prototype.match] for such a pattern
    without the [g] flag: the leftmost match, greedy with backtracking;
    the result is the list of captured groups. *)

Module Regex.

Inductive atom : Type :=
| Lit (s : string)
| One (cls : ascii -> bool)
| Star (cls : ascii -> bool)
| CapPlus (cls : ascii -> bool).

Definition code_in (lo hi : nat) (c : ascii) : bool :=
  let n := nat_of_ascii c in Nat.leb lo n && Nat.leb n hi.

(** [\s] on code units below 256: TAB, LF, VT, FF, CR, SPACE and NBSP. *)
Definition is_space (c : ascii) : bool :=
  code_in 9 13 c || code_in 32 32 c || code_in 160 160 c.

(** [\w]: [A-Za-z0-9_]. *)
Definition is_word (c : ascii) : bool :=
  code_in 65 90 c || code_in 97 122 c || code_in 48 57 c || code_in 95 95 c.

(** The class of the two quote characters, and its complement. *)
Definition is_quote (c : ascii) : bool :=
  code_in 39 39 c || code_in 34 34 c.

Definition not_quote (c : ascii) : bool := negb (is_quote c).

(** [[^}]]. *)
Definition not_rbrace (c : ascii) : bool := negb (code_in 125 125 c).

Section Matcher.
Context {R : Type}.

Fixpoint star (cls : ascii -> bool) (k : string -> option R) (s : string)
  : option R :=
  match s with
  | String c s' =>
      if cls c then
        match star cls k s' with
        | Some r => Some r
        | None => k s
        end
      else k s
  | EmptyString => k s
  end.

Fixpoint star_cap (cls : ascii -> bool) (k : string -> string -> option R)
    (s : string) : option R :=
  match s with
  | String c s' =>
      if cls c then
        match star_cap cls (fun m rest => k (String c m) rest) s' with
        | Some r => Some r
        | None => k EmptyString s
        end
      else k EmptyString s
  | EmptyString => k EmptyString s
  end.

Definition plus_cap (cls : ascii -> bool) (k : string -> string -> option R)
    (s : string) : option R :=
  match s with
  | String c s' =>
      if cls c then star_cap cls (fun m rest => k (String c m) rest) s'
      else None
  | EmptyString => None
  end.
End Matcher.

Fixpoint match_here (r : list atom) (caps : list string) (s : string)
  : option (list string) :=
  match r with
  | [] => Some (rev caps)
  | Lit l :: r' =>
      match Str.drop_prefix l s with
      | Some s' => match_here r' caps s'
      | None => None
      end
  | One cls :: r' =>
      match s with
      | String c s' => if cls c then match_here r' caps s' else None
      | EmptyString => None
      end
  | Star cls :: r' => star cls (match_here r' caps) s
  | CapPlus cls :: r' =>
      plus_cap cls (fun m rest => match_here r' (m :: caps) rest) s
  end.

Fixpoint search (r : list atom) (s : string) : option (list string) :=
  match match_here r [] s with
  | Some caps => Some caps
  | None =>
      match s with
      | String _ s' => search r s'
      | EmptyString => None
      end
  end.

(** [content.match(/component:\s*(\w+)/)], group 1. *)
Definition component_re : list atom :=
  [Lit "component:"; Star is_space; CapPlus is_word].

(** The import pattern built around the component name [name], which
    consists of word characters and so stands for itself. *)
Definition import_re (name : string) : list atom :=
  [ Lit "import"; Star is_space; Lit "{"; Star not_rbrace; Lit name;
    Star not_rbrace; Lit "}"; Star is_space; Lit "from"; Star is_space;
    One is_quote; CapPlus not_quote; One is_quote ].

Definition group1 (m : option (list string)) : option string :=
  match m with
  | Some (g :: _) => Some g
  | _ => None
  end.

End Regex.

(** ** [path] (POSIX) *)

Module Path.

Definition slash : ascii := "/"%char.

(** [normalizeString] on the segments between separators. *)
Fixpoint norm_segs (allowAboveRoot : bool) (acc : list string)
    (segs : list string) : list string :=
  match segs with
  | [] => rev acc
  | seg :: rest =>
      if String.eqb seg "" || String.eqb seg "." then
        norm_segs allowAboveRoot acc rest
      else if String.eqb seg ".." then
        match acc with
        | last :: acc' =>
            if String.eqb last ".." then
              norm_segs allowAboveRoot
                (if allowAboveRoot then ".." :: acc else acc) rest
            else norm_segs allowAboveRoot acc' rest
        | [] =>
            norm_segs allowAboveRoot
              (if allowAboveRoot then [".."] else []) rest
        end
      else norm_segs allowAboveRoot (seg :: acc) rest
  end.

Definition normalizeString (path : string) (allowAboveRoot : bool) : string :=
  Str.join_with "/" (norm_segs allowAboveRoot [] (Str.split_on slash path)).

Definition isAbsolute (path : string) : bool := Str.starts_with "/" path.

Definition normalize (path : string) : string :=
  if Str.is_empty path then "."
  else
    let trailingSeparator := Str.ends_with path "/" in
    let p := normalizeString path (negb (isAbsolute path)) in
    if Str.is_empty p then
      if isAbsolute path then "/"
      else if trailingSeparator then "./" else "."
    else
      let p := if trailingSeparator then p ++ "/" else p in
      if isAbsolute path then "/" ++ p else p.

(** [path.join(...args)]. *)
Definition join (args : list string) : string :=
  match filter (fun a => negb (Str.is_empty a)) args with
  | [] => "."
  | parts => normalize (Str.join_with "/" parts)
  end.

(** The right-to-left scan of [path.resolve], the working directory last. *)
Fixpoint resolve_scan (paths : list string) (resolvedPath : string)
  : string * bool :=
  match paths with
  | [] => (resolvedPath, false)
  | p :: rest =>
      if Str.is_empty p then resolve_scan rest resolvedPath
      else
        let resolvedPath := p ++ "/" ++ resolvedPath in
        if isAbsolute p then (resolvedPath, true)
        else resolve_scan rest resolvedPath
  end.

(** [path.resolve(...args)] in working directory [cwd]. *)
Definition resolve (cwd : string) (args : list string) : string :=
  let (resolvedPath, resolvedAbsolute) :=
    resolve_scan (rev args ++ [cwd])%list "" in
  let p := normalizeString resolvedPath (negb resolvedAbsolute) in
  if resolvedAbsolute then "/" ++ p
  else if Str.is_empty p then "." else p.

Fixpoint drop_while (f : ascii -> bool) (l : list ascii) : list ascii :=
  match l with
  | [] => []
  | c :: l' => if f c then drop_while f l' else l
  end.

(** [path.dirname(path)]. *)
Definition dirname (path : string) : string :=
  match path with
  | EmptyString => "."
  | String c0 tail =>
      let hasRoot := Ascii.eqb c0 slash in
      let scanned :=
        drop_while (fun c => negb (Ascii.eqb c slash))
          (drop_while (fun c => Ascii.eqb c slash)
             (rev (list_ascii_of_string tail))) in
      match scanned with
      | [] => if hasRoot then "/" else "."
      | _ :: before =>
          match before with
          | [] => if hasRoot then "//" else String c0 EmptyString
          | _ => String c0 (string_of_list_ascii (rev before))
          end
      end
  end.

End Path.

(** ** Reading properties

    The handlers read a fixed set of property names off values that come out
    of [index.json].  None of these names is a member of [Object.prototype],
    [Function.prototype], [Array.prototype] or a primitive wrapper, except
    [name] on a function. *)

Inductive key : Type :=
| k_id | k_name | k_title | k_kind | k_importPath | k_tags | k_type | k_args.

Definition key_name (k : key) : string :=
  match k with
  | k_id => "id"
  | k_name => "name"
  | k_title => "title"
  | k_kind => "kind"
  | k_importPath => "importPath"
  | k_tags => "tags"
  | k_type => "type"
  | k_args => "args"
  end.

(** What is thrown: an [Error] object with its message. *)
Record exn : Type := Error { message : string }.

Inductive outcome (A : Type) : Type :=
| Ret (a : A)
| Throw (e : exn).
Arguments Ret {A} a.
Arguments Throw {A} e.

(** [v.k] for a value [v] that is neither [undefined] nor [null]. *)
Definition prop (v : value) (k : key) : value :=
  match v with
  | VObj o => lookup o (key_name k)
  | VFun n => match k with k_name => VStr n | _ => VUndefined end
  | _ => VUndefined
  end.

Definition nullish (v : value) : bool :=
  match v with
  | VUndefined | VNull => true
  | _ => false
  end.

(** How the message of a [TypeError] names a nullish value. *)
Definition nullish_text (v : value) : string :=
  match v with
  | VNull => "null"
  | _ => "undefined"
  end.

(** [v.k]. *)
Definition get (v : value) (k : key) : outcome value :=
  if nullish v then
    Throw (Error ("Cannot read properties of " ++ nullish_text v
                  ++ " (reading '" ++ key_name k ++ "')"))
  else Ret (prop v k).

(** [a === b]; objects, arrays and functions that reach the handlers from
    different sources are never the same reference. *)
Definition strict_eq (a b : value) : bool :=
  match a, b with
  | VUndefined, VUndefined => true
  | VNull, VNull => true
  | VBool x, VBool y => Bool.eqb x y
  | VNum x, VNum y => Z.eqb x y
  | VStr x, VStr y => String.eqb x y
  | _, _ => false
  end.

Definition index_string (i : nat) : string :=
  NilEmpty.string_of_uint (Nat.to_uint i).

Fixpoint indexed {A : Type} (i : nat) (l : list A) : list (string * A) :=
  match l with
  | [] => []
  | x :: l' => (index_string i, x) :: indexed (S i) l'
  end.

(** [Object.entries(v)] for a value [v] that is not nullish. *)
Definition object_entries (v : value) : list (string * value) :=
  match v with
  | VObj o => o
  | VArr items => indexed 0 items
  | VStr s =>
      indexed 0 (map (fun c => VStr (String c EmptyString))
                     (list_ascii_of_string s))
  | _ => []
  end.

(** ** The world a handler runs in *)

Inductive fsnode : Type :=
| Missing
| File (content : string)
| Dir.

(** [index.json]: an object whose [entries] member, when it is there, maps
    story ids to entries. *)
Record IndexJson : Type := { entries : option obj }.

Record Response : Type := { ok : bool; json : outcome IndexJson }.

(** What [./parsers] returns (section 3 of the specification). *)
Module Parsers.

Record ComponentDoc : Type := {
  selector : value;
  template : value;
  componentCode : value;
  properties : value;
  description : value
}.

Record StoryFileDoc : Type := {
  imports : value;
  meta : value;
  stories : value
}.

Record ParsedStory : Type := {
  component : value;
  args : value;
  argTypes : value;
  componentDocs : value
}.

End Parsers.

Record Env : Type := {
  storybookUrl : string;
  projectDir : string;
  cwd : string;
  (** [detectFramework(projectDir)], evaluated once by [createToolHandlers] *)
  framework : value;
  fetch : string -> outcome Response;
  fs : string -> fsnode;
  extractComponentDocs : string -> outcome (option Parsers.ComponentDoc);
  extractStoryExamples : string -> outcome (option Parsers.StoryFileDoc);
  parseStoryFile : string -> string -> string -> outcome (option Parsers.ParsedStory);
  generateUsageExample : value -> value -> string -> value -> outcome value
}.

(** The calls a handler makes to the outside, in order. *)
Inductive event : Type :=
| Fetch (url : string)
| ReadJson
| ExistsSync (path : string)
| ReadFileSync (path : string)
| ExtractComponentDocs (path : string)
| ExtractStoryExamples (path : string)
| ParseStoryFile (path storyId dir : string)
| GenerateUsageExample (sel a : value) (name : string) (fw : value).

(** ** A monad for exceptions and the call log *)

Definition M (A : Type) : Type := outcome A * list event.

Definition ret {A : Type} (a : A) : M A := (Ret a, []).

Definition throw {A : Type} (e : exn) : M A := (Throw e, []).

Definition lift {A : Type} (o : outcome A) : M A := (o, []).

Definition call {A : Type} (e : event) (o : outcome A) : M A := (o, [e]).

Definition bind {A B : Type} (m : M A) (f : A -> M B) : M B :=
  match m with
  | (Ret a, l) => let (r, l') := f a in (r, (l ++ l')%list)
  | (Throw e, l) => (Throw e, l)
  end.

Notation "x <- m ;; k" := (bind m (fun x => k))
  (at level 61, m at next level, right associativity).

Definition typeError {A : Type} (msg : string) : M A := throw (Error msg).

Definition failure (msg : string) : value :=
  VObj [("success", VBool false); ("error", VStr msg)].

(** [try { ... } catch (error) { return { success: false, error: error.message } }] *)
Definition try_catch (body : M value) : M value :=
  match body with
  | (Ret v, l) => (Ret v, l)
  | (Throw e, l) => (Ret (failure (message e)), l)
  end.

Fixpoint mapM {A B : Type} (f : A -> M B) (l : list A) : M (list B) :=
  match l with
  | [] => ret []
  | x :: l' => y <- f x ;; ys <- mapM f l' ;; ret (y :: ys)
  end.

Fixpoint filterM {A : Type} (f : A -> M bool) (l : list A) : M (list A) :=
  match l with
  | [] => ret []
  | x :: l' =>
      b <- f x ;; ys <- filterM f l' ;; ret (if b then x :: ys else ys)
  end.

(** The argument object of a handler. *)
Inductive jsargs (A : Type) : Type :=
| ArgUndefined
| ArgNull
| ArgObj (a : A).
Arguments ArgUndefined {A}.
Arguments ArgNull {A}.
Arguments ArgObj {A} a.

(** [const { field } = args]. *)
Definition destructure {A : Type} (field : string) (a : jsargs A) : M A :=
  match a with
  | ArgObj x => ret x
  | ArgUndefined =>
      typeError ("Cannot destructure property '" ++ field
                 ++ "' of 'args' as it is undefined.")
  | ArgNull =>
      typeError ("Cannot destructure property '" ++ field
                 ++ "' of 'args' as it is null.")
  end.

(** A string method called on [v]: a [TypeError] unless [v] is a string. *)
Definition string_method (method : string) (v : value) : M string :=
  match v with
  | VStr s => ret s
  | _ => typeError ("entry.importPath." ++ method ++ " is not a function")
  end.

Definition endsWith (v : value) (suffix : string) : M bool :=
  s <- string_method "endsWith" v ;; ret (Str.ends_with s suffix).

Definition replace_dot_slash (v : value) : M string :=
  s <- string_method "replace" v ;; ret (Str.strip_dot_slash s).

(** [a && b] where [b] may throw and is evaluated only when [a] holds. *)
Definition and_then (a : bool) (b : M bool) : M bool :=
  if a then b else ret false.

(** ** Calls to the outside *)

Definition index_url (env : Env) : string := storybookUrl env ++ "/index.json".

Definition do_fetch (env : Env) (url : string) : M Response :=
  call (Fetch url) (fetch env url).

Definition do_json (r : Response) : M IndexJson := call ReadJson (json r).

Definition existsSync (env : Env) (p : string) : M bool :=
  call (ExistsSync p)
       (Ret (match fs env p with Missing => false | _ => true end)).

Definition readFileSync (env : Env) (p : string) : M string :=
  call (ReadFileSync p)
       (match fs env p with
        | File content => Ret content
        | Dir => Throw (Error "EISDIR: illegal operation on a directory, read")
        | Missing =>
            Throw (Error ("ENOENT: no such file or directory, open '"
                          ++ p ++ "'"))
        end).

Definition do_extractComponentDocs (env : Env) (p : string)
  : M (option Parsers.ComponentDoc) :=
  call (ExtractComponentDocs p) (extractComponentDocs env p).

Definition do_extractStoryExamples (env : Env) (p : string)
  : M (option Parsers.StoryFileDoc) :=
  call (ExtractStoryExamples p) (extractStoryExamples env p).

Definition do_parseStoryFile (env : Env) (p storyId dir : string)
  : M (option Parsers.ParsedStory) :=
  call (ParseStoryFile p storyId dir) (parseStoryFile env p storyId dir).

Definition do_generateUsageExample (env : Env) (sel a : value) (name : string)
  : M value :=
  call (GenerateUsageExample sel a name (framework env))
       (generateUsageExample env sel a name (framework env)).

(** [data.entries?.[storyId]] *)
Definition entry_of (data : IndexJson) (storyId : string) : value :=
  match entries data with
  | Some o => lookup o storyId
  | None => VUndefined
  end.

(** [Object.values(data.entries || {})] *)
Definition entry_values (data : IndexJson) : list value :=
  match entries data with
  | Some o => values o
  | None => []
  end.

(** ** The tool handlers ([createToolHandlers]) *)

Definition dquote : string := String "034"%char EmptyString.

Definition not_found_message (storyId : string) : string :=
  "Story " ++ dquote ++ storyId ++ dquote ++ " not found".

Definition not_ready : value := failure "Storybook is not ready".

(** The summary object built from an entry by [listStories] and [getStory]. *)
Definition story_summary (entry : value) : M obj :=
  id <- lift (get entry k_id) ;;
  name <- lift (get entry k_name) ;;
  title <- lift (get entry k_title) ;;
  kind <- lift (get entry k_kind) ;;
  title' <- lift (get entry k_title) ;;
  importPath <- lift (get entry k_importPath) ;;
  tags <- lift (get entry k_tags) ;;
  type <- lift (get entry k_type) ;;
  ret [ ("id", id); ("name", name); ("title", title);
        ("kind", or_else kind title'); ("importPath", importPath);
        ("tags", or_else tags (VArr [])); ("type", type) ].

(** The [try] block of [listStories]. *)
Definition listStories_try (env : Env) (args : jsargs value) : M value :=
  response <- do_fetch env (index_url env) ;;
  if negb (ok response) then
    ret (VObj [ ("success", VBool false);
                ("error", VStr "Storybook is not ready. Please wait...");
                ("hint", VStr ("Make sure Storybook is running at "
                               ++ storybookUrl env)) ])
  else
    data <- do_json response ;;
    stories <- mapM story_summary (entry_values data) ;;
    kind <- match args with
            | ArgUndefined => ret VUndefined
            | ArgObj kind => ret kind
            | ArgNull =>
                typeError "Cannot read properties of null (reading 'kind')"
            end ;;
    let stories :=
      if truthy kind then
        filter (fun s => strict_eq (lookup s "kind") kind
                         || strict_eq (lookup s "title") kind) stories
      else stories in
    ret (VObj [ ("success", VBool true);
                ("count", VNum (Z.of_nat (length stories)));
                ("stories", VArr (map VObj stories)) ]).

Definition listStories (env : Env) (args : jsargs value) : M value :=
  try_catch (listStories_try env args).

(** The [try] block of [getStory]. *)
Definition getStory_try (env : Env) (args : jsargs string) : M value :=
  storyId <- destructure "storyId" args ;;
  response <- do_fetch env (index_url env) ;;
  if negb (ok response) then ret not_ready
  else
    data <- do_json response ;;
    let entry := entry_of data storyId in
    if negb (truthy entry) then ret (failure (not_found_message storyId))
    else
      story <- story_summary entry ;;
      importPath <- lift (get entry k_importPath) ;;
      story <-
        (if truthy importPath then
           cleanPath <- replace_dot_slash importPath ;;
           let storyFilePath := Path.join [projectDir env; cleanPath] in
           parsed <- do_parseStoryFile env storyFilePath storyId
                       (projectDir env) ;;
           match parsed with
           | Some parsed =>
               let story := obj_set story "component" (Parsers.component parsed) in
               let story :=
                 obj_set story "args" (or_else (Parsers.args parsed) (VObj [])) in
               let story :=
                 obj_set story "argTypes"
                   (or_else (Parsers.argTypes parsed) (VObj [])) in
               if truthy (Parsers.componentDocs parsed) then
                 ret (obj_set story "docs" (Parsers.componentDocs parsed))
               else ret story
           | None => ret story
           end
         else ret story) ;;
      ret (VObj [("success", VBool true); ("story", VObj story)]).

Definition getStory (env : Env) (args : jsargs string) : M value :=
  try_catch (getStory_try env args).

Definition extensions : list string :=
  [""; ".ts"; ".tsx"; ".js"; ".jsx"; ".vue"; ".svelte"].

(** The loop over [extensions]; it stops at the first path that exists. *)
Fixpoint probe (env : Env) (exts : list string) (componentFilePath : string)
    (docs : obj) : M obj :=
  match exts with
  | [] => ret docs
  | ext :: rest =>
      let fullPath := componentFilePath ++ ext in
      found <- existsSync env fullPath ;;
      if found then
        componentDocs <- do_extractComponentDocs env fullPath ;;
        match componentDocs with
        | Some cd =>
            let docs := obj_set docs "selector" (Parsers.selector cd) in
            let docs := obj_set docs "template" (Parsers.template cd) in
            let docs := obj_set docs "componentCode" (Parsers.componentCode cd) in
            let docs := obj_set docs "properties" (Parsers.properties cd) in
            let docs := obj_set docs "componentDescription" (Parsers.description cd) in
            ret docs
        | None => ret docs
        end
      else probe env rest componentFilePath docs
  end.

(** "Get component info": the component named by the story file and the
    documentation of the file it is imported from. *)
Definition component_info (env : Env) (storyFilePath content : string)
    (docs : obj) : M obj :=
  match Regex.group1 (Regex.search Regex.component_re content) with
  | Some componentName =>
      let docs := obj_set docs "component" (VStr componentName) in
      match Regex.group1
              (Regex.search (Regex.import_re componentName) content) with
      | Some specifier =>
          let storyDir := Path.dirname storyFilePath in
          let componentFilePath :=
            Path.resolve (cwd env) [storyDir; specifier] in
          probe env extensions componentFilePath docs
      | None => ret docs
      end
  | None => ret docs
  end.

(** The [forEach] over [Object.entries(storyExamples.stories)]. *)
Fixpoint usage_examples (env : Env) (sel : value)
    (variants : list (string * value)) (usageExamples : obj) : M obj :=
  match variants with
  | [] => ret usageExamples
  | (name, story) :: rest =>
      a <- lift (get story k_args) ;;
      example <- do_generateUsageExample env sel a name ;;
      usage_examples env sel rest (obj_set usageExamples name example)
  end.

(** "Get story examples". *)
Definition story_examples (env : Env) (storyFilePath : string) (docs : obj)
  : M obj :=
  storyExamples <- do_extractStoryExamples env storyFilePath ;;
  match storyExamples with
  | Some se =>
      let docs := obj_set docs "imports" (Parsers.imports se) in
      let docs := obj_set docs "metaCode" (Parsers.meta se) in
      let docs := obj_set docs "storyExamples" (Parsers.stories se) in
      if truthy (lookup docs "selector") && truthy (Parsers.stories se) then
        usageExamples <-
          usage_examples env (lookup docs "selector")
            (object_entries (Parsers.stories se)) [] ;;
        ret (obj_set docs "usageExamples" (VObj usageExamples))
      else ret docs
  | None => ret docs
  end.

(** The branch for a story file that is not MDX. *)
Definition story_file_docs (env : Env) (importPath : value) (docs : obj)
  : M obj :=
  cleanPath <- replace_dot_slash importPath ;;
  let storyFilePath := Path.join [projectDir env; cleanPath] in
  found <- existsSync env storyFilePath ;;
  if found then
    content <- readFileSync env storyFilePath ;;
    docs <- component_info env storyFilePath content docs ;;
    story_examples env storyFilePath docs
  else ret docs.

(** The branch for an MDX file. *)
Definition mdx_docs (env : Env) (importPath : value) (docs : obj) : M obj :=
  cleanPath <- replace_dot_slash importPath ;;
  let mdxPath := Path.join [projectDir env; cleanPath] in
  found <- existsSync env mdxPath ;;
  if found then
    content <- readFileSync env mdxPath ;;
    ret (obj_set docs "mdxContent" (VStr content))
  else ret docs.

(** The object literal [docs] is created with. *)
Definition docs_header (env : Env) (storyId : string) (entry : value)
  : M obj :=
  title <- lift (get entry k_title) ;;
  name <- lift (get entry k_name) ;;
  type <- lift (get entry k_type) ;;
  ret [ ("storyId", VStr storyId); ("title", title); ("name", name);
        ("type", type); ("framework", framework env) ].

(** The [try] block of [getStoryDocs]. *)
Definition getStoryDocs_try (env : Env) (args : jsargs string) : M value :=
  storyId <- destructure "storyId" args ;;
  response <- do_fetch env (index_url env) ;;
  if negb (ok response) then ret not_ready
  else
    data <- do_json response ;;
    let entry := entry_of data storyId in
    if negb (truthy entry) then ret (failure (not_found_message storyId))
    else
      docs <- docs_header env storyId entry ;;
      importPath <- lift (get entry k_importPath) ;;
      notMdx <- and_then (truthy importPath)
                  (mdx <- endsWith importPath ".mdx" ;; ret (negb mdx)) ;;
      docs <-
        (if notMdx then story_file_docs env importPath docs
         else
           isMdx <- and_then (truthy importPath)
                      (endsWith importPath ".mdx") ;;
           if isMdx then mdx_docs env importPath docs else ret docs) ;;
      ret (VObj [("success", VBool true); ("docs", VObj docs)]).

Definition getStoryDocs (env : Env) (args : jsargs string) : M value :=
  try_catch (getStoryDocs_try env args).

(** The [try] block of [getStoriesByKind]. *)
Definition getStoriesByKind_try (env : Env) (args : jsargs value) : M value :=
  kind <- destructure "kind" args ;;
  response <- do_fetch env (index_url env) ;;
  if negb (ok response) then ret not_ready
  else
    data <- do_json response ;;
    matching <-
      filterM (fun entry =>
                 k <- lift (get entry k_kind) ;;
                 if strict_eq k kind then ret true
                 else t <- lift (get entry k_title) ;;
                      ret (strict_eq t kind))
              (entry_values data) ;;
    stories <-
      mapM (fun entry =>
              id <- lift (get entry k_id) ;;
              name <- lift (get entry k_name) ;;
              title <- lift (get entry k_title) ;;
              k <- lift (get entry k_kind) ;;
              title' <- lift (get entry k_title) ;;
              type <- lift (get entry k_type) ;;
              ret (VObj [ ("id", id); ("name", name); ("title", title);
                          ("kind", or_else k title'); ("type", type) ]))
           matching ;;
    ret (VObj [ ("success", VBool true);
                ("count", VNum (Z.of_nat (length stories)));
                ("kind", kind);
                ("stories", VArr stories) ]).

Definition getStoriesByKind (env : Env) (args : jsargs value) : M value :=
  try_catch (getStoriesByKind_try env args).

(** ** The REST routes ([createApp]) *)

(** [result.error?.includes('not found')] *)
Definition error_says_not_found (result : obj) : bool :=
  match lookup result "error" with
  | VStr msg => Str.includes msg "not found"
  | _ => false
  end.

(** Status of [GET /api/stories/:storyId] and [GET /api/docs/:storyId]. *)
Definition story_route_status (result : value) : Z :=
  match result with
  | VObj r =>
      if truthy (lookup r "success") then 200
      else if error_says_not_found r then 404
      else 503
  | _ => 503
  end.

(** Status of [GET /api/stories] and [GET /api/stories/kind/:kind]. *)
Definition list_route_status (result : value) : Z :=
  match result with
  | VObj r => if truthy (lookup r "success") then 200 else 503
  | _ => 503
  end.

Definition run {A : Type} (m : M A) : outcome A := fst m.

Definition trace {A : Type} (m : M A) : list event := snd m.

(** ** The usage example generator

    [generateUsageExample] lives in [./parsers]. *)

Inductive Framework : Type :=
| MarkupTemplate
| JsxComponent
| SingleFileComponent
| TemplateDescription
| UnknownFramework.

Section UsageExample.
(** The binding syntax of a framework for a value that is not a string,
    and the way a framework lays out an invocation from the component
    identity, the rendered arguments and the variant name. *)
Variable binding : Framework -> string -> value -> string.
Variable layout : Framework -> string -> list string -> string -> string.

Definition quoted (s : string) : string := dquote ++ s ++ dquote.

Definition render_argument (fw : Framework) (a : string * value) : string :=
  match snd a with
  | VStr s => fst a ++ "=" ++ quoted s
  | v => binding fw (fst a) v
  end.

(** Modelled from the spec: [generateUsageExample] of [./parsers] is not
    among the sources.  Section 4.5 makes it a pure function of the
    component identity, the argument mapping, the variant name and the
    framework: string-valued arguments are quoted, other values use the
    binding syntax of the framework, and an empty mapping gives an
    invocation without attributes. *)
Definition generateUsageExample_spec (componentIdentity : string)
    (args : obj) (variantName : string) (fw : Framework) : string :=
  layout fw componentIdentity (map (render_argument fw) args) variantName.
End UsageExample.

(** ** A sample project *)

Module Sample.

Definition story_source : string :=
  "import type { Meta } from '@storybook/angular';
import { Button } from './button.component';
const meta: Meta<Button> = { title: 'Example/Button', component: Button };
export default meta;
export const Primary = { args: { label: 'Click me' } };".

Definition button_entry : value :=
  VObj [ ("id", VStr "example-button--primary"); ("name", VStr "Primary");
         ("title", VStr "Example/Button");
         ("importPath", VStr "./src/button.stories.ts");
         ("tags", VArr [VStr "story"]); ("type", VStr "story") ].

Definition intro_entry : value :=
  VObj [ ("id", VStr "intro--docs"); ("name", VStr "Docs");
         ("title", VStr "Intro"); ("importPath", VStr "./src/Intro.mdx");
         ("type", VStr "docs") ].

Definition index : IndexJson :=
  {| entries := Some [ ("example-button--primary", button_entry);
                       ("intro--docs", intro_entry) ] |}.

Definition files (p : string) : fsnode :=
  if String.eqb p "/proj/src/button.stories.ts" then File story_source
  else if String.eqb p "/proj/src/button.component.ts" then
    File "@Component({ selector: 'app-button' }) export class Button {}"
  else if String.eqb p "/proj/src/button.component.js" then
    File "export class Button {}"
  else if String.eqb p "/proj/src/Intro.mdx" then File "# Welcome"
  else if String.eqb p "/proj/src" then Dir
  else if String.eqb p "/proj" then Dir
  else Missing.

Definition button_doc : Parsers.ComponentDoc :=
  {| Parsers.selector := VStr "app-button";
     Parsers.template := VStr "<button>{{ label }}</button>";
     Parsers.componentCode := VStr "export class Button {}";
     Parsers.properties := VArr [VObj [("name", VStr "label")]];
     Parsers.description := VStr "A button" |}.

Definition button_stories : Parsers.StoryFileDoc :=
  {| Parsers.imports := VArr [VStr "import { Button } from './button.component';"];
     Parsers.meta := VStr "{ title: 'Example/Button', component: Button }";
     Parsers.stories :=
       VObj [("Primary", VObj [("args", VObj [("label", VStr "Click me")])])] |}.

(** Angular-like rendering for the sample. *)
Definition tag_layout (_ : Framework) (tag : string) (attrs : list string)
    (_ : string) : string :=
  "<" ++ Str.join_with " " (tag :: attrs) ++ "></" ++ tag ++ ">".

Definition bracket_binding (_ : Framework) (k : string) (_ : value) : string :=
  "[" ++ k ++ "]=" ++ quoted k.

Definition generate (sel a : value) (name : string) (_ : value)
  : outcome value :=
  match sel, a with
  | VStr tag, VObj o =>
      Ret (VStr (generateUsageExample_spec bracket_binding tag_layout
                   tag o name MarkupTemplate))
  | VStr tag, _ =>
      Ret (VStr (generateUsageExample_spec bracket_binding tag_layout
                   tag [] name MarkupTemplate))
  | _, _ => Throw (Error "selector is not a string")
  end.

(** A project with the files [fs] whose story file documents as [doc]. *)
Definition project (fs : string -> fsnode) (doc : Parsers.StoryFileDoc)
  : Env :=
  {| storybookUrl := "http://localhost:6010";
     projectDir := "/proj";
     cwd := "/proj";
     framework := VStr "angular";
     fetch := fun _ => Ret {| ok := true; json := Ret index |};
     fs := fs;
     extractComponentDocs := fun _ => Ret (Some button_doc);
     extractStoryExamples := fun _ => Ret (Some doc);
     parseStoryFile := fun _ _ _ => Ret None;
     generateUsageExample := generate |}.

Definition env : Env := project files button_stories.

(** The same project without the component sources. *)
Definition stories_only (p : string) : fsnode :=
  if String.eqb p "/proj/src/button.stories.ts" then File story_source
  else if String.eqb p "/proj/src/Intro.mdx" then File "# Welcome"
  else Missing.

Definition button_id : string := "example-button--primary".

Definition primary_usage : obj :=
  [ ("Primary",
     VStr ("<app-button label=" ++ quoted "Click me" ++ "></app-button>")) ].

Definition button_path : string := "./src/button.stories.ts".

End Sample.

(** ** Vocabulary of the statements *)

(** [m] with the calls [l] in front of its own. *)
Definition prepend {A : Type} (l : list event) (m : M A) : M A :=
  (fst m, (l ++ snd m)%list).

(** The inventory answers, and [data.entries?.[storyId]] is [entry]. *)
Definition serves (env : Env) (storyId : string) (entry : value) : Prop :=
  exists response data,
    fetch env (index_url env) = Ret response /\ ok response = true /\
    json response = Ret data /\ entry_of data storyId = entry.

(** The inventory holds an entry for [storyId] whose import path is the
    non-empty string [importPath]. *)
Definition story_request (env : Env) (storyId : string) (entry : value)
    (importPath : string) : Prop :=
  serves env storyId entry /\
  get entry k_importPath = Ret (VStr importPath) /\
  Str.is_empty importPath = false.

(** [path.join(projectDir, importPath.replace(/^\.\//, ''))] *)
Definition story_path (env : Env) (importPath : string) : string :=
  Path.join [projectDir env; Str.strip_dot_slash importPath].

(** The value of the object literal that [docs] starts from. *)
Definition header (env : Env) (storyId : string) (entry : value) : obj :=
  [ ("storyId", VStr storyId); ("title", prop entry k_title);
    ("name", prop entry k_name); ("type", prop entry k_type);
    ("framework", framework env) ].

Definition success_docs (docs : obj) : value :=
  VObj [("success", VBool true); ("docs", VObj docs)].

(** [path.resolve(path.dirname(storyFilePath), specifier)] *)
Definition component_base (env : Env) (storyFilePath specifier : string)
  : string :=
  Path.resolve (cwd env) [Path.dirname storyFilePath; specifier].

(** The story file names its component and imports it from [specifier]. *)
Definition imports_component (content componentName specifier : string)
  : Prop :=
  Regex.group1 (Regex.search Regex.component_re content) = Some componentName
  /\ Regex.group1 (Regex.search (Regex.import_re componentName) content)
     = Some specifier.

Definition exists_at (env : Env) (p : string) : bool :=
  match fs env p with
  | Missing => false
  | _ => true
  end.

(** Events of the component probe. *)
Definition is_probe_event (e : event) : bool :=
  match e with
  | ExistsSync _ | ExtractComponentDocs _ => true
  | _ => false
  end.

(** Events of the extraction pipeline. *)
Definition is_parser_event (e : event) : bool :=
  match e with
  | ExtractComponentDocs _ | ExtractStoryExamples _
  | ParseStoryFile _ _ _ | GenerateUsageExample _ _ _ _ => true
  | _ => false
  end.

(** The five assignments made from a component documentation. *)
Definition with_component_docs (docs : obj) (cd : Parsers.ComponentDoc)
  : obj :=
  obj_set
    (obj_set
       (obj_set
          (obj_set (obj_set docs "selector" (Parsers.selector cd))
             "template" (Parsers.template cd))
          "componentCode" (Parsers.componentCode cd))
       "properties" (Parsers.properties cd))
    "componentDescription" (Parsers.description cd).

(** The three assignments made from a story file documentation. *)
Definition with_story_examples (docs : obj) (se : Parsers.StoryFileDoc)
  : obj :=
  obj_set
    (obj_set (obj_set docs "imports" (Parsers.imports se))
       "metaCode" (Parsers.meta se))
    "storyExamples" (Parsers.stories se).

Definition probes (base : string) (exts : list string) : list event :=
  map (fun ext => ExistsSync (base ++ ext)) exts.

(** The fields the handler copies from a component documentation. *)
Definition component_doc_fields : list string :=
  ["selector"; "template"; "componentCode"; "properties";
   "componentDescription"].

Definition is_generate_event (e : event) : bool :=
  match e with
  | GenerateUsageExample _ _ _ _ => true
  | _ => false
  end.

(** The component stage finds the file of the component [componentName]
    and [extractComponentDocs] documents it as [cd]. *)
Definition resolves_component (env : Env)
    (storyFilePath content componentName : string)
    (cd : Parsers.ComponentDoc) : Prop :=
  exists specifier pre ext post,
    imports_component content componentName specifier
    /\ extensions = (pre ++ ext :: post)%list
    /\ (forall e, In e pre ->
          exists_at env (component_base env storyFilePath specifier ++ e)
          = false)
    /\ exists_at env (component_base env storyFilePath specifier ++ ext)
       = true
    /\ extractComponentDocs env
         (component_base env storyFilePath specifier ++ ext)
       = Ret (Some cd).

(** [example] is what the loop stores for [variant]: under the name of the
    variant, the text [generateUsageExample] returns for its [args]. *)
Definition generated (env : Env) (sel : value) (variant example : string * value)
  : Prop :=
  fst example = fst variant
  /\ exists a,
       get (snd variant) k_args = Ret a
       /\ generateUsageExample env sel a (fst variant) (framework env)
          = Ret (snd example).

(** Both extractions succeed: the component documents as [cd] with a
    selector, the story file as [se] with a [stories] object, and the
    generator returns the examples [usage] for its variants. *)
Definition extraction_succeeds (env : Env)
    (storyFilePath content componentName : string)
    (cd : Parsers.ComponentDoc) (se : Parsers.StoryFileDoc) (usage : obj)
  : Prop :=
  resolves_component env storyFilePath content componentName cd
  /\ truthy (Parsers.selector cd) = true
  /\ extractStoryExamples env storyFilePath = Ret (Some se)
  /\ truthy (Parsers.stories se) = true
  /\ NoDup (keys (object_entries (Parsers.stories se)))
  /\ Forall2 (generated env (Parsers.selector cd))
       (object_entries (Parsers.stories se)) usage.

(** The fields the extraction stages add to [docs], in order. *)
Definition pipeline_fields (cd : Parsers.ComponentDoc)
    (se : Parsers.StoryFileDoc) (usage : obj) : obj :=
  [ ("selector", Parsers.selector cd);
    ("template", Parsers.template cd);
    ("componentCode", Parsers.componentCode cd);
    ("properties", Parsers.properties cd);
    ("componentDescription", Parsers.description cd);
    ("imports", Parsers.imports se);
    ("metaCode", Parsers.meta se);
    ("storyExamples", Parsers.stories se);
    ("usageExamples", VObj usage) ].

(** A path segment that normalisation keeps as it is. *)
Definition plain_segment (seg : string) : bool :=
  negb (String.eqb seg "") && negb (String.eqb seg ".")
  && negb (String.eqb seg "..")
  && forallb (fun c => negb (Ascii.eqb c Path.slash))
       (list_ascii_of_string seg).

(** [seg1/seg2/.../segn] and [/seg1/seg2/.../segn]. *)
Definition relative (segs : list string) : string := Str.join_with "/" segs.

Definition absolute (segs : list string) : string := "/" ++ relative segs.

(** An object with a boolean [success] member. *)
Definition is_result (v : value) : Prop :=
  exists r b, v = VObj r /\ own r "success" = Some (VBool b).

Definition returns_result (m : M value) : Prop :=
  forall v, run m = Ret v -> is_result v.

(** What [try]/[catch] makes of a [try] block [body]: the handler returns
    what the block returns, turns what the block throws into a failure
    result, and in both cases returns a result object. *)
Definition guards (body handler : M value) : Prop :=
  (exists v, run handler = Ret v /\ is_result v)
  /\ (forall v, run body = Ret v -> run handler = Ret v)
  /\ (forall e, run body = Throw e ->
        run handler = Ret (failure (message e))).

(** Every character of [s] is in the class [cls]. *)
Definition all_chars (cls : ascii -> bool) (s : string) : bool :=
  forallb cls (list_ascii_of_string s).

(** ** Vocabulary for the listing handlers *)

(** The inventory answers with the document [data]. *)
Definition inventory (env : Env) (data : IndexJson) : Prop :=
  exists response,
    fetch env (index_url env) = Ret response /\ ok response = true /\
    json response = Ret data.

(** The object [listStories] and [getStory] build from an entry. *)
Definition summary (entry : value) : obj :=
  [ ("id", prop entry k_id); ("name", prop entry k_name);
    ("title", prop entry k_title);
    ("kind", or_else (prop entry k_kind) (prop entry k_title));
    ("importPath", prop entry k_importPath);
    ("tags", or_else (prop entry k_tags) (VArr []));
    ("type", prop entry k_type) ].

(** The object [getStoriesByKind] builds from an entry. *)
Definition short_summary (entry : value) : value :=
  VObj [ ("id", prop entry k_id); ("name", prop entry k_name);
         ("title", prop entry k_title);
         ("kind", or_else (prop entry k_kind) (prop entry k_title));
         ("type", prop entry k_type) ].

(** The test of [listStories] on a summary and of [getStoriesByKind] on an
    entry. *)
Definition summary_matches (kind : value) (s : obj) : bool :=
  strict_eq (lookup s "kind") kind || strict_eq (lookup s "title") kind.

Definition entry_matches (kind : value) (entry : value) : bool :=
  strict_eq (prop entry k_kind) kind || strict_eq (prop entry k_title) kind.

(** [args.kind] as [listStories] reads it; nothing for [null]. *)
Definition requested_kind (args : jsargs value) : option value :=
  match args with
  | ArgUndefined => Some VUndefined
  | ArgObj kind => Some kind
  | ArgNull => None
  end.

Definition ids (stories : list obj) : list value :=
  map (fun s => lookup s "id") stories.

(** [l] is an initial segment of [full]. *)
Fixpoint is_prefix (l full : list event) : Prop :=
  match l, full with
  | [], _ => True
  | e :: l', e' :: full' => e = e' /\ is_prefix l' full'
  | _ :: _, [] => False
  end.

(** ** Vocabulary for [getStory] and for the edges of [getStoryDocs] *)

Definition success_story (story : obj) : value :=
  VObj [("success", VBool true); ("story", VObj story)].

(** What [getStory] adds to the summary from a parsed story file. *)
Definition parsed_fields (parsed : Parsers.ParsedStory) : obj :=
  ([ ("component", Parsers.component parsed);
     ("args", or_else (Parsers.args parsed) (VObj []));
     ("argTypes", or_else (Parsers.argTypes parsed) (VObj [])) ]
   ++ if truthy (Parsers.componentDocs parsed)
      then [("docs", Parsers.componentDocs parsed)]
      else [])%list.

Definition is_string (v : value) : bool :=
  match v with
  | VStr _ => true
  | _ => false
  end.

(** The loop over the variants stops at [variant] with the error [e]:
    reading its [args] throws, or the generator does. *)
Definition generation_fails (env : Env) (sel : value)
    (variant : string * value) (e : exn) : Prop :=
  get (snd variant) k_args = Throw e
  \/ exists a,
       get (snd variant) k_args = Ret a
       /\ generateUsageExample env sel a (fst variant) (framework env)
          = Throw e.

(** The loop gets past [variant]. *)
Definition generation_returns (env : Env) (sel : value)
    (variant : string * value) : Prop :=
  exists a example,
    get (snd variant) k_args = Ret a
    /\ generateUsageExample env sel a (fst variant) (framework env)
       = Ret example.

(** ** The REST routes as functions of the request *)

(** [GET /api/stories]: the handler receives [req.query]. *)
Definition stories_route (env : Env) (kind : value) : M (Z * value) :=
  result <- listStories env (ArgObj kind) ;;
  ret (list_route_status result, result).

(** [GET /api/stories/:storyId] *)
Definition story_route (env : Env) (storyId : string) : M (Z * value) :=
  result <- getStory env (ArgObj storyId) ;;
  ret (story_route_status result, result).

(** [GET /api/docs/:storyId] *)
Definition docs_route (env : Env) (storyId : string) : M (Z * value) :=
  result <- getStoryDocs env (ArgObj storyId) ;;
  ret (story_route_status result, result).

(** [GET /api/stories/kind/:kind] *)
Definition kind_route (env : Env) (kind : string) : M (Z * value) :=
  result <- getStoriesByKind env (ArgObj (VStr kind)) ;;
  ret (list_route_status result, result).

(** A result object with [success: true]. *)
Definition is_success (v : value) : Prop :=
  exists r, v = VObj r /\ own r "success" = Some (VBool true).

(** A result object with [success: false] and the error text [msg]. *)
Definition is_failure (v : value) (msg : string) : Prop :=
  exists r,
    v = VObj r /\ own r "success" = Some (VBool false)
    /\ own r "error" = Some (VStr msg).

Definition success_or_failure (v : value) : Prop :=
  is_success v \/ exists msg, is_failure v msg.

Definition returns_verdict (m : M value) : Prop :=
  forall v, run m = Ret v -> success_or_failure v.

(** What a story or documentation route answers with the body [body]. *)
Definition story_route_answer (status : Z) (body : value) : Prop :=
  (status = 200%Z /\ is_success body)
  \/ exists msg,
       is_failure body msg
       /\ status = if Str.includes msg "not found" then 404%Z else 503%Z.

(** What a listing route answers with the body [body]. *)
Definition list_route_answer (status : Z) (body : value) : Prop :=
  (status = 200%Z /\ is_success body)
  \/ (status = 503%Z /\ exists msg, is_failure body msg).

(** ** Counting calls *)

Definition count (p : event -> bool) (l : list event) : nat :=
  length (filter p l).

Definition is_fetch (e : event) : bool :=
  match e with Fetch _ => true | _ => false end.

Definition is_exists (e : event) : bool :=
  match e with ExistsSync _ => true | _ => false end.

Definition is_read (e : event) : bool :=
  match e with ReadFileSync _ => true | _ => false end.

Definition is_extract_component (e : event) : bool :=
  match e with ExtractComponentDocs _ => true | _ => false end.

Definition is_extract_stories (e : event) : bool :=
  match e with ExtractStoryExamples _ => true | _ => false end.

Definition is_parse (e : event) : bool :=
  match e with ParseStoryFile _ _ _ => true | _ => false end.

(** The bounds on what one request does. *)
Record bounded (l : list event) (probes : nat) : Prop := {
  bound_fetch : count is_fetch l <= 1;
  bound_exists : count is_exists l <= probes;
  bound_read : count is_read l <= 1;
  bound_extract_component : count is_extract_component l <= 1;
  bound_extract_stories : count is_extract_stories l <= 1;
  bound_parse : count is_parse l = 0
}.

(** ** The MCP protocol handler ([createMCPHandler]) *)

Module Mcp.

(** The members the tool handlers read off an [arguments] object; the
    story id is a string, as the input schemas of [get_story] and
    [get_story_docs] ask. *)
Record ToolArguments : Type := {
  kind : value;
  storyId : string
}.

(** [params]: missing or [null], an object, or some other value of the
    request body (none of whose members is [name], [arguments] or
    [uri]). *)
Inductive Params : Type :=
| ParamsNullish
| ParamsObject (name : value) (arguments : jsargs ToolArguments) (uri : value)
| ParamsOther.

Record Request : Type := {
  method : value;
  params : Params;
  id : value
}.

Definition serverInfo_name : string := "storybook-mcp-api".
Definition serverInfo_version : string := "1.1.0".
Definition serverInfo_protocolVersion : string := "2024-11-05".

Definition string_schema (description : string) : value :=
  VObj [("type", VStr "string"); ("description", VStr description)].

Definition tool (name description : string) (inputSchema : value) : value :=
  VObj [ ("name", VStr name); ("description", VStr description);
         ("inputSchema", inputSchema) ].

Definition tools : list value :=
  [ tool "list_stories" "List all available Storybook stories"
      (VObj [ ("type", VStr "object");
              ("properties",
               VObj [("kind",
                      string_schema "Filter stories by kind/category")]) ]);
    tool "get_story" "Get detailed information about a specific story"
      (VObj [ ("type", VStr "object");
              ("properties",
               VObj [("storyId",
                      string_schema
                        "The story ID (e.g., example-button--primary)")]);
              ("required", VArr [VStr "storyId"]) ]);
    tool "get_story_docs"
      "Get full documentation for a story including code examples"
      (VObj [ ("type", VStr "object");
              ("properties",
               VObj [("storyId",
                      string_schema
                        "The story ID (e.g., example-button--docs)")]);
              ("required", VArr [VStr "storyId"]) ]) ].

Definition stories_uri : string := "storybook://stories".

Definition resources : list value :=
  [ VObj [ ("uri", VStr stories_uri); ("name", VStr "Storybook Stories");
           ("description", VStr "All available Storybook stories");
           ("mimeType", VStr "application/json") ] ].

(** The names under which [tools] advertises the tools. *)
Definition tool_names : list value :=
  map (fun t => match t with
                | VObj o => lookup o "name"
                | _ => VUndefined
                end) tools.

Definition rpc_result (id result : value) : value :=
  VObj [("jsonrpc", VStr "2.0"); ("id", id); ("result", result)].

Definition rpc_error (id : value) (code : Z) (message : string) : value :=
  VObj [ ("jsonrpc", VStr "2.0"); ("id", id);
         ("error", VObj [("code", VNum code); ("message", VStr message)]) ].

Section Handler.

(** [JSON.stringify(v, null, 2)], [JSON.stringify(v)] and the text a
    template literal gives for a value that is not a string. *)
Variable stringify_pretty : value -> string.
Variable stringify : value -> string.
Variable text_of_other : value -> string.

(** [`${v}`] *)
Definition text_of (v : value) : string :=
  match v with
  | VStr s => s
  | _ => text_of_other v
  end.

(** [const { name, arguments: args } = params] and [const { uri } = params],
    [property] being the first property of the pattern.  Missing and
    [null] parameters are one case; the message is that of the missing
    ones. *)
Definition destructure_params (property : string) (p : Params)
  : M (value * jsargs ToolArguments * value) :=
  match p with
  | ParamsNullish =>
      typeError ("Cannot destructure property '" ++ property
                 ++ "' of 'params' as it is undefined.")
  | ParamsObject name arguments uri => ret (name, arguments, uri)
  | ParamsOther => ret (VUndefined, ArgUndefined, VUndefined)
  end.

(** [args || {}] as [listStories] receives it. *)
Definition list_arguments (args : jsargs ToolArguments) : jsargs value :=
  match args with
  | ArgObj a => ArgObj (kind a)
  | _ => ArgObj VUndefined
  end.

(** [args] as [getStory] and [getStoryDocs] receive it. *)
Definition story_arguments (args : jsargs ToolArguments) : jsargs string :=
  match args with
  | ArgObj a => ArgObj (storyId a)
  | ArgUndefined => ArgUndefined
  | ArgNull => ArgNull
  end.

Definition tool_content (result : value) : value :=
  VObj [("content",
         VArr [VObj [ ("type", VStr "text");
                      ("text", VStr (stringify_pretty result)) ]])].

Definition call_tool (env : Env) (id name : value)
    (args : jsargs ToolArguments) : M value :=
  if strict_eq name (VStr "list_stories") then
    result <- listStories env (list_arguments args) ;;
    ret (rpc_result id (tool_content result))
  else if strict_eq name (VStr "get_story") then
    result <- getStory env (story_arguments args) ;;
    ret (rpc_result id (tool_content result))
  else if strict_eq name (VStr "get_story_docs") then
    result <- getStoryDocs env (story_arguments args) ;;
    ret (rpc_result id (tool_content result))
  else ret (rpc_error id (-32601) ("Unknown tool: " ++ text_of name)).

Definition read_resource (env : Env) (id uri : value) : M value :=
  if strict_eq uri (VStr stories_uri) then
    storiesResult <- listStories env (ArgObj VUndefined) ;;
    ret (rpc_result id
           (VObj [("contents",
                   VArr [VObj [ ("uri", uri);
                                ("mimeType", VStr "application/json");
                                ("text",
                                 VStr (stringify_pretty storiesResult)) ]])]))
  else ret (rpc_error id (-32602) ("Unknown resource: " ++ text_of uri)).

Definition handleRequest (env : Env) (request : Request) : M value :=
  let method := method request in
  let id := id request in
  if strict_eq method (VStr "initialize") then
    ret (rpc_result id
           (VObj [ ("protocolVersion", VStr serverInfo_protocolVersion);
                   ("capabilities",
                    VObj [ ("tools", VObj [("listChanged", VBool false)]);
                           ("resources",
                            VObj [ ("subscribe", VBool false);
                                   ("listChanged", VBool false) ]) ]);
                   ("serverInfo",
                    VObj [ ("name", VStr serverInfo_name);
                           ("version", VStr serverInfo_version) ]) ]))
  else if strict_eq method (VStr "initialized") then
    ret (rpc_result id (VObj []))
  else if strict_eq method (VStr "tools/list") then
    ret (rpc_result id (VObj [("tools", VArr tools)]))
  else if strict_eq method (VStr "tools/call") then
    p <- destructure_params "name" (params request) ;;
    let '(name, args, _) := p in
    call_tool env id name args
  else if strict_eq method (VStr "resources/list") then
    ret (rpc_result id (VObj [("resources", VArr resources)]))
  else if strict_eq method (VStr "resources/read") then
    p <- destructure_params "uri" (params request) ;;
    let '(_, _, uri) := p in
    read_resource env id uri
  else if strict_eq method (VStr "ping") then
    ret (rpc_result id (VObj []))
  else ret (rpc_error id (-32601) ("Method not found: " ++ text_of method)).

(** [POST /mcp] *)
Definition post_mcp (env : Env) (body : Request) : M (Z * value) :=
  match handleRequest env body with
  | (Ret response, l) => (Ret (200%Z, response), l)
  | (Throw e, l) => (Ret (500%Z, rpc_error (id body) (-32603) (message e)), l)
  end.

End Handler.

End Mcp.

(** ** Vocabulary for the MCP handler *)

(** A JSON-RPC response to the request [id]: a result, or an error with
    [code]. *)
Definition is_rpc_result (id response : value) : Prop :=
  exists payload, response = Mcp.rpc_result id payload.

Definition is_rpc_error (id response : value) (code : Z) : Prop :=
  exists msg, response = Mcp.rpc_error id code msg.

(** The methods that read [params]. *)
Definition reads_params (method : value) : Prop :=
  method = VStr "tools/call" \/ method = VStr "resources/read".

(** ** The SSE transport ([GET /sse], [POST /sse/messages])

    The registry holds, for each session, what has been written to the
    response stream of its connection.  The identifiers drawn by
    [uuidv4()] are an input.  Requests are taken one at a time: nothing
    else happens to the registry while a posted message is handled. *)

Module Sse.

Definition nl : string := String "010"%char EmptyString.

(** The session registry: for each session id, in insertion order, the
    chunks written so far to the response stream of its connection. *)
Definition Sessions : Type := list (string * list string).

Fixpoint get (st : Sessions) (sessionId : string) : option (list string) :=
  match st with
  | [] => None
  | (k, chunks) :: st' =>
      if String.eqb k sessionId then Some chunks else get st' sessionId
  end.

(** [Map.prototype.set]: an existing key keeps its place. *)
Fixpoint set (st : Sessions) (sessionId : string) (chunks : list string)
  : Sessions :=
  match st with
  | [] => [(sessionId, chunks)]
  | (k, c) :: st' =>
      if String.eqb k sessionId then (sessionId, chunks) :: st'
      else (k, c) :: set st' sessionId chunks
  end.

(** [Map.prototype.delete] *)
Definition delete (st : Sessions) (sessionId : string) : Sessions :=
  filter (fun entry => negb (String.eqb (fst entry) sessionId)) st.

Definition size (st : Sessions) : Z := Z.of_nat (length st).

(** [a || b] on a header or configuration string that may be missing. *)
Definition or_default (a : option string) (b : string) : string :=
  match a with
  | Some s => if Str.is_empty s then b else s
  | None => b
  end.

(** [config.port || 6006] as text. *)
Definition port_text (port : option nat) : string :=
  match port with
  | Some (S n) => index_string (S n)
  | _ => "6006"
  end.

Definition messages_url (protocol host : option string) (port : option nat)
    (sessionId : string) : string :=
  or_default protocol "http" ++ "://"
  ++ or_default host ("localhost:" ++ port_text port)
  ++ "/sse/messages?sessionId=" ++ sessionId.

Definition endpoint_event (url : string) : string :=
  "event: endpoint" ++ nl ++ "data: " ++ url ++ nl ++ nl.

Definition message_event (data : string) : string :=
  "event: message" ++ nl ++ "data: " ++ data ++ nl ++ nl.

Definition ping_comment : string := ": ping" ++ nl ++ nl.

(** [GET /sse] with the identifier [sessionId] drawn by [uuidv4()]. *)
Definition connect (protocol host : option string) (port : option nat)
    (sessionId : string) (st : Sessions) : Sessions :=
  set st sessionId
    [endpoint_event (messages_url protocol host port sessionId)].

(** The [close] listener of the request. *)
Definition close (sessionId : string) (st : Sessions) : Sessions :=
  delete st sessionId.

(** One firing of the keep-alive timer of the connection [sessionId]. *)
Definition ping (sessionId : string) (st : Sessions) : Sessions :=
  match get st sessionId with
  | Some chunks => set st sessionId (chunks ++ [ping_comment])
  | None => st
  end.

Definition falsy_id (sessionId : option string) : bool :=
  match sessionId with
  | Some s => Str.is_empty s
  | None => true
  end.

Section Messages.

Variable stringify_pretty : value -> string.
Variable stringify : value -> string.
Variable text_of_other : value -> string.

(** [POST /sse/messages]: the registry afterwards, the status and the
    body of the answer. *)
Definition post_message (env : Env) (st : Sessions)
    (sessionId : option string) (body : Mcp.Request)
  : M (Sessions * (Z * value)) :=
  match sessionId with
  | None =>
      ret (st, (400%Z, VObj [("error", VStr "Missing sessionId parameter")]))
  | Some sid =>
      if Str.is_empty sid then
        ret (st,
             (400%Z, VObj [("error", VStr "Missing sessionId parameter")]))
      else
        match get st sid with
        | None =>
            ret (st,
                 (404%Z,
                  VObj [ ("error", VStr "Session not found");
                         ("hint",
                          VStr "The SSE session may have expired or disconnected. Please reconnect to /sse");
                         ("activeSessions", VNum (size st)) ]))
        | Some chunks =>
            match Mcp.handleRequest stringify_pretty text_of_other env body
            with
            | (Ret response, l) =>
                (Ret (set st sid
                        (chunks ++ [message_event (stringify response)]),
                      (202%Z, VObj [("status", VStr "accepted")])), l)
            | (Throw e, l) =>
                (Ret (st, (500%Z, VObj [("error", VStr (message e))])), l)
            end
        end
  end.

(** What can happen to the registry. *)
Inductive step : Type :=
| Connect (protocol host : option string) (port : option nat)
    (sessionId : string)
| Close (sessionId : string)
| Ping (sessionId : string)
| Post (sessionId : option string) (body : Mcp.Request).

Definition apply (env : Env) (st : Sessions) (s : step) : Sessions :=
  match s with
  | Connect protocol host port sessionId =>
      connect protocol host port sessionId st
  | Close sessionId => close sessionId st
  | Ping sessionId => ping sessionId st
  | Post sessionId body =>
      match run (post_message env st sessionId body) with
      | Ret (st', _) => st'
      | Throw _ => st
      end
  end.

(** The registry after the steps [steps], starting with no session. *)
Definition after (env : Env) (steps : list step) : Sessions :=
  fold_left (apply env) steps [].

End Messages.

End Sse.

(** ** Vocabulary for the SSE transport *)

(** A chunk that follows the endpoint event on a stream. *)
Definition later_chunk (c : string) : Prop :=
  c = Sse.ping_comment \/ exists data, c = Sse.message_event data.

(** The stream of the session [sessionId] starts with the endpoint event
    that names this session, and goes on with messages and pings. *)
Definition stream_of (sessionId : string) (chunks : list string) : Prop :=
  exists protocol host port rest,
    chunks
    = Sse.endpoint_event (Sse.messages_url protocol host port sessionId)
      :: rest
    /\ Forall later_chunk rest.

Definition registry_ok (st : Sse.Sessions) : Prop :=
  NoDup (map fst st)
  /\ Forall (fun entry => stream_of (fst entry) (snd entry)) st.

(** ** The command line ([cli.js]): locating a Storybook build *)

Module Cli.

(** The members read off [angular.json] and [package.json].  None of them
    is a member of a prototype of the built-in values. *)
Inductive config_key : Type :=
| c_projects | c_architect | c_build_storybook | c_options | c_outputDir
| c_storybook | c_scripts.

Definition config_key_name (k : config_key) : string :=
  match k with
  | c_projects => "projects"
  | c_architect => "architect"
  | c_build_storybook => "build-storybook"
  | c_options => "options"
  | c_outputDir => "outputDir"
  | c_storybook => "storybook"
  | c_scripts => "scripts"
  end.

(** [v.k] for a value [v] that is neither [undefined] nor [null]. *)
Definition member_of (v : value) (k : config_key) : value :=
  match v with
  | VObj o => lookup o (config_key_name k)
  | _ => VUndefined
  end.

(** [v.k] *)
Definition member (v : value) (k : config_key) : M value :=
  if nullish v then
    typeError ("Cannot read properties of " ++ nullish_text v
               ++ " (reading '" ++ config_key_name k ++ "')")
  else ret (member_of v k).

(** [v?.k] *)
Definition optional (v : value) (k : config_key) : value :=
  if nullish v then VUndefined else member_of v k.

Section Detect.

(** The file system and [JSON.parse]. *)
Variable fs : string -> fsnode.
Variable parse : string -> outcome value.

Definition exists_sync (p : string) : M bool :=
  call (ExistsSync p) (Ret (match fs p with Missing => false | _ => true end)).

Definition read_file_sync (p : string) : M string :=
  call (ReadFileSync p)
       (match fs p with
        | File content => Ret content
        | Dir => Throw (Error "EISDIR: illegal operation on a directory, read")
        | Missing =>
            Throw (Error ("ENOENT: no such file or directory, open '"
                          ++ p ++ "'"))
        end).

(** [path.join(projectDir, outputDir)] for the value [outputDir]. *)
Definition join_output (projectDir : string) (outputDir : value) : M string :=
  match outputDir with
  | VStr s => ret (Path.join [projectDir; s])
  | _ => typeError "The path argument must be of type string"
  end.

(** The loop over the projects of [angular.json]; [Some dir] is the
    [return] from inside it. *)
Fixpoint scan_projects (projectDir : string) (projects : list value)
  : M (option string) :=
  match projects with
  | [] => ret None
  | project :: rest =>
      architect <- member project c_architect ;;
      let buildStorybook := optional architect c_build_storybook in
      if truthy (optional (optional buildStorybook c_options) c_outputDir)
      then
        outputDir <-
          join_output projectDir
            (optional (optional buildStorybook c_options) c_outputDir) ;;
        found <- exists_sync outputDir ;;
        if found then ret (Some outputDir)
        else scan_projects projectDir rest
      else scan_projects projectDir rest
  end.

(** The body of the [try] block. *)
Definition scan_angular (projectDir angularJsonPath : string)
  : M (option string) :=
  text <- read_file_sync angularJsonPath ;;
  angularJson <- lift (parse text) ;;
  projects <- member angularJson c_projects ;;
  scan_projects projectDir
    (map snd (object_entries (or_else projects (VObj [])))).

Definition defaultDirs : list string :=
  ["storybook-static"; "dist/storybook"; "build/storybook"].

(** The loop over the default directories. *)
Fixpoint scan_defaults (projectDir : string) (dirs : list string)
  : M (option (string * string)) :=
  match dirs with
  | [] => ret None
  | dir :: rest =>
      let fullPath := Path.join [projectDir; dir] in
      found <- exists_sync fullPath ;;
      hasIndex <-
        and_then found (exists_sync (Path.join [fullPath; "index.json"])) ;;
      if hasIndex then ret (Some (fullPath, "auto-detected"))
      else scan_defaults projectDir rest
  end.

(** [try { ... } catch (error) { }] around the scan of [angular.json]:
    an error is dropped and the function goes on. *)
Definition ignore_errors (body : M (option string)) : M (option string) :=
  match body with
  | (Ret r, l) => (Ret r, l)
  | (Throw _, l) => (Ret None, l)
  end.

Definition detectStorybookOutputDir (projectDir : string)
  : M (option (string * string)) :=
  let angularJsonPath := Path.join [projectDir; "angular.json"] in
  hasAngularJson <- exists_sync angularJsonPath ;;
  fromAngular <-
    (if hasAngularJson then
       ignore_errors (scan_angular projectDir angularJsonPath)
     else ret None) ;;
  match fromAngular with
  | Some outputDir => ret (Some (outputDir, "angular.json"))
  | None => scan_defaults projectDir defaultDirs
  end.

End Detect.

End Cli.

(** Vocabulary for the detection of a build. *)

(** [fs.existsSync(p)] *)
Definition present (fs : string -> fsnode) (p : string) : bool :=
  match fs p with Missing => false | _ => true end.

(** [dir], taken below [projectDir], exists and holds an [index.json]. *)
Definition holds_build (fs : string -> fsnode) (projectDir dir : string)
  : bool :=
  present fs (Path.join [projectDir; dir])
  && present fs (Path.join [Path.join [projectDir; dir]; "index.json"]).

Definition auto_detected (projectDir dir : string) : string * string :=
  (Path.join [projectDir; dir], "auto-detected").

(** A project with a static build and an [angular.json] that is not JSON. *)
Module CliSample.

Definition projectDir : string := "/app".

Definition fs (p : string) : fsnode :=
  if String.eqb p "/app/angular.json" then File "{ projects: "
  else if String.eqb p "/app/build/storybook" then Dir
  else if String.eqb p "/app/build/storybook/index.json" then File "{}"
  else if String.eqb p "/app/storybook-static" then Dir
  else Missing.

Definition parse (text : string) : outcome value :=
  if String.eqb text "{}" then Ret (VObj [])
  else Throw (Error "Unexpected token p in JSON at position 2").

End CliSample.

(** ** The static API ([generateStaticApi]): one file per story *)

Module Static.

(** [[a-zA-Z0-9_-]] *)
Definition safe_char (c : ascii) : bool :=
  Regex.is_word c || Regex.code_in 45 45 c.

(** [storyId.replace(/[^a-zA-Z0-9_-]/g, '_')] *)
Fixpoint safeId (storyId : string) : string :=
  match storyId with
  | EmptyString => EmptyString
  | String c rest =>
      String (if safe_char c then c else "_"%char) (safeId rest)
  end.

(** What the loop has done so far: the calls of [fs.writeFileSync], oldest
    first, each with its path and its text, and the two counters. *)
Record Output : Type := {
  writes : list (string * string);
  storyCount : nat;
  docsCount : nat
}.

Definition start : Output :=
  {| writes := []; storyCount := 0; docsCount := 0 |}.

Definition write_story (out : Output) (path text : string) : Output :=
  {| writes := (writes out ++ [(path, text)])%list;
     storyCount := S (storyCount out);
     docsCount := docsCount out |}.

Definition write_docs (out : Output) (path text : string) : Output :=
  {| writes := (writes out ++ [(path, text)])%list;
     storyCount := storyCount out;
     docsCount := S (docsCount out) |}.

Section Generate.

(** [JSON.stringify(await handlers.getStory({ storyId }), null, 2)] and the
    same for [handlers.getStoryDocs]. *)
Variable getStory_json : string -> outcome string.
Variable getStoryDocs_json : string -> outcome string.

Variable staticDir : string.

Definition apiDir : string := Path.join [staticDir; "api"].
Definition storiesDir : string := Path.join [apiDir; "stories"].
Definition docsDir : string := Path.join [apiDir; "docs"].

Definition story_file (storyId : string) : string :=
  Path.join [storiesDir; safeId storyId ++ ".json"].

Definition docs_file (storyId : string) : string :=
  Path.join [docsDir; safeId storyId ++ ".json"].

(** One turn of the loop.  What was written before an error stays
    written. *)
Definition entry_files (entry : value) (out : Output)
  : Output * option exn :=
  match get entry k_id with
  | Throw e => (out, Some e)
  | Ret (VStr storyId) =>
      match getStory_json storyId with
      | Throw e => (out, Some e)
      | Ret storyText =>
          let out' := write_story out (story_file storyId) storyText in
          match getStoryDocs_json storyId with
          | Throw e => (out', Some e)
          | Ret docsText =>
              (write_docs out' (docs_file storyId) docsText, None)
          end
      end
  | Ret VUndefined =>
      (out,
       Some (Error "Cannot read properties of undefined (reading 'replace')"))
  | Ret VNull =>
      (out, Some (Error "Cannot read properties of null (reading 'replace')"))
  | Ret _ => (out, Some (Error "storyId.replace is not a function"))
  end.

(** [for (const entry of stories) { ... }] *)
Fixpoint generate_entries (stories : list value) (out : Output)
  : Output * option exn :=
  match stories with
  | [] => (out, None)
  | entry :: rest =>
      match entry_files entry out with
      | (out', None) => generate_entries rest out'
      | stopped => stopped
      end
  end.

End Generate.

End Static.

(** Vocabulary for the static API. *)

(** The entry is an object whose [id] is the string [storyId]. *)
Definition has_id (entry : value) (storyId : string) : Prop :=
  get entry k_id = Ret (VStr storyId).

(** The files of a story, in the order in which they are written. *)
Definition files_of (staticDir storyId : string) : list string :=
  [Static.story_file staticDir storyId; Static.docs_file staticDir storyId].

(** A build directory [/seg/.../seg] written in normal form. *)
Definition clean_directory (dir : string) (segs : list string) : Prop :=
  dir = absolute segs /\ segs <> [] /\ forallb plain_segment segs = true.

(** A project whose inventory holds two ids that differ in one character
    outside [[a-zA-Z0-9_-]]. *)
Module StaticSample.

Definition staticDir : string := "/app/storybook-static".

Definition getStory_json (storyId : string) : outcome string :=
  Ret ("story " ++ storyId).

Definition getStoryDocs_json (storyId : string) : outcome string :=
  Ret ("docs " ++ storyId).

Definition stories : list value :=
  [VObj [("id", VStr "forms-input--v1.0")];
   VObj [("id", VStr "forms-input--v1_0")]].

Definition broken : value := VObj [("id", VNum 7)].

Definition output : Static.Output :=
  fst (Static.generate_entries getStory_json getStoryDocs_json staticDir
         stories Static.start).

End StaticSample.

(** Variations of the sample project. *)
Module Cases.

Definition button_parsed : Parsers.ParsedStory :=
  {| Parsers.component := VStr "Button";
     Parsers.args := VObj [("label", VStr "Click me")];
     Parsers.argTypes := VUndefined;
     Parsers.componentDocs := VNull |}.

Definition project (index : IndexJson) (ready : bool)
    (fs : string -> fsnode) (component : Parsers.ComponentDoc)
    (stories : Parsers.StoryFileDoc)
    (generate : value -> value -> string -> value -> outcome value) : Env :=
  {| storybookUrl := "http://localhost:6010";
     projectDir := "/proj";
     cwd := "/proj";
     framework := VStr "angular";
     fetch := fun _ => Ret {| ok := ready; json := Ret index |};
     fs := fs;
     extractComponentDocs := fun _ => Ret (Some component);
     extractStoryExamples := fun _ => Ret (Some stories);
     parseStoryFile := fun _ _ _ => Ret (Some button_parsed);
     generateUsageExample := generate |}.

(** Storybook is up but answers with an error status. *)
Definition starting : Env :=
  project Sample.index false Sample.files Sample.button_doc
    Sample.button_stories Sample.generate.

(** The parser of [getStory] finds the story. *)
Definition parsing : Env :=
  project Sample.index true Sample.files Sample.button_doc
    Sample.button_stories Sample.generate.

(** An inventory with a hole, an entry without an import path and an entry
    whose import path is a number. *)
Definition bare_entry : value :=
  VObj [ ("id", VStr "bare--story"); ("name", VStr "Story");
         ("title", VStr "Bare"); ("type", VStr "story") ].

Definition numbered_entry : value :=
  VObj [ ("id", VStr "numbered--story"); ("name", VStr "Story");
         ("title", VStr "Numbered"); ("importPath", VNum 3);
         ("type", VStr "story") ].

Definition odd_index : IndexJson :=
  {| entries := Some [ ("bare--story", bare_entry);
                       ("numbered--story", numbered_entry);
                       ("removed--story", VNull) ] |}.

Definition odd : Env :=
  project odd_index true Sample.files Sample.button_doc
    Sample.button_stories Sample.generate.

(** The story file is not on disk. *)
Definition nothing (_ : string) : fsnode := Missing.

(** The component documents without a selector. *)
Definition no_selector : Parsers.ComponentDoc :=
  {| Parsers.selector := VUndefined;
     Parsers.template := Parsers.template Sample.button_doc;
     Parsers.componentCode := Parsers.componentCode Sample.button_doc;
     Parsers.properties := Parsers.properties Sample.button_doc;
     Parsers.description := Parsers.description Sample.button_doc |}.

Definition unselected : Env :=
  project Sample.index true Sample.files no_selector Sample.button_stories
    Sample.generate.

(** Two variants; the generator fails on the second. *)
Definition two_variants : Parsers.StoryFileDoc :=
  {| Parsers.imports := Parsers.imports Sample.button_stories;
     Parsers.meta := Parsers.meta Sample.button_stories;
     Parsers.stories :=
       VObj [ ("Primary", VObj [("args", VObj [("label", VStr "Click me")])]);
              ("Broken", VObj [("args", VObj [("label", VStr "Oops")])]) ] |}.

Definition generate_primary (sel a : value) (name : string) (fw : value)
  : outcome value :=
  if String.eqb name "Primary" then Sample.generate sel a name fw
  else Throw (Error "cannot render").

Definition failing : Env :=
  project Sample.index true Sample.files Sample.button_doc two_variants
    generate_primary.

(** A stand-in for [JSON.stringify] and for the text of a value in a
    template literal. *)
Definition stringify (v : value) : string :=
  match v with
  | VStr s => s
  | VObj _ => "{}"
  | _ => "null"
  end.

Definition ping : Mcp.Request :=
  {| Mcp.method := VStr "ping"; Mcp.params := Mcp.ParamsNullish;
     Mcp.id := VNum 1 |}.

End Cases.

(** ** Starting Storybook ([startStorybookProcess]): the command *)

Module Launch.

(** [v.includes('ng run')]: strings and arrays have the method. *)
Definition includes_ng_run (v : value) : outcome bool :=
  match v with
  | VStr s => Ret (Str.includes s "ng run")
  | VArr items => Ret (existsb (fun item => strict_eq item (VStr "ng run")) items)
  | _ => Throw (Error "packageJson.scripts.storybook.includes is not a function")
  end.

Definition Command : Type := string * list string.

Definition npm_script : Command := ("npm", ["run"; "storybook"]).

(** What the function hands to [spawn], and its calls of
    [fs.writeFileSync], each with its path and its text. *)
Record Started : Type := {
  command : Command;
  rewritten : list (string * string)
}.

Section Start.

Variable fs : string -> fsnode.
Variable parse : string -> outcome value.

(** [angularJson] after the assignments to the [options] of the Storybook
    target of the project [projectName], as [JSON.stringify] writes it. *)
Variable with_options : value -> string -> outcome string.

(** [storybookPort.toString()], [projectDir], [framework] and
    [version >= 8] of the configuration. *)
Variable port : string.
Variable projectDir : string.
Variable framework : value.
Variable version_at_least_8 : bool.

Definition cli : Command :=
  ("npx", ["storybook"; "dev"; "-p"; port; "--no-open"]).

Definition read (p : string) : outcome string :=
  match fs p with
  | File content => Ret content
  | Dir => Throw (Error "EISDIR: illegal operation on a directory, read")
  | Missing =>
      Throw (Error ("ENOENT: no such file or directory, open '" ++ p ++ "'"))
  end.

(** The look at [package.json].  Both of its outcomes select the npm
    script; what matters is whether it throws. *)
Definition uses_ng_run : outcome bool :=
  let packageJsonPath := Path.join [projectDir; "package.json"] in
  if present fs packageJsonPath then
    match read packageJsonPath with
    | Throw e => Throw e
    | Ret text =>
        match parse text with
        | Throw e => Throw e
        | Ret packageJson =>
            if nullish packageJson then
              Throw (Error ("Cannot read properties of " ++ nullish_text packageJson
                            ++ " (reading 'scripts')"))
            else
              let storybook :=
                Cli.optional (Cli.member_of packageJson Cli.c_scripts)
                  Cli.c_storybook in
              if truthy storybook then includes_ng_run storybook
              else Ret false
        end
    end
  else Ret false.

(** The loop over the projects of [angular.json], with the writes made
    before it ended. *)
Fixpoint choose (angularJson : value) (angularJsonPath : string)
    (projects : list (string * value))
  : list (string * string) * outcome (option Command) :=
  match projects with
  | [] => ([], Ret None)
  | (projectName, project) :: rest =>
      if nullish project then
        ([], Throw (Error ("Cannot read properties of " ++ nullish_text project
                           ++ " (reading 'architect')")))
      else if truthy (Cli.optional (Cli.member_of project Cli.c_architect)
                        Cli.c_storybook)
      then
        match with_options angularJson projectName with
        | Throw e => ([], Throw e)
        | Ret text =>
            match uses_ng_run with
            | Throw e => ([(angularJsonPath, text)], Throw e)
            | Ret _ => ([(angularJsonPath, text)], Ret (Some npm_script))
            end
        end
      else choose angularJson angularJsonPath rest
  end.

(** The body of the [try] block. *)
Definition from_angular (angularJsonPath : string)
  : list (string * string) * outcome (option Command) :=
  match read angularJsonPath with
  | Throw e => ([], Throw e)
  | Ret text =>
      match parse text with
      | Throw e => ([], Throw e)
      | Ret angularJson =>
          if nullish angularJson then
            ([], Throw (Error ("Cannot read properties of "
                               ++ nullish_text angularJson
                               ++ " (reading 'projects')")))
          else
            choose angularJson angularJsonPath
              (object_entries
                 (or_else (Cli.member_of angularJson Cli.c_projects)
                          (VObj [])))
      end
  end.

Definition startStorybookProcess : Started :=
  if strict_eq framework (VStr "angular") && version_at_least_8 then
    let angularJsonPath := Path.join [projectDir; "angular.json"] in
    if present fs angularJsonPath then
      match from_angular angularJsonPath with
      | (writes, Ret (Some chosen)) =>
          {| command := chosen; rewritten := writes |}
      | (writes, _) => {| command := cli; rewritten := writes |}
      end
    else {| command := cli; rewritten := [] |}
  else {| command := cli; rewritten := [] |}.

End Start.

End Launch.

(** An Angular workspace with a Storybook target, and a [package.json]
    that is not JSON. *)
Module LaunchSample.

Definition workspace : value :=
  VObj [("projects",
         VObj [("app",
                VObj [("architect",
                       VObj [("storybook", VObj [("builder", VStr "ng")])])])])].

Definition fs (p : string) : fsnode :=
  if String.eqb p "/app/angular.json" then File "workspace"
  else if String.eqb p "/app/package.json" then File "{ scripts"
  else Missing.

Definition parse (text : string) : outcome value :=
  if String.eqb text "workspace" then Ret workspace
  else Throw (Error "Unexpected token s in JSON at position 2").

Definition with_options (angularJson : value) (projectName : string)
  : outcome string :=
  Ret ("workspace with options for " ++ projectName).

Definition started : Launch.Started :=
  Launch.startStorybookProcess fs parse with_options "6010" "/app"
    (VStr "angular") true.

End LaunchSample.

(** ** The story example extractor

    [extractStoryExamples] lives in [./parsers]. *)

(** What a story file declares, as section 4.3 lists it: the import block,
    the shared meta declaration, and the named variants with their
    argument objects in the order of their declaration. *)
Record StoryFile : Type := {
  import_block : value;
  meta_declaration : value;
  named_variants : list (string * value)
}.

Section StoryExamples.

(** The declarations of a story file, read off its text.  How they are
    recognised is not said. *)
Variable read : string -> StoryFile.

(** The mapping from variant name to variant, in declaration order. *)
Definition variant_mapping (variants : list (string * value)) : obj :=
  fold_left
    (fun stories variant =>
       obj_set stories (fst variant) (VObj [("args", snd variant)]))
    variants [].

(** Modelled from the spec: [extractStoryExamples] of [./parsers] is not
    among the sources.  Section 4.3 has it return, for a story file, the
    import block, the meta declaration and every named variant export
    together with its argument object, preserving declaration order, and
    nothing for a path without a file; a story file with zero named
    variants is valid and yields an empty variant mapping, not an
    error. *)
Definition extractStoryExamples_spec (fs : string -> fsnode)
    (storyFilePath : string) : outcome (option Parsers.StoryFileDoc) :=
  match fs storyFilePath with
  | File content =>
      Ret (Some {| Parsers.imports := import_block (read content);
                   Parsers.meta := meta_declaration (read content);
                   Parsers.stories :=
                     VObj (variant_mapping (named_variants (read content))) |})
  | _ => Ret None
  end.

End StoryExamples.

(** A reading for the sample projects: a named variant is an
    [export const] followed by its name. *)
Module Reader.

Fixpoint word_prefix (s : string) : string :=
  match s with
  | EmptyString => EmptyString
  | String c rest =>
      if Regex.is_word c then String c (word_prefix rest) else EmptyString
  end.

Fixpoint exported_names (s : string) : list string :=
  match s with
  | EmptyString => []
  | String _ rest =>
      match Str.drop_prefix "export const " s with
      | Some after => word_prefix after :: exported_names rest
      | None => exported_names rest
      end
  end.

Fixpoint import_lines (lines : list string) : list value :=
  match lines with
  | [] => []
  | line :: rest =>
      if Str.starts_with "import " line then VStr line :: import_lines rest
      else import_lines rest
  end.

(** The argument objects of the sample variants. *)
Definition sample_args (name : string) : value :=
  if String.eqb name "Primary" then VObj [("label", VStr "Click me")]
  else VObj [].

Definition read (content : string) : StoryFile :=
  {| import_block :=
       VArr (import_lines (Str.split_on "010"%char content));
     meta_declaration := VUndefined;
     named_variants :=
       map (fun name => (name, sample_args name)) (exported_names content) |}.

End Reader.

(** The sample project with a story file that declares its component and
    no variant. *)
Module Bare.

Definition story_source : string :=
  "import type { Meta } from '@storybook/angular';
import { Button } from './button.component';
const meta: Meta<Button> = { title: 'Example/Button', component: Button };
export default meta;".

Definition files (p : string) : fsnode :=
  if String.eqb p "/proj/src/button.stories.ts" then File story_source
  else Sample.files p.

Definition env : Env :=
  {| storybookUrl := "http://localhost:6010";
     projectDir := "/proj";
     cwd := "/proj";
     framework := VStr "angular";
     fetch := fun _ => Ret {| ok := true; json := Ret Sample.index |};
     fs := files;
     extractComponentDocs := fun _ => Ret (Some Sample.button_doc);
     extractStoryExamples := extractStoryExamples_spec Reader.read files;
     parseStoryFile := fun _ _ _ => Ret None;
     generateUsageExample := Sample.generate |}.

End Bare.

(** An entry whose import path is the project directory itself. *)
Module RootEntry.

Definition entry : value :=
  VObj [ ("id", VStr "root--story"); ("name", VStr "Story");
         ("title", VStr "Root"); ("importPath", VStr "./");
         ("type", VStr "story") ].

Definition index : IndexJson :=
  {| entries := Some [("root--story", entry)] |}.

Definition env : Env :=
  Cases.project index true Sample.files Sample.button_doc
    Sample.button_stories Sample.generate.

End RootEntry.

(** * Properties *)

(** ** Sanity checks of the library models *)

Example component_re_ex :
  Regex.group1 (Regex.search Regex.component_re
    "const meta = { title: 'X', component:  Button, };") = Some "Button".
Proof. reflexivity. Qed.

Example import_re_ex :
  Regex.group1 (Regex.search (Regex.import_re "Button")
    "import { Meta } from '@storybook/x'; import { Button } from './button.component';")
  = Some "./button.component".
Proof. reflexivity. Qed.

Example path_ex :
  Path.join ["/proj"; "src/button.stories.ts"] = "/proj/src/button.stories.ts"
  /\ Path.dirname "/proj/src/button.stories.ts" = "/proj/src"
  /\ Path.resolve "/cwd" ["/proj/src"; "../lib/./button"] = "/proj/lib/button"
  /\ Path.join ["."; "src/a.ts"] = "src/a.ts"
  /\ Path.dirname "/a" = "/" /\ Path.dirname "a//b" = "a/"
  /\ Path.dirname "/a/b/" = "/a".
Proof. repeat split; reflexivity. Qed.

(** ** The patterns *)

Lemma star_inv {R : Type} (cls : ascii -> bool) (k : string -> option R)
    (s : string) (r : R) :
  Regex.star cls k s = Some r -> exists s', k s' = Some r.
Proof.
  induction s as [ | c s IH]; simpl.
  - intros H. exists EmptyString. exact H.
  - destruct (cls c).
    + destruct (Regex.star cls k s) as [r' | ] eqn:E.
      * intros H. inversion H. subst r'. apply IH. reflexivity.
      * intros H. eexists. exact H.
    + intros H. eexists. exact H.
Qed.

Lemma star_cap_inv {R : Type} (cls : ascii -> bool)
    (k : string -> string -> option R) (s : string) (r : R) :
  Regex.star_cap cls k s = Some r ->
  exists m rest, all_chars cls m = true /\ k m rest = Some r.
Proof.
  revert k. induction s as [ | c s IH]; intros k; simpl.
  - intros H. exists EmptyString, EmptyString. split; [reflexivity | exact H].
  - destruct (cls c) eqn:Hc.
    + destruct (Regex.star_cap cls (fun m rest => k (String c m) rest) s)
        as [r' | ] eqn:E.
      * intros H. inversion H. subst r'.
        destruct (IH _ E) as (m & rest & Hm & Hk).
        exists (String c m), rest. split; [ | exact Hk ].
        unfold all_chars in *. simpl. rewrite Hc, Hm. reflexivity.
      * intros H. exists EmptyString, (String c s).
        split; [reflexivity | exact H].
    + intros H. exists EmptyString, (String c s).
      split; [reflexivity | exact H].
Qed.

Lemma plus_cap_inv {R : Type} (cls : ascii -> bool)
    (k : string -> string -> option R) (s : string) (r : R) :
  Regex.plus_cap cls k s = Some r ->
  exists m rest,
    all_chars cls m = true /\ Str.is_empty m = false /\ k m rest = Some r.
Proof.
  destruct s as [ | c s]; simpl; [discriminate | ].
  destruct (cls c) eqn:Hc; [ | discriminate ].
  intros H. destruct (star_cap_inv _ _ _ _ H) as (m & rest & Hm & Hk).
  exists (String c m), rest. split; [ | split; [reflexivity | exact Hk] ].
  unfold all_chars in *. simpl. rewrite Hc, Hm. reflexivity.
Qed.

Lemma search_inv (r : list Regex.atom) (s : string) (caps : list string) :
  Regex.search r s = Some caps ->
  exists s', Regex.match_here r [] s' = Some caps.
Proof.
  induction s as [ | c s IH]; simpl.
  - destruct (Regex.match_here r [] EmptyString) eqn:E; [ | discriminate ].
    intros H. inversion H. subst. eexists. exact E.
  - destruct (Regex.match_here r [] (String c s)) eqn:E.
    + intros H. inversion H. subst. eexists. exact E.
    + exact IH.
Qed.

(** The component name taken from the story file is a non-empty run of
    word characters: inside the import pattern it stands for itself. *)
Lemma component_name_is_word (content componentName : string) :
  Regex.group1 (Regex.search Regex.component_re content) = Some componentName ->
  all_chars Regex.is_word componentName = true
  /\ Str.is_empty componentName = false.
Proof.
  destruct (Regex.search Regex.component_re content) as [caps | ] eqn:E;
    [ | discriminate ].
  destruct (search_inv _ _ _ E) as (s' & Hm). unfold Regex.component_re in Hm.
  cbn [Regex.match_here] in Hm.
  destruct (Str.drop_prefix "component:" s') as [s1 | ]; [ | discriminate ].
  destruct (star_inv _ _ _ _ Hm) as (s2 & Hp).
  destruct (plus_cap_inv _ _ _ _ Hp) as (m & rest & Hw & Hne & Hk).
  cbn [Regex.match_here rev app] in Hk. inversion Hk. subst caps.
  simpl. intros H. inversion H. subst m. split; assumption.
Qed.

(** ** Resolved paths *)

Lemma resolve_scan_absolute (paths : list string) (cwd acc : string) :
  Path.isAbsolute cwd = true ->
  snd (Path.resolve_scan (paths ++ [cwd])%list acc) = true.
Proof.
  intros H. revert acc. induction paths as [ | p rest IH]; intros acc.
  - cbn [app Path.resolve_scan]. destruct cwd; [discriminate | ].
    cbn [Str.is_empty]. rewrite H. reflexivity.
  - cbn [app Path.resolve_scan]. destruct (Str.is_empty p); [apply IH | ].
    destruct (Path.isAbsolute p); [reflexivity | apply IH].
Qed.

(** With an absolute working directory, the base path that the extensions
    are appended to is absolute. *)
Lemma component_base_absolute (env : Env) (storyFilePath specifier : string) :
  Path.isAbsolute (cwd env) = true ->
  Path.isAbsolute (component_base env storyFilePath specifier) = true.
Proof.
  intros H. unfold component_base, Path.resolve.
  pose proof (resolve_scan_absolute
                (rev [Path.dirname storyFilePath; specifier]) (cwd env)
                EmptyString H) as Habs.
  destruct (Path.resolve_scan _ _) as [resolvedPath resolvedAbsolute].
  simpl in Habs. subst resolvedAbsolute. reflexivity.
Qed.

(** ** The monad *)

Lemma run_bind {A B : Type} (m : M A) (f : A -> M B) :
  run (bind m f) =
  match run m with
  | Ret a => run (f a)
  | Throw e => Throw e
  end.
Proof.
  destruct m as [[a | e] l]; simpl; [destruct (f a) | ]; reflexivity.
Qed.

Lemma trace_bind {A B : Type} (m : M A) (f : A -> M B) :
  trace (bind m f) =
  (trace m ++ match run m with
              | Ret a => trace (f a)
              | Throw _ => []
              end)%list.
Proof.
  destruct m as [[a | e] l]; simpl; [destruct (f a) | rewrite app_nil_r];
    reflexivity.
Qed.

Lemma bind_ret {A B : Type} (a : A) (f : A -> M B) : bind (ret a) f = f a.
Proof. unfold bind, ret. destruct (f a). reflexivity. Qed.

Lemma bind_lift_ret {A B : Type} (a : A) (f : A -> M B) :
  bind (lift (Ret a)) f = f a.
Proof. apply bind_ret. Qed.

Lemma run_ret {A : Type} (a : A) : run (ret a) = Ret a.
Proof. reflexivity. Qed.

Lemma trace_ret {A : Type} (a : A) : trace (ret a) = [].
Proof. reflexivity. Qed.

Lemma run_lift {A : Type} (o : outcome A) : run (lift o) = o.
Proof. reflexivity. Qed.

Lemma trace_lift {A : Type} (o : outcome A) : trace (lift o) = [].
Proof. reflexivity. Qed.

Lemma run_call {A : Type} (e : event) (o : outcome A) : run (call e o) = o.
Proof. reflexivity. Qed.

Lemma trace_call {A : Type} (e : event) (o : outcome A) :
  trace (call e o) = [e].
Proof. reflexivity. Qed.

Lemma run_try_catch (body : M value) :
  run (try_catch body) =
  match run body with
  | Ret v => Ret v
  | Throw e => Ret (failure (message e))
  end.
Proof. destruct body as [[v | e] l]; reflexivity. Qed.

Lemma trace_try_catch (body : M value) : trace (try_catch body) = trace body.
Proof. destruct body as [[v | e] l]; reflexivity. Qed.

(** ** Results of the handlers *)

Lemma returns_result_ret (v : value) : is_result v -> returns_result (ret v).
Proof. intros H w E. inversion E. subst. exact H. Qed.

Lemma returns_result_bind {A : Type} (m : M A) (f : A -> M value) :
  (forall a, returns_result (f a)) -> returns_result (bind m f).
Proof.
  intros H v. rewrite run_bind. destruct (run m) as [a | e].
  - apply H.
  - discriminate.
Qed.

Lemma is_result_failure (msg : string) : is_result (failure msg).
Proof. exists [("success", VBool false); ("error", VStr msg)], false. split; reflexivity. Qed.

Ltac result_literal :=
  match goal with
  | |- is_result (failure _) => apply is_result_failure
  | |- is_result not_ready => apply is_result_failure
  | |- is_result (VObj _) => eexists _, _; split; reflexivity
  end.

Ltac returns_result :=
  repeat first
    [ apply returns_result_ret; result_literal
    | apply returns_result_bind; intros
    | match goal with
      | |- returns_result (if ?c then _ else _) => destruct c
      | |- returns_result (let _ := _ in _) => cbv zeta
      end ].

Lemma listStories_try_result (env : Env) (args : jsargs value) :
  returns_result (listStories_try env args).
Proof. unfold listStories_try. returns_result. Qed.

Lemma getStory_try_result (env : Env) (args : jsargs string) :
  returns_result (getStory_try env args).
Proof. unfold getStory_try. returns_result. Qed.

Lemma getStoryDocs_try_result (env : Env) (args : jsargs string) :
  returns_result (getStoryDocs_try env args).
Proof. unfold getStoryDocs_try. returns_result. Qed.

Lemma getStoriesByKind_try_result (env : Env) (args : jsargs value) :
  returns_result (getStoriesByKind_try env args).
Proof. unfold getStoriesByKind_try. returns_result. Qed.

Lemma try_catch_guards (body : M value) :
  returns_result body -> guards body (try_catch body).
Proof.
  intros H. unfold guards. rewrite run_try_catch.
  destruct (run body) as [v | e] eqn:E.
  - split; [exists v; split; [reflexivity | apply H, E] | ].
    split; intros ? E'; inversion E'; reflexivity.
  - split; [eexists; split; [reflexivity | apply is_result_failure] | ].
    split; intros ? E'; inversion E'; reflexivity.
Qed.

(** C10.  Each of the four tool handlers returns an object with a boolean
    [success] member whatever its arguments and its environment do: it
    never throws, it returns what its [try] block returns, and an error the
    block throws comes back as [{ success: false, error: message }]. *)
Theorem handlers_never_throw (env : Env) :
  (forall args, guards (listStories_try env args) (listStories env args))
  /\ (forall args, guards (getStory_try env args) (getStory env args))
  /\ (forall args, guards (getStoryDocs_try env args) (getStoryDocs env args))
  /\ (forall args,
        guards (getStoriesByKind_try env args) (getStoriesByKind env args)).
Proof.
  split; [ | split; [ | split ] ]; intros args; apply try_catch_guards.
  - apply listStories_try_result.
  - apply getStory_try_result.
  - apply getStoryDocs_try_result.
  - apply getStoriesByKind_try_result.
Qed.

(** ** Normal forms of [getStoryDocs] *)

Lemma run_prepend {A : Type} (l : list event) (m : M A) :
  run (prepend l m) = run m.
Proof. reflexivity. Qed.

Lemma trace_prepend {A : Type} (l : list event) (m : M A) :
  trace (prepend l m) = (l ++ trace m)%list.
Proof. reflexivity. Qed.

Lemma bind_call_ret {A B : Type} (e : event) (a : A) (f : A -> M B) :
  bind (call e (Ret a)) f = prepend [e] (f a).
Proof. unfold bind, call, prepend. destruct (f a). reflexivity. Qed.

Lemma bind_prepend {A B : Type} (l : list event) (m : M A) (f : A -> M B) :
  bind (prepend l m) f = prepend l (bind m f).
Proof.
  destruct m as [[a | e] l']; unfold prepend, bind; simpl.
  - destruct (f a). simpl. rewrite app_assoc. reflexivity.
  - reflexivity.
Qed.

Lemma prepend_prepend {A : Type} (l l' : list event) (m : M A) :
  prepend l (prepend l' m) = prepend (l ++ l')%list m.
Proof. unfold prepend. simpl. rewrite app_assoc. reflexivity. Qed.

Lemma try_catch_prepend (l : list event) (m : M value) :
  try_catch (prepend l m) = prepend l (try_catch m).
Proof. destruct m as [[v | e] l']; reflexivity. Qed.

Lemma story_request_entry (env : Env) (storyId : string) (entry : value)
    (importPath : string) :
  story_request env storyId entry importPath ->
  nullish entry = false /\ truthy entry = true
  /\ prop entry k_importPath = VStr importPath.
Proof.
  intros (_ & Hget & _). unfold get in Hget.
  destruct entry; simpl in *; try discriminate;
    inversion Hget; repeat split; reflexivity.
Qed.

Lemma docs_header_eq (env : Env) (storyId : string) (entry : value) :
  nullish entry = false ->
  docs_header env storyId entry = ret (header env storyId entry).
Proof.
  intros H. unfold docs_header, get. rewrite H.
  rewrite !bind_lift_ret. reflexivity.
Qed.

(** Up to the branch on the import path. *)
Lemma getStoryDocs_try_request (env : Env) (storyId : string) (entry : value)
    (importPath : string) :
  story_request env storyId entry importPath ->
  getStoryDocs_try env (ArgObj storyId) =
  prepend [Fetch (index_url env); ReadJson]
    (docs <- (if Str.ends_with importPath ".mdx"
              then mdx_docs env (VStr importPath) (header env storyId entry)
              else story_file_docs env (VStr importPath)
                     (header env storyId entry)) ;;
     ret (success_docs docs)).
Proof.
  intros H. destruct (story_request_entry _ _ _ _ H) as (Hn & Ht & Hp).
  destruct H as ((response & data & Hf & Hok & Hj & He) & Hget & Hne).
  unfold getStoryDocs_try, destructure. rewrite bind_ret.
  unfold do_fetch. rewrite Hf, bind_call_ret. rewrite Hok. simpl negb. cbv iota.
  unfold do_json. rewrite Hj, bind_call_ret. cbv zeta. rewrite He, Ht.
  simpl negb. cbv iota. rewrite docs_header_eq by exact Hn. rewrite bind_ret.
  rewrite Hget, bind_lift_ret. unfold and_then, endsWith, string_method.
  simpl truthy. rewrite Hne. simpl negb. cbv iota. rewrite !bind_ret.
  rewrite prepend_prepend. simpl app.
  destruct (Str.ends_with importPath ".mdx"); simpl negb; cbv iota;
    reflexivity.
Qed.

Lemma story_file_docs_found (env : Env) (importPath content : string)
    (docs : obj) :
  fs env (story_path env importPath) = File content ->
  story_file_docs env (VStr importPath) docs =
  prepend [ ExistsSync (story_path env importPath);
            ReadFileSync (story_path env importPath) ]
    (docs <- component_info env (story_path env importPath) content docs ;;
     story_examples env (story_path env importPath) docs).
Proof.
  intros H. unfold story_file_docs, replace_dot_slash, string_method.
  rewrite !bind_ret. fold (story_path env importPath).
  unfold existsSync, readFileSync. rewrite H, !bind_call_ret.
  rewrite prepend_prepend. reflexivity.
Qed.

Lemma getStoryDocs_story_file (env : Env) (storyId : string) (entry : value)
    (importPath content : string) :
  story_request env storyId entry importPath ->
  Str.ends_with importPath ".mdx" = false ->
  fs env (story_path env importPath) = File content ->
  getStoryDocs env (ArgObj storyId) =
  prepend [ Fetch (index_url env); ReadJson;
            ExistsSync (story_path env importPath);
            ReadFileSync (story_path env importPath) ]
    (try_catch
       (docs <- (docs <- component_info env (story_path env importPath)
                           content (header env storyId entry) ;;
                 story_examples env (story_path env importPath) docs) ;;
        ret (success_docs docs))).
Proof.
  intros Hreq Hmdx Hfile. unfold getStoryDocs.
  rewrite (getStoryDocs_try_request _ _ _ _ Hreq), Hmdx.
  rewrite (story_file_docs_found _ _ _ _ Hfile).
  rewrite bind_prepend, prepend_prepend, try_catch_prepend. reflexivity.
Qed.

Lemma run_story_file (env : Env) (storyId : string) (entry : value)
    (importPath content : string) :
  story_request env storyId entry importPath ->
  Str.ends_with importPath ".mdx" = false ->
  fs env (story_path env importPath) = File content ->
  run (getStoryDocs env (ArgObj storyId)) =
  match run (component_info env (story_path env importPath) content
               (header env storyId entry)) with
  | Ret docs =>
      match run (story_examples env (story_path env importPath) docs) with
      | Ret docs => Ret (success_docs docs)
      | Throw e => Ret (failure (message e))
      end
  | Throw e => Ret (failure (message e))
  end.
Proof.
  intros Hreq Hmdx Hfile.
  rewrite (getStoryDocs_story_file _ _ _ _ _ Hreq Hmdx Hfile).
  rewrite run_prepend, run_try_catch, !run_bind.
  destruct (run (component_info _ _ _ _)) as [d | e]; [ | reflexivity ].
  destruct (run (story_examples _ _ _)); reflexivity.
Qed.

Lemma trace_story_file (env : Env) (storyId : string) (entry : value)
    (importPath content : string) :
  story_request env storyId entry importPath ->
  Str.ends_with importPath ".mdx" = false ->
  fs env (story_path env importPath) = File content ->
  trace (getStoryDocs env (ArgObj storyId)) =
  ([ Fetch (index_url env); ReadJson;
     ExistsSync (story_path env importPath);
     ReadFileSync (story_path env importPath) ]
   ++ trace (component_info env (story_path env importPath) content
               (header env storyId entry))
   ++ match run (component_info env (story_path env importPath) content
                   (header env storyId entry)) with
      | Ret docs => trace (story_examples env (story_path env importPath) docs)
      | Throw _ => []
      end)%list.
Proof.
  intros Hreq Hmdx Hfile.
  rewrite (getStoryDocs_story_file _ _ _ _ _ Hreq Hmdx Hfile).
  rewrite trace_prepend, trace_try_catch, !trace_bind, run_bind.
  f_equal. rewrite <- app_assoc. f_equal.
  destruct (run (component_info _ _ _ _)) as [d | e]; simpl.
  - destruct (run (story_examples _ _ _)); simpl; rewrite app_nil_r;
      reflexivity.
  - reflexivity.
Qed.

Lemma existsSync_eq (env : Env) (p : string) :
  existsSync env p = call (ExistsSync p) (Ret (exists_at env p)).
Proof. reflexivity. Qed.

Lemma getStoryDocs_mdx (env : Env) (storyId : string) (entry : value)
    (importPath : string) :
  story_request env storyId entry importPath ->
  Str.ends_with importPath ".mdx" = true ->
  getStoryDocs env (ArgObj storyId) =
  prepend [ Fetch (index_url env); ReadJson;
            ExistsSync (story_path env importPath) ]
    (try_catch
       (docs <- (if exists_at env (story_path env importPath) then
                   content <- readFileSync env (story_path env importPath) ;;
                   ret (obj_set (header env storyId entry) "mdxContent"
                          (VStr content))
                 else ret (header env storyId entry)) ;;
        ret (success_docs docs))).
Proof.
  intros Hreq Hmdx. unfold getStoryDocs.
  rewrite (getStoryDocs_try_request _ _ _ _ Hreq), Hmdx.
  unfold mdx_docs, replace_dot_slash, string_method. rewrite !bind_ret.
  fold (story_path env importPath).
  rewrite existsSync_eq, bind_call_ret, bind_prepend, prepend_prepend.
  rewrite try_catch_prepend. reflexivity.
Qed.

Lemma getStoryDocs_not_mdx (env : Env) (storyId : string) (entry : value)
    (importPath : string) :
  story_request env storyId entry importPath ->
  Str.ends_with importPath ".mdx" = false ->
  getStoryDocs env (ArgObj storyId) =
  prepend [ Fetch (index_url env); ReadJson;
            ExistsSync (story_path env importPath) ]
    (try_catch
       (docs <- (if exists_at env (story_path env importPath) then
                   content <- readFileSync env (story_path env importPath) ;;
                   docs <- component_info env (story_path env importPath)
                             content (header env storyId entry) ;;
                   story_examples env (story_path env importPath) docs
                 else ret (header env storyId entry)) ;;
        ret (success_docs docs))).
Proof.
  intros Hreq Hmdx. unfold getStoryDocs.
  rewrite (getStoryDocs_try_request _ _ _ _ Hreq), Hmdx.
  unfold story_file_docs, replace_dot_slash, string_method. rewrite !bind_ret.
  fold (story_path env importPath).
  rewrite existsSync_eq, bind_call_ret, bind_prepend, prepend_prepend.
  rewrite try_catch_prepend. reflexivity.
Qed.

(** ** The component probe *)

Lemma bind_ext {A B : Type} (m : M A) (f g : A -> M B) :
  (forall a, f a = g a) -> bind m f = bind m g.
Proof.
  intros H. destruct m as [[a | e] l]; simpl; [rewrite H | ]; reflexivity.
Qed.

Lemma probe_none (env : Env) (exts : list string) (base : string)
    (docs : obj) :
  (forall ext, In ext exts -> exists_at env (base ++ ext) = false) ->
  probe env exts base docs = prepend (probes base exts) (ret docs).
Proof.
  induction exts as [ | ext rest IH]; intros H.
  - reflexivity.
  - cbn [probe]. rewrite existsSync_eq, bind_call_ret.
    rewrite (H ext (or_introl eq_refl)).
    rewrite IH by (intros e He; apply H; right; exact He).
    rewrite prepend_prepend. reflexivity.
Qed.

Lemma probe_first (env : Env) (pre : list string) (ext : string)
    (post : list string) (base : string) (docs : obj) :
  (forall e, In e pre -> exists_at env (base ++ e) = false) ->
  exists_at env (base ++ ext) = true ->
  probe env (pre ++ ext :: post) base docs =
  prepend (probes base (pre ++ [ext]))
    (componentDocs <- do_extractComponentDocs env (base ++ ext) ;;
     ret (match componentDocs with
          | Some cd => with_component_docs docs cd
          | None => docs
          end)).
Proof.
  intros Hpre Hext. induction pre as [ | e pre IH].
  - cbn [app probe]. rewrite existsSync_eq, bind_call_ret, Hext.
    simpl probes. f_equal. apply bind_ext. intros [cd | ]; reflexivity.
  - cbn [app probe]. rewrite existsSync_eq, bind_call_ret.
    rewrite (Hpre e (or_introl eq_refl)).
    rewrite IH by (intros e' He'; apply Hpre; right; exact He').
    rewrite prepend_prepend. reflexivity.
Qed.

Lemma component_info_probe (env : Env)
    (storyFilePath content componentName specifier : string) (docs : obj) :
  imports_component content componentName specifier ->
  component_info env storyFilePath content docs =
  probe env extensions (component_base env storyFilePath specifier)
    (obj_set docs "component" (VStr componentName)).
Proof.
  intros [Hc Hi]. unfold component_info. rewrite Hc. cbv zeta. rewrite Hi.
  reflexivity.
Qed.

(** ** Events of the story example stage *)

Lemma usage_examples_trace (env : Env) (sel : value)
    (variants : list (string * value)) (acc : obj) :
  forallb (fun e => negb (is_probe_event e))
    (trace (usage_examples env sel variants acc)) = true.
Proof.
  revert acc. induction variants as [ | [name story] rest IH]; intros acc.
  - reflexivity.
  - cbn [usage_examples]. rewrite trace_bind, trace_lift, run_lift.
    cbn [app]. destruct (get story k_args) as [a | e]; [ | reflexivity ].
    unfold do_generateUsageExample.
    rewrite trace_bind, trace_call, run_call. cbn [app forallb].
    cbn [is_probe_event negb andb].
    destruct (generateUsageExample env sel a name (framework env));
      [ apply IH | reflexivity ].
Qed.

Lemma story_examples_trace (env : Env) (storyFilePath : string) (docs : obj) :
  forallb (fun e => negb (is_probe_event e))
    (trace (story_examples env storyFilePath docs)) = true.
Proof.
  unfold story_examples, do_extractStoryExamples.
  rewrite trace_bind, trace_call, run_call. cbn [app forallb].
  cbn [is_probe_event negb andb].
  destruct (extractStoryExamples env storyFilePath) as [[se | ] | e];
    try reflexivity.
  cbv zeta. match goal with |- context [if ?c then _ else _] => destruct c end.
  - rewrite trace_bind. rewrite forallb_app, usage_examples_trace.
    destruct (run _); reflexivity.
  - reflexivity.
Qed.

(** C1.  When the story file names its component and imports it from a
    specifier, the handler probes [base + ext] for the extensions in the
    order [''], ['.ts'], ['.tsx'], ['.js'], ['.jsx'], ['.vue'],
    ['.svelte'], where [base] is the import resolved against the directory
    of the story file.  It stops at the first candidate that exists and
    hands that path to [extractComponentDocs]: the candidates before it are
    the only other paths probed, in order, and nothing that follows probes
    a path or extracts component documentation again. *)
Theorem probe_order_first_match (env : Env) (storyId : string)
    (entry : value) (importPath content componentName specifier : string)
    (pre : list string) (ext : string) (post : list string) :
  story_request env storyId entry importPath ->
  Str.ends_with importPath ".mdx" = false ->
  fs env (story_path env importPath) = File content ->
  imports_component content componentName specifier ->
  extensions = (pre ++ ext :: post)%list ->
  (forall e, In e pre ->
     exists_at env
       (component_base env (story_path env importPath) specifier ++ e)
     = false) ->
  exists_at env
    (component_base env (story_path env importPath) specifier ++ ext)
  = true ->
  extensions = [""; ".ts"; ".tsx"; ".js"; ".jsx"; ".vue"; ".svelte"]
  /\ exists rest,
       trace (getStoryDocs env (ArgObj storyId)) =
       ([ Fetch (index_url env); ReadJson;
          ExistsSync (story_path env importPath);
          ReadFileSync (story_path env importPath) ]
        ++ probes (component_base env (story_path env importPath) specifier)
             pre
        ++ [ ExistsSync
               (component_base env (story_path env importPath) specifier
                ++ ext);
             ExtractComponentDocs
               (component_base env (story_path env importPath) specifier
                ++ ext) ]
        ++ rest)%list
       /\ forallb (fun e => negb (is_probe_event e)) rest = true.
Proof.
  intros Hreq Hmdx Hfile Himp Hexts Hpre Hext. split; [reflexivity | ].
  rewrite (trace_story_file _ _ _ _ _ Hreq Hmdx Hfile).
  rewrite (component_info_probe _ _ _ _ _ _ Himp), Hexts.
  rewrite (probe_first _ _ _ _ _ _ Hpre Hext).
  set (base := component_base env (story_path env importPath) specifier).
  unfold do_extractComponentDocs.
  rewrite trace_prepend, trace_bind, run_prepend, run_bind.
  rewrite trace_call, run_call.
  unfold probes. rewrite map_app. cbn [map].
  destruct (extractComponentDocs env (base ++ ext)) as [cd | e].
  - eexists. split.
    + rewrite <- !app_assoc. simpl app. reflexivity.
    + apply story_examples_trace.
  - exists []. split.
    + rewrite <- !app_assoc. simpl app. reflexivity.
    + reflexivity.
Qed.

(** ** An import that resolves to no file *)

Lemma component_info_unresolved (env : Env)
    (storyFilePath content componentName specifier : string) (docs : obj) :
  imports_component content componentName specifier ->
  (forall ext, In ext extensions ->
     exists_at env (component_base env storyFilePath specifier ++ ext)
     = false) ->
  component_info env storyFilePath content docs =
  prepend (probes (component_base env storyFilePath specifier) extensions)
    (ret (obj_set docs "component" (VStr componentName))).
Proof.
  intros Himp Hnone. rewrite (component_info_probe _ _ _ _ _ _ Himp).
  apply probe_none, Hnone.
Qed.

(** C2.  When none of the candidates for the component import exists, the
    request succeeds; [docs] holds the header, the component name and what
    [extractStoryExamples] returned for the story file ([imports],
    [metaCode], [storyExamples]), and none of [selector], [template],
    [componentCode], [properties], [componentDescription]; the story file
    extractor was called after the probes, the component extractor and the
    usage example generator were not. *)
Theorem unresolved_import_keeps_story_docs (env : Env) (storyId : string)
    (entry : value) (importPath content componentName specifier : string)
    (extracted : option Parsers.StoryFileDoc) :
  story_request env storyId entry importPath ->
  Str.ends_with importPath ".mdx" = false ->
  fs env (story_path env importPath) = File content ->
  imports_component content componentName specifier ->
  (forall ext, In ext extensions ->
     exists_at env
       (component_base env (story_path env importPath) specifier ++ ext)
     = false) ->
  extractStoryExamples env (story_path env importPath) = Ret extracted ->
  let docs :=
    (header env storyId entry
     ++ ("component", VStr componentName)
        :: match extracted with
           | Some se =>
               [ ("imports", Parsers.imports se);
                 ("metaCode", Parsers.meta se);
                 ("storyExamples", Parsers.stories se) ]
           | None => []
           end)%list in
  run (getStoryDocs env (ArgObj storyId)) = Ret (success_docs docs)
  /\ (forall k, In k component_doc_fields -> own docs k = None)
  /\ own docs "usageExamples" = None
  /\ trace (getStoryDocs env (ArgObj storyId)) =
     ([ Fetch (index_url env); ReadJson;
        ExistsSync (story_path env importPath);
        ReadFileSync (story_path env importPath) ]
      ++ probes (component_base env (story_path env importPath) specifier)
           extensions
      ++ [ExtractStoryExamples (story_path env importPath)])%list.
Proof.
  intros Hreq Hmdx Hfile Himp Hnone Hse docs.
  assert (Hex : story_examples env (story_path env importPath)
                  (obj_set (header env storyId entry) "component"
                     (VStr componentName))
                = (Ret docs, [ExtractStoryExamples (story_path env importPath)])).
  { unfold story_examples, do_extractStoryExamples. rewrite Hse.
    rewrite bind_call_ret. subst docs. destruct extracted as [se | ];
      reflexivity. }
  split; [ | split; [ | split ] ].
  - rewrite (run_story_file _ _ _ _ _ Hreq Hmdx Hfile).
    rewrite (component_info_unresolved _ _ _ _ _ _ Himp Hnone).
    rewrite run_prepend, run_ret, Hex. reflexivity.
  - subst docs. intros k Hk. destruct extracted as [se | ];
      repeat (destruct Hk as [<- | Hk]; [reflexivity | ]); destruct Hk.
  - subst docs. destruct extracted; reflexivity.
  - rewrite (trace_story_file _ _ _ _ _ Hreq Hmdx Hfile).
    rewrite (component_info_unresolved _ _ _ _ _ _ Himp Hnone).
    rewrite run_prepend, run_ret, trace_prepend, trace_ret, Hex.
    rewrite app_nil_r. reflexivity.
Qed.

(** ** Own properties after assignments *)

Lemma own_obj_set (o : obj) (k : string) (v : value) (k' : string) :
  own (obj_set o k v) k' = if String.eqb k k' then Some v else own o k'.
Proof.
  induction o as [ | [k0 v0] o IH]; simpl.
  - reflexivity.
  - destruct (String.eqb k0 k) eqn:E0; simpl.
    + apply String.eqb_eq in E0. subst k0.
      destruct (String.eqb k k'); reflexivity.
    + destruct (String.eqb k0 k') eqn:E1; [ | exact IH ].
      apply String.eqb_eq in E1. subst k0. rewrite String.eqb_sym, E0.
      reflexivity.
Qed.

Lemma own_with_component_docs (docs : obj) (cd : Parsers.ComponentDoc)
    (k : string) :
  ~ In k component_doc_fields ->
  own (with_component_docs docs cd) k = own docs k.
Proof.
  intros H. unfold with_component_docs. rewrite !own_obj_set.
  repeat match goal with
         | |- context [String.eqb ?a k] =>
             destruct (String.eqb a k) eqn:?E;
             [ apply String.eqb_eq in E; subst k; exfalso; apply H; simpl;
               tauto | clear E ]
         end.
  reflexivity.
Qed.

Lemma own_with_story_examples (docs : obj) (se : Parsers.StoryFileDoc) :
  own (with_story_examples docs se) "storyExamples"
  = Some (Parsers.stories se)
  /\ own (with_story_examples docs se) "usageExamples"
     = own docs "usageExamples"
  /\ own (with_story_examples docs se) "selector" = own docs "selector".
Proof. unfold with_story_examples. rewrite !own_obj_set. repeat split. Qed.

(** ** What the component stage can do to [docs] *)

Lemma probe_result (env : Env) (exts : list string) (base : string)
    (docs d : obj) :
  run (probe env exts base docs) = Ret d ->
  d = docs
  \/ exists ext cd,
       In ext exts
       /\ In (ExtractComponentDocs (base ++ ext))
            (trace (probe env exts base docs))
       /\ extractComponentDocs env (base ++ ext) = Ret (Some cd)
       /\ d = with_component_docs docs cd.
Proof.
  induction exts as [ | ext rest IH]; cbn [probe].
  - intros H. inversion H. left. reflexivity.
  - rewrite existsSync_eq, bind_call_ret, run_prepend, trace_prepend.
    destruct (exists_at env (base ++ ext)).
    + unfold do_extractComponentDocs. rewrite run_bind, trace_bind.
      rewrite run_call, trace_call.
      destruct (extractComponentDocs env (base ++ ext)) as [[cd | ] | e] eqn:E;
        intros H; inversion H.
      * right. exists ext, cd. split; [left; reflexivity | ].
        split; [right; left; reflexivity | ]. split; [exact E | reflexivity].
      * left. reflexivity.
    + intros H. destruct (IH H) as [-> | (ext' & cd & Hin & Htr & Hcd & ->)].
      * left. reflexivity.
      * right. exists ext', cd. split; [right; exact Hin | ].
        split; [right; exact Htr | ]. split; [exact Hcd | reflexivity].
Qed.

Lemma probe_no_generate (env : Env) (exts : list string) (base : string)
    (docs : obj) :
  forallb (fun e => negb (is_generate_event e))
    (trace (probe env exts base docs)) = true.
Proof.
  induction exts as [ | ext rest IH]; cbn [probe].
  - reflexivity.
  - rewrite existsSync_eq, bind_call_ret, trace_prepend.
    destruct (exists_at env (base ++ ext)).
    + unfold do_extractComponentDocs. rewrite trace_bind, trace_call, run_call.
      destruct (extractComponentDocs env (base ++ ext)) as [[cd | ] | e];
        reflexivity.
    + cbn [app forallb is_generate_event negb andb]. exact IH.
Qed.

Lemma component_info_no_generate (env : Env) (storyFilePath content : string)
    (docs : obj) :
  forallb (fun e => negb (is_generate_event e))
    (trace (component_info env storyFilePath content docs)) = true.
Proof.
  unfold component_info.
  destruct (Regex.group1 (Regex.search Regex.component_re content));
    [ | reflexivity ].
  cbv zeta.
  destruct (Regex.group1 (Regex.search (Regex.import_re _) content));
    [ apply probe_no_generate | reflexivity ].
Qed.

(** The component stage leaves [docs] alone, or adds the component name, or
    adds the component name and the documentation of a probed file. *)
Lemma component_info_result (env : Env) (storyFilePath content : string)
    (docs d : obj) :
  run (component_info env storyFilePath content docs) = Ret d ->
  d = docs
  \/ (exists componentName, d = obj_set docs "component" (VStr componentName))
  \/ exists componentName p cd,
       In (ExtractComponentDocs p)
          (trace (component_info env storyFilePath content docs))
       /\ extractComponentDocs env p = Ret (Some cd)
       /\ d = with_component_docs
                (obj_set docs "component" (VStr componentName)) cd.
Proof.
  unfold component_info.
  destruct (Regex.group1 (Regex.search Regex.component_re content))
    as [componentName | ].
  - cbv zeta.
    destruct (Regex.group1 (Regex.search (Regex.import_re _) content))
      as [specifier | ].
    + intros H. apply probe_result in H.
      destruct H as [-> | (ext & cd & _ & Htr & Hcd & ->)].
      * right. left. exists componentName. reflexivity.
      * right. right. exists componentName. eexists. exists cd.
        split; [exact Htr | split; [exact Hcd | reflexivity] ].
    + intros H. inversion H. right. left. exists componentName. reflexivity.
  - intros H. inversion H. left. reflexivity.
Qed.

Lemma component_info_keeps (env : Env) (storyFilePath content : string)
    (docs d : obj) (k : string) :
  run (component_info env storyFilePath content docs) = Ret d ->
  k <> "component" -> ~ In k component_doc_fields ->
  own d k = own docs k.
Proof.
  intros H Hk Hf. apply component_info_result in H.
  assert (Hc : forall name,
             own (obj_set docs "component" (VStr name)) k = own docs k).
  { intros name. rewrite own_obj_set.
    destruct (String.eqb "component" k) eqn:E; [ | reflexivity ].
    apply String.eqb_eq in E. congruence. }
  destruct H as [-> | [(name & ->) | (name & p & cd & _ & _ & ->)]].
  - reflexivity.
  - apply Hc.
  - rewrite own_with_component_docs by exact Hf. apply Hc.
Qed.

(** ** A story file without variants *)

(** What the handler does with an empty [stories] mapping, the component
    stage before it having returned. *)
Lemma empty_stories_no_usage_examples (env : Env) (storyId : string)
    (entry : value) (importPath content : string) (docs1 : obj)
    (se : Parsers.StoryFileDoc) :
  story_request env storyId entry importPath ->
  Str.ends_with importPath ".mdx" = false ->
  fs env (story_path env importPath) = File content ->
  run (component_info env (story_path env importPath) content
         (header env storyId entry)) = Ret docs1 ->
  extractStoryExamples env (story_path env importPath) = Ret (Some se) ->
  Parsers.stories se = VObj [] ->
  exists docs,
    run (getStoryDocs env (ArgObj storyId)) = Ret (success_docs docs)
    /\ own docs "storyExamples" = Some (VObj [])
    /\ (own docs "usageExamples" = None
        \/ own docs "usageExamples" = Some (VObj []))
    /\ forallb (fun e => negb (is_generate_event e))
         (trace (getStoryDocs env (ArgObj storyId))) = true.
Proof.
  intros Hreq Hmdx Hfile Hci Hse Hempty.
  set (sp := story_path env importPath) in *.
  assert (Hkeep : own docs1 "usageExamples" = None).
  { rewrite (component_info_keeps _ _ _ _ _ "usageExamples" Hci).
    - reflexivity.
    - discriminate.
    - simpl. intuition discriminate. }
  destruct (own_with_story_examples docs1 se) as (Hs & Hu & _).
  assert (Hex : exists docs,
             story_examples env sp docs1 = (Ret docs, [ExtractStoryExamples sp])
             /\ own docs "storyExamples" = Some (VObj [])
             /\ (own docs "usageExamples" = None
                 \/ own docs "usageExamples" = Some (VObj []))).
  { unfold story_examples, do_extractStoryExamples. rewrite Hse, bind_call_ret.
    cbv zeta. fold (with_story_examples docs1 se). rewrite Hempty in *.
    destruct (truthy (lookup (with_story_examples docs1 se) "selector")
              && truthy (VObj [])).
    - eexists. split; [reflexivity | ]. rewrite !own_obj_set. cbn.
      split; [exact Hs | right; reflexivity].
    - eexists. split; [reflexivity | ].
      split; [exact Hs | left; rewrite Hu; exact Hkeep]. }
  destruct Hex as (docs & Hex & Hst & Hus).
  exists docs. split; [ | split; [exact Hst | split; [exact Hus | ] ] ].
  - rewrite (run_story_file _ _ _ _ _ Hreq Hmdx Hfile). fold sp.
    rewrite Hci, Hex. reflexivity.
  - rewrite (trace_story_file _ _ _ _ _ Hreq Hmdx Hfile). fold sp.
    rewrite Hci, Hex. cbn [app forallb is_generate_event negb andb].
    rewrite forallb_app, component_info_no_generate. reflexivity.
Qed.

(** C3.  A story file with zero named variants documents, under the
    extractor as the spec describes it, with an empty [stories] mapping
    and without an error.  With that, and the component stage before it
    having returned, the request succeeds, [docs.storyExamples] is the
    empty object, [docs.usageExamples] is absent or the empty object, and
    [generateUsageExample] is never called. *)
Theorem no_variants_no_usage_examples (read : string -> StoryFile)
    (env : Env) (storyId : string) (entry : value)
    (importPath content : string) (docs1 : obj) :
  story_request env storyId entry importPath ->
  Str.ends_with importPath ".mdx" = false ->
  fs env (story_path env importPath) = File content ->
  run (component_info env (story_path env importPath) content
         (header env storyId entry)) = Ret docs1 ->
  extractStoryExamples env (story_path env importPath)
  = extractStoryExamples_spec read (fs env) (story_path env importPath) ->
  named_variants (read content) = [] ->
  (exists se,
     extractStoryExamples env (story_path env importPath) = Ret (Some se)
     /\ Parsers.stories se = VObj [])
  /\ exists docs,
       run (getStoryDocs env (ArgObj storyId)) = Ret (success_docs docs)
       /\ own docs "storyExamples" = Some (VObj [])
       /\ (own docs "usageExamples" = None
           \/ own docs "usageExamples" = Some (VObj []))
       /\ forallb (fun e => negb (is_generate_event e))
            (trace (getStoryDocs env (ArgObj storyId))) = true.
Proof.
  intros Hreq Hmdx Hfile Hci Hspec Hzero.
  unfold extractStoryExamples_spec in Hspec.
  rewrite Hfile, Hzero in Hspec. cbn [variant_mapping fold_left] in Hspec.
  split.
  - eexists. split; [exact Hspec | reflexivity].
  - eapply (empty_stories_no_usage_examples env storyId entry importPath
              content docs1 _ Hreq Hmdx Hfile Hci Hspec).
    reflexivity.
Qed.

(** ** Both extractions succeed *)

Lemma obj_set_fresh (o : obj) (k : string) (v : value) :
  ~ In k (keys o) -> obj_set o k v = (o ++ [(k, v)])%list.
Proof.
  induction o as [ | [k0 v0] o IH]; simpl; intros H.
  - reflexivity.
  - destruct (String.eqb k0 k) eqn:E.
    + apply String.eqb_eq in E. exfalso. apply H. left. exact E.
    + rewrite IH by (intros Hin; apply H; right; exact Hin). reflexivity.
Qed.

Lemma usage_examples_all (env : Env) (sel : value)
    (variants : list (string * value)) (usage acc : obj) :
  Forall2 (generated env sel) variants usage ->
  NoDup (keys variants) ->
  (forall k, In k (keys variants) -> ~ In k (keys acc)) ->
  run (usage_examples env sel variants acc) = Ret (acc ++ usage)%list.
Proof.
  intros HF. revert acc.
  induction HF as [ | [name story] [name' example] variants usage Hg HF IH];
    intros acc Hnd Hfresh.
  - rewrite app_nil_r. reflexivity.
  - destruct Hg as (Hname & a & Hget & Hgen). simpl in Hname, Hget, Hgen.
    subst name'. cbn [usage_examples].
    rewrite run_bind, run_lift, Hget. unfold do_generateUsageExample.
    rewrite run_bind, run_call, Hgen.
    inversion Hnd as [ | ? ? Hnotin Hnd']. subst.
    rewrite IH.
    + rewrite obj_set_fresh by (apply Hfresh; left; reflexivity).
      rewrite <- app_assoc. reflexivity.
    + exact Hnd'.
    + intros k Hk.
      rewrite obj_set_fresh by (apply Hfresh; left; reflexivity).
      unfold keys. rewrite map_app, in_app_iff. simpl.
      intros [Hin | [<- | []]].
      * apply (Hfresh k); [right; exact Hk | exact Hin].
      * apply Hnotin. exact Hk.
Qed.

Lemma generated_keys (env : Env) (sel : value)
    (variants : list (string * value)) (usage : obj) :
  Forall2 (generated env sel) variants usage -> keys usage = keys variants.
Proof.
  induction 1 as [ | v e variants usage (Hname & _) _ IH]; simpl.
  - reflexivity.
  - rewrite Hname, IH. reflexivity.
Qed.

Lemma lookup_selector (o : obj) :
  lookup o "selector" =
  match own o "selector" with
  | Some v => v
  | None => VUndefined
  end.
Proof. unfold lookup. destruct (own o "selector"); reflexivity. Qed.

Lemma component_info_resolved (env : Env)
    (storyFilePath content componentName : string)
    (cd : Parsers.ComponentDoc) (docs : obj) :
  resolves_component env storyFilePath content componentName cd ->
  run (component_info env storyFilePath content docs) =
  Ret (with_component_docs (obj_set docs "component" (VStr componentName)) cd).
Proof.
  intros (specifier & pre & ext & post & Himp & Hexts & Hpre & Hext & Hcd).
  rewrite (component_info_probe _ _ _ _ _ _ Himp), Hexts.
  rewrite (probe_first _ _ _ _ _ _ Hpre Hext).
  unfold do_extractComponentDocs.
  rewrite run_prepend, run_bind, run_call, Hcd. reflexivity.
Qed.

(** The whole [docs] object when both extractions succeed. *)
Lemma getStoryDocs_full (env : Env) (storyId : string) (entry : value)
    (importPath content componentName : string) (cd : Parsers.ComponentDoc)
    (se : Parsers.StoryFileDoc) (usage : obj) :
  story_request env storyId entry importPath ->
  Str.ends_with importPath ".mdx" = false ->
  fs env (story_path env importPath) = File content ->
  extraction_succeeds env (story_path env importPath) content componentName
    cd se usage ->
  run (getStoryDocs env (ArgObj storyId)) =
  Ret (success_docs
         (header env storyId entry
          ++ ("component", VStr componentName)
             :: pipeline_fields cd se usage)%list).
Proof.
  intros Hreq Hmdx Hfile (Hres & Hsel & Hse & Hst & Hnd & Hgen).
  rewrite (run_story_file _ _ _ _ _ Hreq Hmdx Hfile).
  rewrite (component_info_resolved _ _ _ _ _ _ Hres).
  unfold story_examples, do_extractStoryExamples.
  rewrite run_bind, run_call, Hse. cbv zeta.
  match goal with
  | |- context [lookup ?d "selector"] =>
      replace (lookup d "selector") with (Parsers.selector cd)
        by reflexivity
  end.
  rewrite Hsel, Hst. cbn [andb].
  rewrite run_bind, (usage_examples_all _ _ _ _ _ Hgen Hnd)
    by (intros k _ []).
  reflexivity.
Qed.

Lemma truthy_not_nullish (v : value) : truthy v = true -> nullish v = false.
Proof. destruct v; simpl; congruence. Qed.

(** [docs.usageExamples] can only come from the branch for a story file
    that is there. *)
Lemma usage_examples_story_file (env : Env) (args : jsargs string)
    (docs : obj) (usage : value) :
  run (getStoryDocs env args) = Ret (success_docs docs) ->
  own docs "usageExamples" = Some usage ->
  exists storyId entry importPath content,
    args = ArgObj storyId
    /\ story_request env storyId entry importPath
    /\ Str.ends_with importPath ".mdx" = false
    /\ fs env (story_path env importPath) = File content.
Proof.
  intros Hrun Hown. pose proof Hrun as Hrun0.
  unfold getStoryDocs in Hrun. rewrite run_try_catch in Hrun.
  destruct args as [ | | storyId]; try discriminate Hrun.
  unfold getStoryDocs_try, destructure, do_fetch in Hrun.
  rewrite bind_ret in Hrun.
  destruct (fetch env (index_url env)) as [response | e] eqn:Hf;
    [ | discriminate Hrun ].
  rewrite bind_call_ret, run_prepend in Hrun.
  destruct (ok response) eqn:Hok; [ | discriminate Hrun ].
  cbn [negb] in Hrun. unfold do_json in Hrun.
  destruct (json response) as [data | e] eqn:Hj; [ | discriminate Hrun ].
  rewrite bind_call_ret, run_prepend in Hrun. cbv zeta in Hrun.
  remember (entry_of data storyId) as entry eqn:He.
  destruct (truthy entry) eqn:Ht; [ | discriminate Hrun ].
  cbn [negb] in Hrun.
  pose proof (truthy_not_nullish _ Ht) as Hn.
  rewrite (docs_header_eq _ _ _ Hn), bind_ret in Hrun.
  unfold get in Hrun. rewrite Hn, bind_lift_ret in Hrun.
  assert (Hheader : own (header env storyId entry) "usageExamples" = None)
    by reflexivity.
  assert (Hfalsy :
            Ret (success_docs (header env storyId entry))
            = Ret (success_docs docs) -> False).
  { intros E. inversion E. subst docs. congruence. }
  assert (Hserves : serves env storyId entry).
  { exists response, data. rewrite He. repeat split; assumption. }
  unfold and_then, endsWith, string_method in Hrun.
  destruct (prop entry k_importPath) as [ | | b | n | ip | items | props | f]
    eqn:Hp; cbn [truthy] in Hrun.
  - exfalso. apply Hfalsy. exact Hrun.
  - exfalso. apply Hfalsy. exact Hrun.
  - destruct b; [discriminate Hrun | exfalso; apply Hfalsy; exact Hrun].
  - destruct (Z.eqb n 0);
      [exfalso; apply Hfalsy; exact Hrun | discriminate Hrun].
  - destruct (Str.is_empty ip) eqn:Hne;
      [exfalso; apply Hfalsy; exact Hrun | ].
    clear Hrun.
    assert (Hreq : story_request env storyId entry ip).
    { split; [exact Hserves | ]. split; [ | exact Hne ].
      unfold get. rewrite Hn, Hp. reflexivity. }
    destruct (Str.ends_with ip ".mdx") eqn:Hmdx.
    + exfalso. rewrite (getStoryDocs_mdx _ _ _ _ Hreq Hmdx) in Hrun0.
      rewrite run_prepend, run_try_catch, run_bind in Hrun0.
      unfold exists_at, readFileSync in Hrun0.
      destruct (fs env (story_path env ip)); cbn in Hrun0;
        try discriminate Hrun0.
      * apply Hfalsy. exact Hrun0.
      * inversion Hrun0. subst docs. discriminate Hown.
    + destruct (fs env (story_path env ip)) as [ | content | ] eqn:Hfs.
      * exfalso. rewrite (getStoryDocs_not_mdx _ _ _ _ Hreq Hmdx) in Hrun0.
        unfold exists_at in Hrun0. rewrite Hfs in Hrun0.
        apply Hfalsy. exact Hrun0.
      * exists storyId, entry, ip, content.
        split; [reflexivity | ]. split; [exact Hreq | ].
        split; [exact Hmdx | first [exact Hfs | reflexivity] ].
      * exfalso. rewrite (getStoryDocs_not_mdx _ _ _ _ Hreq Hmdx) in Hrun0.
        unfold exists_at, readFileSync in Hrun0. rewrite Hfs in Hrun0.
        discriminate Hrun0.
  - discriminate Hrun.
  - discriminate Hrun.
  - discriminate Hrun.
Qed.

(** C4.  [docs.usageExamples] is present only when [extractComponentDocs]
    documented a probed component file with a truthy selector and
    [extractStoryExamples] documented the story file with a truthy
    [stories] member; and when both did, it holds, under the name of each
    variant and in the order of the variants, the text
    [generateUsageExample] returned for the selector, the [args] of the
    variant, its name and the framework: one example per variant. *)
Theorem usage_examples_need_both_extractions (env : Env)
    (args : jsargs string) :
  (forall docs usage,
     run (getStoryDocs env args) = Ret (success_docs docs) ->
     own docs "usageExamples" = Some usage ->
     exists importPath p cd se,
       In (ExtractComponentDocs p) (trace (getStoryDocs env args))
       /\ extractComponentDocs env p = Ret (Some cd)
       /\ truthy (Parsers.selector cd) = true
       /\ In (ExtractStoryExamples (story_path env importPath))
            (trace (getStoryDocs env args))
       /\ extractStoryExamples env (story_path env importPath)
          = Ret (Some se)
       /\ truthy (Parsers.stories se) = true)
  /\ (forall storyId entry importPath content componentName cd se usage,
        args = ArgObj storyId ->
        story_request env storyId entry importPath ->
        Str.ends_with importPath ".mdx" = false ->
        fs env (story_path env importPath) = File content ->
        extraction_succeeds env (story_path env importPath) content
          componentName cd se usage ->
        exists docs,
          run (getStoryDocs env args) = Ret (success_docs docs)
          /\ own docs "usageExamples" = Some (VObj usage)
          /\ keys usage = keys (object_entries (Parsers.stories se))
          /\ Forall2 (generated env (Parsers.selector cd))
               (object_entries (Parsers.stories se)) usage).
Proof.
  split.
  - intros docs usage Hrun Hown.
    destruct (usage_examples_story_file _ _ _ _ Hrun Hown)
      as (storyId & entry & importPath & content & -> & Hreq & Hmdx & Hfile).
    exists importPath.
    rewrite (run_story_file _ _ _ _ _ Hreq Hmdx Hfile) in Hrun.
    rewrite (trace_story_file _ _ _ _ _ Hreq Hmdx Hfile).
    set (sp := story_path env importPath) in *.
    destruct (run (component_info env sp content (header env storyId entry)))
      as [d1 | e] eqn:Hci; [ | discriminate ].
    assert (Hnone : own d1 "usageExamples" = None).
    { rewrite (component_info_keeps _ _ _ _ _ "usageExamples" Hci).
      - reflexivity.
      - discriminate.
      - simpl. intuition discriminate. }
    unfold story_examples, do_extractStoryExamples in Hrun |- *.
    rewrite run_bind, run_call in Hrun. rewrite trace_bind, trace_call.
    destruct (extractStoryExamples env sp) as [[se | ] | e] eqn:Hse;
      [ | | discriminate ].
    + cbv zeta in Hrun. fold (with_story_examples d1 se) in Hrun.
      destruct (own_with_story_examples d1 se) as (_ & Hu & Hs).
      destruct (truthy (lookup (with_story_examples d1 se) "selector"))
        eqn:Hsel; cbn [andb] in Hrun.
      * destruct (truthy (Parsers.stories se)) eqn:Hst.
        -- rewrite lookup_selector, Hs in Hsel.
           apply component_info_result in Hci.
           destruct Hci
             as [-> | [(name & ->) | (name & p & cd & Htr & Hcd & ->)]].
           ++ discriminate Hsel.
           ++ discriminate Hsel.
           ++ exists p, cd, se.
              split; [apply in_or_app; right; apply in_or_app; left;
                      exact Htr | ].
              split; [exact Hcd | ]. split; [exact Hsel | ].
              split; [ | split; first [assumption | reflexivity] ].
              apply in_or_app. right. apply in_or_app. right.
              left. reflexivity.
        -- inversion Hrun. subst docs. congruence.
      * inversion Hrun. subst docs. congruence.
    + inversion Hrun. subst docs. congruence.
  - intros storyId entry importPath content componentName cd se usage
      -> Hreq Hmdx Hfile Hsucc.
    eexists. split; [ | split; [ | split ] ].
    + apply (getStoryDocs_full _ _ _ _ _ _ _ _ _ Hreq Hmdx Hfile Hsucc).
    + reflexivity.
    + destruct Hsucc as (_ & _ & _ & _ & _ & Hgen).
      apply (generated_keys _ _ _ _ Hgen).
    + destruct Hsucc as (_ & _ & _ & _ & _ & Hgen). exact Hgen.
Qed.

(** C7.  When both extractions succeed, [docs] is the header, the component
    name, and then exactly the fields [selector], [template],
    [componentCode], [properties], [componentDescription], [imports],
    [metaCode], [storyExamples] and [usageExamples], where
    [componentDescription] holds the [description] of the component
    documentation, [metaCode] the [meta] and [storyExamples] the [stories]
    of the story file documentation. *)
Theorem docs_field_names (env : Env) (storyId : string) (entry : value)
    (importPath content componentName : string) (cd : Parsers.ComponentDoc)
    (se : Parsers.StoryFileDoc) (usage : obj) :
  story_request env storyId entry importPath ->
  Str.ends_with importPath ".mdx" = false ->
  fs env (story_path env importPath) = File content ->
  extraction_succeeds env (story_path env importPath) content componentName
    cd se usage ->
  exists docs,
    run (getStoryDocs env (ArgObj storyId)) = Ret (success_docs docs)
    /\ keys docs =
       ([ "storyId"; "title"; "name"; "type"; "framework"; "component" ]
        ++ [ "selector"; "template"; "componentCode"; "properties";
             "componentDescription"; "imports"; "metaCode"; "storyExamples";
             "usageExamples" ])%list
    /\ own docs "selector" = Some (Parsers.selector cd)
    /\ own docs "template" = Some (Parsers.template cd)
    /\ own docs "componentCode" = Some (Parsers.componentCode cd)
    /\ own docs "properties" = Some (Parsers.properties cd)
    /\ own docs "componentDescription" = Some (Parsers.description cd)
    /\ own docs "imports" = Some (Parsers.imports se)
    /\ own docs "metaCode" = Some (Parsers.meta se)
    /\ own docs "storyExamples" = Some (Parsers.stories se)
    /\ own docs "usageExamples" = Some (VObj usage).
Proof.
  intros Hreq Hmdx Hfile Hsucc. eexists. split.
  - apply (getStoryDocs_full _ _ _ _ _ _ _ _ _ Hreq Hmdx Hfile Hsucc).
  - repeat split.
Qed.

(** ** MDX entries *)

(** C9.  For an entry whose import path ends with ['.mdx'] the handler
    calls none of the parsers.  It probes the joined path once; when a
    file is there, [docs] is the header followed by [mdxContent] with the
    contents of the file as read, and when nothing is there [docs] is the
    header alone: no [component], [selector], [properties],
    [storyExamples] or [usageExamples]. *)
Theorem mdx_entry_skips_pipeline (env : Env) (storyId : string)
    (entry : value) (importPath : string) :
  story_request env storyId entry importPath ->
  Str.ends_with importPath ".mdx" = true ->
  forallb (fun e => negb (is_parser_event e))
    (trace (getStoryDocs env (ArgObj storyId))) = true
  /\ (forall content,
        fs env (story_path env importPath) = File content ->
        run (getStoryDocs env (ArgObj storyId)) =
        Ret (success_docs
               (header env storyId entry
                ++ [("mdxContent", VStr content)])%list)
        /\ trace (getStoryDocs env (ArgObj storyId)) =
           [ Fetch (index_url env); ReadJson;
             ExistsSync (story_path env importPath);
             ReadFileSync (story_path env importPath) ])
  /\ (fs env (story_path env importPath) = Missing ->
      run (getStoryDocs env (ArgObj storyId)) =
      Ret (success_docs (header env storyId entry))
      /\ trace (getStoryDocs env (ArgObj storyId)) =
         [ Fetch (index_url env); ReadJson;
           ExistsSync (story_path env importPath) ]).
Proof.
  intros Hreq Hmdx. rewrite (getStoryDocs_mdx _ _ _ _ Hreq Hmdx).
  unfold exists_at, readFileSync.
  split; [ | split ].
  - destruct (fs env (story_path env importPath)); reflexivity.
  - intros content Hfile. rewrite Hfile. split; reflexivity.
  - intros Hfile. rewrite Hfile. split; reflexivity.
Qed.

(** A directory at the path of an MDX entry exists for [fs.existsSync];
    reading it throws, and the handler reports the failure. *)
Lemma mdx_directory_fails (env : Env) (storyId : string) (entry : value)
    (importPath : string) :
  story_request env storyId entry importPath ->
  Str.ends_with importPath ".mdx" = true ->
  fs env (story_path env importPath) = Dir ->
  run (getStoryDocs env (ArgObj storyId)) =
  Ret (failure "EISDIR: illegal operation on a directory, read").
Proof.
  intros Hreq Hmdx Hdir. rewrite (getStoryDocs_mdx _ _ _ _ Hreq Hmdx).
  unfold exists_at, readFileSync. rewrite Hdir. reflexivity.
Qed.

(** ** Story identifiers that the inventory does not hold *)

Lemma includes_app (a b needle : string) :
  Str.includes b needle = true -> Str.includes (a ++ b) needle = true.
Proof.
  intros H. induction a as [ | c a IH]; simpl.
  - exact H.
  - rewrite IH. apply orb_true_r.
Qed.

Lemma failure_status (msg : string) :
  story_route_status (failure msg) =
  if Str.includes msg "not found" then 404%Z else 503%Z.
Proof. reflexivity. Qed.

Lemma not_found_status (storyId : string) :
  story_route_status (failure (not_found_message storyId)) = 404%Z.
Proof.
  rewrite failure_status. unfold not_found_message.
  rewrite includes_app; [reflexivity | ].
  do 3 apply includes_app. reflexivity.
Qed.

Lemma not_ready_status : story_route_status not_ready = 503%Z.
Proof. reflexivity. Qed.

(** An identifier that is neither a key of the inventory nor the name of a
    member of [Object.prototype] gets the not-found result from both
    handlers, and the routes answer 404. *)
Lemma absent_story_not_found (env : Env) (storyId : string) :
  serves env storyId VUndefined ->
  run (getStoryDocs env (ArgObj storyId))
  = Ret (failure (not_found_message storyId))
  /\ run (getStory env (ArgObj storyId))
     = Ret (failure (not_found_message storyId))
  /\ story_route_status (failure (not_found_message storyId)) = 404%Z.
Proof.
  intros (response & data & Hf & Hok & Hj & He).
  split; [ | split; [ | apply not_found_status ] ].
  - unfold getStoryDocs, getStoryDocs_try, destructure, do_fetch, do_json.
    rewrite bind_ret, Hf, bind_call_ret, Hok. cbn [negb].
    rewrite Hj, bind_call_ret. cbv zeta. rewrite He. reflexivity.
  - unfold getStory, getStory_try, destructure, do_fetch, do_json.
    rewrite bind_ret, Hf, bind_call_ret, Hok. cbn [negb].
    rewrite Hj, bind_call_ret. cbv zeta. rewrite He. reflexivity.
Qed.

(** C5, at the identifier ['constructor'].  The sample inventory has no
    entry under this key, yet [data.entries?.[storyId]] finds the member
    inherited from [Object.prototype]: both handlers answer with
    [success: true] and the routes with status 200 instead of the
    not-found result and status 404. *)
Theorem inherited_member_is_served :
  own [ ("example-button--primary", Sample.button_entry);
        ("intro--docs", Sample.intro_entry) ] "constructor" = None
  /\ entries Sample.index
     = Some [ ("example-button--primary", Sample.button_entry);
              ("intro--docs", Sample.intro_entry) ]
  /\ run (getStoryDocs Sample.env (ArgObj "constructor")) =
     Ret (success_docs
            [ ("storyId", VStr "constructor"); ("title", VUndefined);
              ("name", VStr "Object"); ("type", VUndefined);
              ("framework", VStr "angular") ])
  /\ run (getStory Sample.env (ArgObj "constructor")) =
     Ret (VObj [ ("success", VBool true);
                 ("story",
                  VObj [ ("id", VUndefined); ("name", VStr "Object");
                         ("title", VUndefined); ("kind", VUndefined);
                         ("importPath", VUndefined); ("tags", VArr []);
                         ("type", VUndefined) ]) ])
  /\ (forall result,
        run (getStoryDocs Sample.env (ArgObj "constructor")) = Ret result ->
        story_route_status result = 200%Z)
  /\ run (getStoryDocs Sample.env (ArgObj "constructor"))
     <> Ret (failure (not_found_message "constructor")).
Proof.
  split; [reflexivity | ]. split; [reflexivity | ].
  split; [reflexivity | ]. split; [reflexivity | ].
  split.
  - intros result H. vm_compute in H. inversion H. reflexivity.
  - vm_compute. discriminate.
Qed.

(** ** Joining the project root and the import path *)

Lemma append_assoc (a b c : string) : (a ++ b) ++ c = a ++ b ++ c.
Proof. induction a as [ | x a IH]; simpl; [ | rewrite IH ]; reflexivity. Qed.

Lemma plain_segment_spec (seg : string) :
  plain_segment seg = true ->
  String.eqb seg "" = false /\ String.eqb seg "." = false
  /\ String.eqb seg ".." = false
  /\ forallb (fun c => negb (Ascii.eqb c Path.slash))
       (list_ascii_of_string seg) = true.
Proof.
  unfold plain_segment. rewrite !andb_true_iff, !negb_true_iff. tauto.
Qed.

Lemma split_on_segment (seg rest : string) :
  forallb (fun c => negb (Ascii.eqb c Path.slash)) (list_ascii_of_string seg)
  = true ->
  Str.split_on Path.slash seg = [seg]
  /\ Str.split_on Path.slash (seg ++ "/" ++ rest)
     = seg :: Str.split_on Path.slash rest.
Proof.
  induction seg as [ | c seg IH]; simpl; intros H.
  - split; reflexivity.
  - apply andb_true_iff in H. destruct H as [Hc H].
    apply negb_true_iff in Hc. rewrite Hc.
    destruct (IH H) as [IH1 IH2]. simpl in IH2. rewrite IH1, IH2.
    split; reflexivity.
Qed.

Lemma relative_cons (seg seg' : string) (rest : list string) :
  relative (seg :: seg' :: rest) = seg ++ "/" ++ relative (seg' :: rest).
Proof. reflexivity. Qed.

Lemma split_on_join (segs : list string) :
  segs <> [] -> forallb plain_segment segs = true ->
  Str.split_on Path.slash (relative segs) = segs.
Proof.
  induction segs as [ | seg rest IH]; [congruence | ]. intros _ H.
  simpl in H. apply andb_true_iff in H. destruct H as [Hseg Hrest].
  apply plain_segment_spec in Hseg. destruct Hseg as (_ & _ & _ & Hseg).
  destruct (split_on_segment seg (relative rest) Hseg) as [H1 H2].
  destruct rest as [ | seg' rest'].
  - exact H1.
  - rewrite relative_cons, H2.
    rewrite IH by (congruence || exact Hrest). reflexivity.
Qed.

Lemma norm_segs_plain (above : bool) (acc segs : list string) :
  forallb plain_segment segs = true ->
  Path.norm_segs above acc segs = (rev acc ++ segs)%list.
Proof.
  revert acc. induction segs as [ | seg rest IH]; intros acc H.
  - simpl. rewrite app_nil_r. reflexivity.
  - simpl in H. apply andb_true_iff in H. destruct H as [Hseg Hrest].
    apply plain_segment_spec in Hseg. destruct Hseg as (H0 & H1 & H2 & _).
    cbn [Path.norm_segs]. rewrite H0, H1, H2. cbn [orb].
    rewrite IH by exact Hrest. simpl rev. rewrite <- app_assoc.
    reflexivity.
Qed.

Lemma relative_not_empty (segs : list string) :
  segs <> [] -> forallb plain_segment segs = true ->
  Str.is_empty (relative segs) = false.
Proof.
  destruct segs as [ | seg rest]; [congruence | ]. intros _ H.
  simpl in H. apply andb_true_iff in H. destruct H as [Hseg _].
  apply plain_segment_spec in Hseg. destruct Hseg as (H0 & _).
  destruct seg; [discriminate | ]. unfold relative.
  destruct rest; reflexivity.
Qed.

Lemma eqb_empty (s : string) : String.eqb s "" = Str.is_empty s.
Proof. destruct s; reflexivity. Qed.

Lemma ends_with_slash_app (a b : string) :
  Str.is_empty b = false ->
  Str.ends_with (a ++ b) "/" = Str.ends_with b "/".
Proof.
  intros H. induction a as [ | c a IH]; [reflexivity | ].
  cbn [append Str.ends_with]. rewrite IH.
  replace (String.eqb (String c (a ++ b)) "/") with false; [reflexivity | ].
  simpl. destruct (Ascii.eqb c "/"); [ | reflexivity ].
  rewrite eqb_empty. destruct a; simpl; [rewrite H | ]; reflexivity.
Qed.

Lemma segment_no_trailing_slash (seg : string) :
  forallb (fun c => negb (Ascii.eqb c Path.slash)) (list_ascii_of_string seg)
  = true ->
  Str.ends_with seg "/" = false.
Proof.
  induction seg as [ | c seg IH]; [reflexivity | ]. simpl. intros H.
  apply andb_true_iff in H. destruct H as [Hc H].
  apply negb_true_iff in Hc. unfold Path.slash in Hc. rewrite Hc.
  apply IH, H.
Qed.

Lemma relative_no_trailing_slash (segs : list string) :
  segs <> [] -> forallb plain_segment segs = true ->
  Str.ends_with (relative segs) "/" = false.
Proof.
  induction segs as [ | seg rest IH]; [congruence | ]. intros _ H.
  pose proof H as Hall.
  simpl in H. apply andb_true_iff in H. destruct H as [Hseg Hrest].
  apply plain_segment_spec in Hseg. destruct Hseg as (_ & _ & _ & Hseg).
  destruct rest as [ | seg' rest'].
  - apply segment_no_trailing_slash, Hseg.
  - rewrite relative_cons.
    assert (Hne : Str.is_empty (relative (seg' :: rest')) = false)
      by (apply relative_not_empty; [congruence | exact Hrest]).
    rewrite ends_with_slash_app by reflexivity.
    cbn [append Str.ends_with]. rewrite IH by (congruence || exact Hrest).
    simpl. rewrite eqb_empty, Hne. reflexivity.
Qed.

Lemma relative_app (l1 l2 : list string) :
  l1 <> [] -> l2 <> [] ->
  relative (l1 ++ l2) = relative l1 ++ "/" ++ relative l2.
Proof.
  intros H1 H2. induction l1 as [ | seg rest IH]; [congruence | ].
  destruct rest as [ | seg' rest'].
  - destruct l2; [congruence | reflexivity].
  - cbn [app] in *. rewrite !relative_cons.
    rewrite IH by congruence. rewrite !append_assoc. reflexivity.
Qed.

Lemma normalize_absolute (segs : list string) :
  segs <> [] -> forallb plain_segment segs = true ->
  Path.normalize (absolute segs) = absolute segs.
Proof.
  intros Hne Hall. unfold Path.normalize, absolute.
  cbn [append Str.is_empty Path.isAbsolute Str.starts_with Ascii.eqb
       Bool.eqb andb negb].
  unfold Path.normalizeString. cbn [Str.split_on].
  replace (Ascii.eqb "/" Path.slash) with true by reflexivity.
  rewrite (split_on_join _ Hne Hall). cbn [Path.norm_segs String.eqb orb].
  rewrite norm_segs_plain by exact Hall. cbn [rev app].
  fold (relative segs). rewrite (relative_not_empty _ Hne Hall).
  cbn [Str.ends_with]. rewrite (relative_no_trailing_slash _ Hne Hall).
  replace (String.eqb (String "/" (relative segs)) "/") with false;
    [reflexivity | ].
  simpl. rewrite eqb_empty, (relative_not_empty _ Hne Hall). reflexivity.
Qed.

(** Joining a clean absolute root and a clean relative path concatenates
    them around a separator. *)
Lemma join_plain (root rel : list string) :
  root <> [] -> rel <> [] ->
  forallb plain_segment root = true -> forallb plain_segment rel = true ->
  Path.join [absolute root; relative rel]
  = absolute root ++ "/" ++ relative rel.
Proof.
  intros Hr Hl Hroot Hrel. unfold Path.join. cbn [filter].
  replace (Str.is_empty (absolute root)) with false by reflexivity.
  rewrite (relative_not_empty _ Hl Hrel). cbn [negb Str.join_with].
  assert (E : absolute root ++ "/" ++ relative rel = absolute (root ++ rel)).
  { unfold absolute. rewrite relative_app by assumption.
    rewrite append_assoc. reflexivity. }
  rewrite E. apply normalize_absolute.
  - destruct root; [congruence | discriminate].
  - rewrite forallb_app, Hroot, Hrel. reflexivity.
Qed.

Lemma story_summary_eq (entry : value) :
  nullish entry = false ->
  story_summary entry =
  ret [ ("id", prop entry k_id); ("name", prop entry k_name);
        ("title", prop entry k_title);
        ("kind", or_else (prop entry k_kind) (prop entry k_title));
        ("importPath", prop entry k_importPath);
        ("tags", or_else (prop entry k_tags) (VArr []));
        ("type", prop entry k_type) ].
Proof.
  intros H. unfold story_summary, get. rewrite H. rewrite !bind_lift_ret.
  reflexivity.
Qed.

Lemma trace_getStory (env : Env) (storyId : string) (entry : value)
    (importPath : string) :
  story_request env storyId entry importPath ->
  trace (getStory env (ArgObj storyId)) =
  [ Fetch (index_url env); ReadJson;
    ParseStoryFile (story_path env importPath) storyId (projectDir env) ].
Proof.
  intros H. destruct (story_request_entry _ _ _ _ H) as (Hn & Ht & Hp).
  destruct H as ((response & data & Hf & Hok & Hj & He) & Hget & Hne).
  unfold getStory. rewrite trace_try_catch.
  unfold getStory_try, destructure. rewrite bind_ret.
  unfold do_fetch. rewrite Hf, bind_call_ret. rewrite Hok. cbn [negb].
  unfold do_json. rewrite Hj, bind_call_ret. cbv zeta. rewrite He, Ht.
  cbn [negb]. rewrite story_summary_eq by exact Hn. rewrite bind_ret.
  rewrite Hget, bind_lift_ret. cbn [truthy]. rewrite Hne. cbn [negb].
  unfold replace_dot_slash, string_method. rewrite !bind_ret.
  fold (story_path env importPath). unfold do_parseStoryFile.
  rewrite prepend_prepend, trace_prepend, !trace_bind, trace_call, run_bind,
    run_call.
  destruct (parseStoryFile env (story_path env importPath) storyId
              (projectDir env)) as [[parsed | ] | e]; try reflexivity.
  cbv zeta. destruct (truthy (Parsers.componentDocs parsed)); reflexivity.
Qed.

Lemma getStoryDocs_story_probe (env : Env) (storyId : string) (entry : value)
    (importPath : string) :
  story_request env storyId entry importPath ->
  exists rest,
    trace (getStoryDocs env (ArgObj storyId)) =
    ([ Fetch (index_url env); ReadJson;
       ExistsSync (story_path env importPath) ] ++ rest)%list.
Proof.
  intros Hreq. destruct (Str.ends_with importPath ".mdx") eqn:Hmdx.
  - rewrite (getStoryDocs_mdx _ _ _ _ Hreq Hmdx), trace_prepend.
    eexists. reflexivity.
  - unfold getStoryDocs. rewrite trace_try_catch.
    rewrite (getStoryDocs_try_request _ _ _ _ Hreq), Hmdx.
    unfold story_file_docs, replace_dot_slash, string_method.
    rewrite !bind_ret. fold (story_path env importPath).
    rewrite existsSync_eq, bind_call_ret, bind_prepend, prepend_prepend.
    rewrite trace_prepend. eexists. reflexivity.
Qed.

(** A clean relative path does not start with ['./']. *)
Lemma drop_dot_slash_plain (seg tail : string) :
  plain_segment seg = true ->
  Str.drop_prefix "./" (seg ++ tail) = None.
Proof.
  intros H. apply plain_segment_spec in H. destruct H as (H0 & H1 & _ & Hs).
  destruct seg as [ | c [ | d s2]]; cbn [append Str.drop_prefix].
  - discriminate H0.
  - destruct (Ascii.eqb "." c) eqn:E; [ | reflexivity].
    apply Ascii.eqb_eq in E. subst c. discriminate H1.
  - destruct (Ascii.eqb "." c); [ | reflexivity].
    cbn in Hs. apply andb_true_iff in Hs. destruct Hs as [_ Hs].
    apply andb_true_iff in Hs. destruct Hs as [Hd _].
    apply negb_true_iff in Hd. unfold Path.slash in Hd.
    rewrite Ascii.eqb_sym, Hd. reflexivity.
Qed.

Lemma append_empty_r (s : string) : s ++ "" = s.
Proof.
  induction s as [ | c s IH]; [reflexivity | ].
  cbn [append]. rewrite IH. reflexivity.
Qed.

Lemma strip_plain (rel : list string) :
  rel <> [] -> forallb plain_segment rel = true ->
  Str.strip_dot_slash (relative rel) = relative rel.
Proof.
  destruct rel as [ | seg rest]; [congruence | ]. intros _ H.
  cbn [forallb] in H. apply andb_true_iff in H. destruct H as [Hseg _].
  unfold Str.strip_dot_slash.
  destruct rest as [ | seg' rest'].
  - change (relative [seg]) with seg. rewrite <- (append_empty_r seg) at 1.
    rewrite (drop_dot_slash_plain _ _ Hseg). reflexivity.
  - rewrite relative_cons, (drop_dot_slash_plain _ _ Hseg). reflexivity.
Qed.

(** Where the story file of a clean import path lies below a clean
    root: at the root followed by the segments of the import path, with or
    without a leading ['./'], and at the root itself, without a separator
    at its end, for the import path ['./']. *)
Lemma story_path_clean (env : Env) (importPath : string)
    (root rel : list string) :
  projectDir env = absolute root ->
  root <> [] -> forallb plain_segment root = true ->
  forallb plain_segment rel = true ->
  importPath = "./" ++ relative rel
  \/ (importPath = relative rel /\ rel <> []) ->
  story_path env importPath = absolute (root ++ rel).
Proof.
  intros Hdir Hr Hroot Hrel Hpath. unfold story_path. rewrite Hdir.
  assert (Hjoin : Path.join [absolute root; relative rel]
                  = absolute (root ++ rel)).
  { destruct rel as [ | seg rest].
    - rewrite app_nil_r. unfold Path.join. cbn [filter relative Str.join_with].
      replace (Str.is_empty (absolute root)) with false by reflexivity.
      cbn [negb Str.is_empty Str.join_with].
      apply normalize_absolute; assumption.
    - rewrite join_plain by (assumption || discriminate).
      unfold absolute. rewrite relative_app by (assumption || discriminate).
      rewrite append_assoc. reflexivity. }
  destruct Hpath as [-> | [-> Hne]].
  - change (Str.strip_dot_slash ("./" ++ relative rel)) with (relative rel).
    exact Hjoin.
  - rewrite (strip_plain _ Hne Hrel). exact Hjoin.
Qed.


(** * The sample project *)

Lemma sample_request (fs : string -> fsnode) (doc : Parsers.StoryFileDoc) :
  story_request (Sample.project fs doc) Sample.button_id Sample.button_entry
    Sample.button_path.
Proof.
  split; [ | split; reflexivity ].
  exists {| ok := true; json := Ret Sample.index |}, Sample.index.
  repeat split; reflexivity.
Defined.

Lemma sample_mdx_request :
  story_request Sample.env "intro--docs" Sample.intro_entry "./src/Intro.mdx".
Proof.
  split; [ | split; reflexivity ].
  exists {| ok := true; json := Ret Sample.index |}, Sample.index.
  repeat split; reflexivity.
Defined.

Lemma sample_imports :
  imports_component Sample.story_source "Button" "./button.component".
Proof. split; vm_compute; reflexivity. Defined.

Lemma sample_unresolved (doc : Parsers.StoryFileDoc) (ext : string) :
  In ext extensions ->
  exists_at (Sample.project Sample.stories_only doc)
    (component_base (Sample.project Sample.stories_only doc)
       (story_path (Sample.project Sample.stories_only doc)
          Sample.button_path)
       "./button.component" ++ ext) = false.
Proof.
  intros H. repeat (destruct H as [<- | H]; [reflexivity | ]). destruct H.
Defined.

Lemma sample_resolves (doc : Parsers.StoryFileDoc) :
  resolves_component (Sample.project Sample.files doc)
    (story_path (Sample.project Sample.files doc) Sample.button_path)
    Sample.story_source "Button" Sample.button_doc.
Proof.
  exists "./button.component", [""], ".ts",
    [".tsx"; ".js"; ".jsx"; ".vue"; ".svelte"].
  split; [apply sample_imports | ]. split; [reflexivity | ].
  split; [intros e [<- | []]; reflexivity | ].
  split; reflexivity.
Defined.

Lemma sample_succeeds :
  extraction_succeeds Sample.env
    (story_path Sample.env Sample.button_path) Sample.story_source "Button"
    Sample.button_doc Sample.button_stories Sample.primary_usage.
Proof.
  split; [apply sample_resolves | ]. split; [reflexivity | ].
  split; [reflexivity | ]. split; [reflexivity | ].
  split.
  - constructor; [intros [] | constructor].
  - constructor; [ | constructor ]. split; [reflexivity | ].
    exists (VObj [("label", VStr "Click me")]). split; reflexivity.
Defined.

Lemma probe_order_first_match_witness :
  extensions = [""; ".ts"; ".tsx"; ".js"; ".jsx"; ".vue"; ".svelte"]
  /\ exists rest,
       trace (getStoryDocs Sample.env (ArgObj Sample.button_id)) =
       ([ Fetch "http://localhost:6010/index.json"; ReadJson;
          ExistsSync "/proj/src/button.stories.ts";
          ReadFileSync "/proj/src/button.stories.ts" ]
        ++ [ExistsSync "/proj/src/button.component"]
        ++ [ ExistsSync "/proj/src/button.component.ts";
             ExtractComponentDocs "/proj/src/button.component.ts" ]
        ++ rest)%list
       /\ forallb (fun e => negb (is_probe_event e)) rest = true.
Proof.
  apply (probe_order_first_match Sample.env Sample.button_id
           Sample.button_entry Sample.button_path Sample.story_source
           "Button" "./button.component" [""] ".ts"
           [".tsx"; ".js"; ".jsx"; ".vue"; ".svelte"]).
  - apply sample_request.
  - reflexivity.
  - reflexivity.
  - apply sample_imports.
  - reflexivity.
  - intros e [<- | []]. reflexivity.
  - reflexivity.
Defined.

Lemma unresolved_import_keeps_story_docs_witness :
  run (getStoryDocs (Sample.project Sample.stories_only Sample.button_stories)
         (ArgObj Sample.button_id)) =
  Ret (success_docs
         [ ("storyId", VStr "example-button--primary");
           ("title", VStr "Example/Button"); ("name", VStr "Primary");
           ("type", VStr "story"); ("framework", VStr "angular");
           ("component", VStr "Button");
           ("imports", Parsers.imports Sample.button_stories);
           ("metaCode", Parsers.meta Sample.button_stories);
           ("storyExamples", Parsers.stories Sample.button_stories) ]).
Proof.
  refine (proj1 (unresolved_import_keeps_story_docs
                   (Sample.project Sample.stories_only Sample.button_stories)
                   Sample.button_id Sample.button_entry Sample.button_path
                   Sample.story_source "Button" "./button.component"
                   (Some Sample.button_stories) _ _ _ _ _ _)).
  - apply sample_request.
  - reflexivity.
  - reflexivity.
  - apply sample_imports.
  - apply sample_unresolved.
  - reflexivity.
Defined.

Lemma bare_request :
  story_request Bare.env Sample.button_id Sample.button_entry
    Sample.button_path.
Proof.
  split; [ | split; reflexivity ].
  exists {| ok := true; json := Ret Sample.index |}, Sample.index.
  repeat split; reflexivity.
Defined.

Lemma bare_imports :
  imports_component Bare.story_source "Button" "./button.component".
Proof. split; vm_compute; reflexivity. Defined.

Lemma bare_resolves :
  resolves_component Bare.env (story_path Bare.env Sample.button_path)
    Bare.story_source "Button" Sample.button_doc.
Proof.
  exists "./button.component", [""], ".ts",
    [".tsx"; ".js"; ".jsx"; ".vue"; ".svelte"].
  split; [apply bare_imports | ]. split; [reflexivity | ].
  split; [intros e [<- | []]; reflexivity | ].
  split; reflexivity.
Defined.

(** The reading of the sample finds the variant of the sample story
    file, and none in the bare one. *)
Example reader_finds_the_variants :
  Reader.exported_names Sample.story_source = ["Primary"]
  /\ Reader.exported_names Bare.story_source = []
  /\ match extractStoryExamples_spec Reader.read Sample.files
             "/proj/src/button.stories.ts" with
     | Ret (Some se) => Parsers.stories se
     | _ => VUndefined
     end = Parsers.stories Sample.button_stories.
Proof. repeat split. Qed.

Lemma no_variants_no_usage_examples_witness :
  Reader.exported_names Bare.story_source = []
  /\ (exists se,
        extractStoryExamples Bare.env (story_path Bare.env Sample.button_path)
        = Ret (Some se)
        /\ Parsers.stories se = VObj [])
  /\ exists docs,
       run (getStoryDocs Bare.env (ArgObj Sample.button_id))
       = Ret (success_docs docs)
       /\ own docs "storyExamples" = Some (VObj [])
       /\ (own docs "usageExamples" = None
           \/ own docs "usageExamples" = Some (VObj []))
       /\ forallb (fun e => negb (is_generate_event e))
            (trace (getStoryDocs Bare.env (ArgObj Sample.button_id))) = true.
Proof.
  split; [reflexivity | ].
  eapply (no_variants_no_usage_examples Reader.read Bare.env
            Sample.button_id Sample.button_entry Sample.button_path
            Bare.story_source).
  - apply bare_request.
  - reflexivity.
  - reflexivity.
  - apply (component_info_resolved _ _ _ _ _ _ bare_resolves).
  - reflexivity.
  - reflexivity.
Defined.

Lemma usage_examples_need_both_extractions_witness :
  exists docs,
    run (getStoryDocs Sample.env (ArgObj Sample.button_id))
    = Ret (success_docs docs)
    /\ own docs "usageExamples" = Some (VObj Sample.primary_usage)
    /\ keys Sample.primary_usage = ["Primary"]
    /\ Forall2 (generated Sample.env (VStr "app-button"))
         [("Primary", VObj [("args", VObj [("label", VStr "Click me")])])]
         Sample.primary_usage.
Proof.
  exact (proj2
           (usage_examples_need_both_extractions Sample.env
              (ArgObj Sample.button_id))
           Sample.button_id Sample.button_entry Sample.button_path
           Sample.story_source "Button" Sample.button_doc
           Sample.button_stories Sample.primary_usage eq_refl
           (sample_request _ _) eq_refl eq_refl sample_succeeds).
Defined.

Lemma docs_field_names_witness :
  exists docs,
    run (getStoryDocs Sample.env (ArgObj Sample.button_id))
    = Ret (success_docs docs)
    /\ keys docs =
       ([ "storyId"; "title"; "name"; "type"; "framework"; "component" ]
        ++ [ "selector"; "template"; "componentCode"; "properties";
             "componentDescription"; "imports"; "metaCode"; "storyExamples";
             "usageExamples" ])%list
    /\ own docs "selector" = Some (VStr "app-button")
    /\ own docs "template" = Some (Parsers.template Sample.button_doc)
    /\ own docs "componentCode"
       = Some (Parsers.componentCode Sample.button_doc)
    /\ own docs "properties" = Some (Parsers.properties Sample.button_doc)
    /\ own docs "componentDescription" = Some (VStr "A button")
    /\ own docs "imports" = Some (Parsers.imports Sample.button_stories)
    /\ own docs "metaCode" = Some (Parsers.meta Sample.button_stories)
    /\ own docs "storyExamples" = Some (Parsers.stories Sample.button_stories)
    /\ own docs "usageExamples" = Some (VObj Sample.primary_usage).
Proof.
  exact (docs_field_names Sample.env Sample.button_id Sample.button_entry
           Sample.button_path Sample.story_source "Button" Sample.button_doc
           Sample.button_stories Sample.primary_usage (sample_request _ _)
           eq_refl eq_refl sample_succeeds).
Defined.


(** Joining the unstripped import path ['./'] would keep a separator at
    the end. *)
Example join_keeps_trailing_separator :
  Path.join ["/proj"; "./"] = "/proj/"
  /\ Path.join ["/proj"; Str.strip_dot_slash "./"] = "/proj".
Proof. split; reflexivity. Qed.

Lemma mdx_entry_skips_pipeline_witness :
  run (getStoryDocs Sample.env (ArgObj "intro--docs")) =
  Ret (success_docs
         [ ("storyId", VStr "intro--docs"); ("title", VStr "Intro");
           ("name", VStr "Docs"); ("type", VStr "docs");
           ("framework", VStr "angular"); ("mdxContent", VStr "# Welcome") ])
  /\ trace (getStoryDocs Sample.env (ArgObj "intro--docs")) =
     [ Fetch "http://localhost:6010/index.json"; ReadJson;
       ExistsSync "/proj/src/Intro.mdx"; ReadFileSync "/proj/src/Intro.mdx" ].
Proof.
  exact (proj1 (proj2 (mdx_entry_skips_pipeline Sample.env "intro--docs"
                         Sample.intro_entry "./src/Intro.mdx"
                         sample_mdx_request eq_refl))
           "# Welcome" eq_refl).
Defined.

(** * Further properties of the handlers *)

(** ** The listing handlers *)

Lemma mapM_ret {A B : Type} (f : A -> M B) (g : A -> B) (l : list A) :
  (forall x, In x l -> f x = ret (g x)) -> mapM f l = ret (map g l).
Proof.
  induction l as [ | x l IH]; intros H; cbn [mapM map].
  - reflexivity.
  - rewrite (H x (or_introl eq_refl)), bind_ret.
    rewrite IH by (intros y Hy; apply H; right; exact Hy).
    rewrite bind_ret. reflexivity.
Qed.

Lemma filterM_ret {A : Type} (f : A -> M bool) (p : A -> bool) (l : list A) :
  (forall x, In x l -> f x = ret (p x)) -> filterM f l = ret (filter p l).
Proof.
  induction l as [ | x l IH]; intros H; cbn [filterM filter].
  - reflexivity.
  - rewrite (H x (or_introl eq_refl)), bind_ret.
    rewrite IH by (intros y Hy; apply H; right; exact Hy).
    rewrite bind_ret. reflexivity.
Qed.

Lemma story_summary_summary (entry : value) :
  nullish entry = false -> story_summary entry = ret (summary entry).
Proof. apply story_summary_eq. Qed.

Lemma listStories_ready (env : Env) (args : jsargs value) (data : IndexJson) :
  inventory env data ->
  Forall (fun entry => nullish entry = false) (entry_values data) ->
  listStories_try env args =
  prepend [Fetch (index_url env); ReadJson]
    (kind <- match args with
             | ArgUndefined => ret VUndefined
             | ArgObj kind => ret kind
             | ArgNull =>
                 typeError "Cannot read properties of null (reading 'kind')"
             end ;;
     let stories :=
       if truthy kind then
         filter (summary_matches kind) (map summary (entry_values data))
       else map summary (entry_values data) in
     ret (VObj [ ("success", VBool true);
                 ("count", VNum (Z.of_nat (length stories)));
                 ("stories", VArr (map VObj stories)) ])).
Proof.
  intros (response & Hf & Hok & Hj) Hall. unfold listStories_try, do_fetch.
  rewrite Hf, bind_call_ret, Hok. cbn [negb]. unfold do_json.
  rewrite Hj, bind_call_ret, prepend_prepend.
  rewrite (mapM_ret story_summary summary).
  - rewrite bind_ret. reflexivity.
  - intros entry Hin. apply story_summary_summary.
    rewrite Forall_forall in Hall. apply Hall, Hin.
Qed.

(** X1.  With the inventory available and no entry [null], [listStories]
    succeeds with the summaries of the entries in the order of the
    inventory: all of them when [args.kind] is falsy, and otherwise those
    whose kind (the title when the entry has none) or title is strictly
    equal to it; [count] is their number. *)
Theorem listStories_lists (env : Env) (args : jsargs value) (kind : value)
    (data : IndexJson) :
  inventory env data ->
  Forall (fun entry => nullish entry = false) (entry_values data) ->
  requested_kind args = Some kind ->
  let stories :=
    if truthy kind then
      filter (summary_matches kind) (map summary (entry_values data))
    else map summary (entry_values data) in
  run (listStories env args) =
  Ret (VObj [ ("success", VBool true);
              ("count", VNum (Z.of_nat (length stories)));
              ("stories", VArr (map VObj stories)) ])
  /\ trace (listStories env args) = [Fetch (index_url env); ReadJson].
Proof.
  intros Hinv Hall Hkind stories. unfold listStories.
  rewrite run_try_catch, trace_try_catch.
  rewrite (listStories_ready _ _ _ Hinv Hall).
  destruct args as [ | | k]; inversion Hkind; subst kind;
    rewrite bind_ret; split; reflexivity.
Qed.

Lemma getStoriesByKind_ready (env : Env) (kind : value) (data : IndexJson) :
  inventory env data ->
  Forall (fun entry => nullish entry = false) (entry_values data) ->
  getStoriesByKind_try env (ArgObj kind) =
  prepend [Fetch (index_url env); ReadJson]
    (ret (let stories :=
            map short_summary
              (filter (entry_matches kind) (entry_values data)) in
          VObj [ ("success", VBool true);
                 ("count", VNum (Z.of_nat (length stories)));
                 ("kind", kind);
                 ("stories", VArr stories) ])).
Proof.
  intros (response & Hf & Hok & Hj) Hall.
  rewrite Forall_forall in Hall.
  unfold getStoriesByKind_try, destructure, do_fetch.
  rewrite bind_ret, Hf, bind_call_ret, Hok. cbn [negb]. unfold do_json.
  rewrite Hj, bind_call_ret, prepend_prepend.
  rewrite (filterM_ret _ (entry_matches kind)).
  - rewrite bind_ret. rewrite (mapM_ret _ short_summary).
    + rewrite bind_ret. reflexivity.
    + intros entry Hin. apply filter_In in Hin. destruct Hin as [Hin _].
      unfold get. rewrite (Hall _ Hin). rewrite !bind_lift_ret. reflexivity.
  - intros entry Hin. unfold get. rewrite (Hall _ Hin).
    rewrite bind_lift_ret. unfold entry_matches.
    destruct (strict_eq (prop entry k_kind) kind); [reflexivity | ].
    rewrite bind_lift_ret. reflexivity.
Qed.

(** X2.  With the inventory available and no entry [null],
    [getStoriesByKind] succeeds with the short summaries, in inventory
    order, of the entries whose [kind] or [title] is strictly equal to the
    requested kind, echoes the kind, and counts them. *)
Theorem getStoriesByKind_filters (env : Env) (kind : value)
    (data : IndexJson) :
  inventory env data ->
  Forall (fun entry => nullish entry = false) (entry_values data) ->
  let stories :=
    map short_summary (filter (entry_matches kind) (entry_values data)) in
  run (getStoriesByKind env (ArgObj kind)) =
  Ret (VObj [ ("success", VBool true);
              ("count", VNum (Z.of_nat (length stories)));
              ("kind", kind);
              ("stories", VArr stories) ])
  /\ trace (getStoriesByKind env (ArgObj kind))
     = [Fetch (index_url env); ReadJson].
Proof.
  intros Hinv Hall stories. unfold getStoriesByKind.
  rewrite run_try_catch, trace_try_catch.
  rewrite (getStoriesByKind_ready _ _ _ Hinv Hall). split; reflexivity.
Qed.

Lemma strict_eq_truthy (a b : value) :
  strict_eq a b = true -> truthy a = truthy b.
Proof.
  destruct a, b; simpl; try discriminate; intros H.
  - reflexivity.
  - reflexivity.
  - apply Bool.eqb_prop in H. congruence.
  - apply Z.eqb_eq in H. congruence.
  - apply String.eqb_eq in H. congruence.
Qed.

Lemma summary_matches_entry (kind entry : value) :
  truthy kind = true ->
  summary_matches kind (summary entry) = entry_matches kind entry.
Proof.
  intros Hk. unfold summary_matches, entry_matches.
  change (lookup (summary entry) "kind")
    with (or_else (prop entry k_kind) (prop entry k_title)).
  change (lookup (summary entry) "title") with (prop entry k_title).
  unfold or_else. destruct (truthy (prop entry k_kind)) eqn:Ht.
  - reflexivity.
  - destruct (strict_eq (prop entry k_kind) kind) eqn:E.
    + apply strict_eq_truthy in E. congruence.
    + rewrite orb_diag. reflexivity.
Qed.

Lemma filter_map_summary (kind : value) (entries : list value) :
  truthy kind = true ->
  filter (summary_matches kind) (map summary entries)
  = map summary (filter (entry_matches kind) entries).
Proof.
  intros Hk. induction entries as [ | entry rest IH]; cbn [map filter].
  - reflexivity.
  - rewrite (summary_matches_entry _ _ Hk), IH.
    destruct (entry_matches kind entry); reflexivity.
Qed.

(** X3.  For a truthy kind, [listStories] with that kind and
    [getStoriesByKind] select the same entries of the inventory, in the
    same order: the entries whose [kind] or [title] is the requested one.
    The first returns their summaries, the second their short
    summaries. *)
Theorem listing_handlers_agree (env : Env) (kind : value) (data : IndexJson) :
  inventory env data ->
  Forall (fun entry => nullish entry = false) (entry_values data) ->
  truthy kind = true ->
  let selected := filter (entry_matches kind) (entry_values data) in
  run (listStories env (ArgObj kind)) =
  Ret (VObj [ ("success", VBool true);
              ("count", VNum (Z.of_nat (length selected)));
              ("stories", VArr (map VObj (map summary selected))) ])
  /\ run (getStoriesByKind env (ArgObj kind)) =
     Ret (VObj [ ("success", VBool true);
                 ("count", VNum (Z.of_nat (length selected)));
                 ("kind", kind);
                 ("stories", VArr (map short_summary selected)) ]).
Proof.
  intros Hinv Hall Hk selected. split.
  - unfold listStories. rewrite run_try_catch.
    rewrite (listStories_ready _ _ _ Hinv Hall), bind_ret. cbv zeta.
    rewrite Hk, (filter_map_summary _ _ Hk). fold selected.
    rewrite run_prepend, run_ret, length_map. reflexivity.
  - unfold getStoriesByKind. rewrite run_try_catch.
    rewrite (getStoriesByKind_ready _ _ _ Hinv Hall). cbv zeta.
    fold selected. rewrite run_prepend, run_ret, length_map. reflexivity.
Qed.

Lemma mapM_throws {A B : Type} (f : A -> M B) (l : list A) (x : A) :
  In x l -> (exists e, run (f x) = Throw e) ->
  exists e, run (mapM f l) = Throw e.
Proof.
  intros Hin Hx. induction l as [ | y l IH]; [destruct Hin | ].
  cbn [mapM]. rewrite run_bind.
  destruct (run (f y)) as [b | e] eqn:E.
  - destruct Hin as [-> | Hin].
    + destruct Hx as (e & He). congruence.
    + rewrite run_bind. destruct (IH Hin) as (e & He). rewrite He.
      exists e. reflexivity.
  - exists e. reflexivity.
Qed.

Lemma filterM_throws {A : Type} (f : A -> M bool) (l : list A) (x : A) :
  In x l -> (exists e, run (f x) = Throw e) ->
  exists e, run (filterM f l) = Throw e.
Proof.
  intros Hin Hx. induction l as [ | y l IH]; [destruct Hin | ].
  cbn [filterM]. rewrite run_bind.
  destruct (run (f y)) as [b | e] eqn:E.
  - destruct Hin as [-> | Hin].
    + destruct Hx as (e & He). congruence.
    + rewrite run_bind. destruct (IH Hin) as (e & He). rewrite He.
      exists e. reflexivity.
  - exists e. reflexivity.
Qed.

(** X4.  One [null] entry in the inventory fails the whole listing: both
    [listStories] and [getStoriesByKind] answer with [success: false] and
    the message of the error, whatever the other entries are. *)
Theorem null_entry_fails_listing (env : Env) (data : IndexJson)
    (entry : value) :
  inventory env data ->
  In entry (entry_values data) ->
  nullish entry = true ->
  (forall args, exists msg, run (listStories env args) = Ret (failure msg))
  /\ (forall kind,
        exists msg,
          run (getStoriesByKind env (ArgObj kind)) = Ret (failure msg)).
Proof.
  intros (response & Hf & Hok & Hj) Hin Hnull. split.
  - intros args. unfold listStories. rewrite run_try_catch.
    unfold listStories_try, do_fetch.
    rewrite Hf, bind_call_ret, Hok. cbn [negb]. unfold do_json.
    rewrite Hj, bind_call_ret, !run_prepend, run_bind.
    destruct (mapM_throws story_summary _ _ Hin) as (e & He).
    + unfold story_summary, get. rewrite Hnull. eexists. reflexivity.
    + rewrite He. eexists. reflexivity.
  - intros kind. unfold getStoriesByKind. rewrite run_try_catch.
    unfold getStoriesByKind_try, destructure, do_fetch.
    rewrite bind_ret, Hf, bind_call_ret, Hok. cbn [negb]. unfold do_json.
    rewrite Hj, bind_call_ret, !run_prepend, run_bind.
    match goal with
    | |- context [filterM ?f _] =>
        destruct (filterM_throws f _ _ Hin) as (e & He)
    end.
    + unfold get. rewrite Hnull. eexists. reflexivity.
    + rewrite He. eexists. reflexivity.
Qed.

(** ** Storybook is not ready *)

(** X5.  When Storybook answers the request for [index.json] with a
    status that is not OK, every handler returns a failure after that one
    request, without reading the body or touching the file system:
    [listStories] with the error ['Storybook is not ready. Please wait...']
    and a hint that names the Storybook URL, the other three with the
    error ['Storybook is not ready'].  The four REST routes answer 503
    with these bodies. *)
Theorem not_ready_is_503 (env : Env) (response : Response) :
  fetch env (index_url env) = Ret response ->
  ok response = false ->
  let waiting :=
    VObj [ ("success", VBool false);
           ("error", VStr "Storybook is not ready. Please wait...");
           ("hint", VStr ("Make sure Storybook is running at "
                          ++ storybookUrl env)) ] in
  let refused :=
    VObj [ ("success", VBool false);
           ("error", VStr "Storybook is not ready") ] in
  (forall args,
     run (listStories env args) = Ret waiting
     /\ trace (listStories env args) = [Fetch (index_url env)])
  /\ (forall storyId,
        run (getStory env (ArgObj storyId)) = Ret refused
        /\ trace (getStory env (ArgObj storyId)) = [Fetch (index_url env)])
  /\ (forall storyId,
        run (getStoryDocs env (ArgObj storyId)) = Ret refused
        /\ trace (getStoryDocs env (ArgObj storyId))
           = [Fetch (index_url env)])
  /\ (forall kind,
        run (getStoriesByKind env (ArgObj kind)) = Ret refused
        /\ trace (getStoriesByKind env (ArgObj kind))
           = [Fetch (index_url env)])
  /\ (forall kind, run (stories_route env kind) = Ret (503%Z, waiting))
  /\ (forall storyId, run (story_route env storyId) = Ret (503%Z, refused))
  /\ (forall storyId, run (docs_route env storyId) = Ret (503%Z, refused))
  /\ (forall kind, run (kind_route env kind) = Ret (503%Z, refused)).
Proof.
  intros Hf Hok waiting refused.
  assert (Hlist : forall args,
             listStories env args = (Ret waiting, [Fetch (index_url env)])).
  { intros args. unfold listStories, listStories_try, do_fetch.
    rewrite Hf, bind_call_ret, Hok. reflexivity. }
  assert (Hstory : forall storyId,
             getStory env (ArgObj storyId)
             = (Ret refused, [Fetch (index_url env)])).
  { intros storyId. unfold getStory, getStory_try, destructure, do_fetch.
    rewrite bind_ret, Hf, bind_call_ret, Hok. reflexivity. }
  assert (Hdocs : forall storyId,
             getStoryDocs env (ArgObj storyId)
             = (Ret refused, [Fetch (index_url env)])).
  { intros storyId.
    unfold getStoryDocs, getStoryDocs_try, destructure, do_fetch.
    rewrite bind_ret, Hf, bind_call_ret, Hok. reflexivity. }
  assert (Hkind : forall kind,
             getStoriesByKind env (ArgObj kind)
             = (Ret refused, [Fetch (index_url env)])).
  { intros kind.
    unfold getStoriesByKind, getStoriesByKind_try, destructure, do_fetch.
    rewrite bind_ret, Hf, bind_call_ret, Hok. reflexivity. }
  split; [intros args; rewrite Hlist; split; reflexivity | ].
  split; [intros storyId; rewrite Hstory; split; reflexivity | ].
  split; [intros storyId; rewrite Hdocs; split; reflexivity | ].
  split; [intros kind; rewrite Hkind; split; reflexivity | ].
  split; [intros kind; unfold stories_route; rewrite Hlist; reflexivity | ].
  split; [intros storyId; unfold story_route; rewrite Hstory; reflexivity | ].
  split; [intros storyId; unfold docs_route; rewrite Hdocs; reflexivity | ].
  intros kind. unfold kind_route. rewrite Hkind. reflexivity.
Qed.

(** ** [getStory] *)

Lemma getStory_try_found (env : Env) (storyId : string) (entry : value) :
  serves env storyId entry ->
  truthy entry = true ->
  getStory_try env (ArgObj storyId) =
  prepend [Fetch (index_url env); ReadJson]
    (story <-
       (if truthy (prop entry k_importPath) then
          cleanPath <- replace_dot_slash (prop entry k_importPath) ;;
          parsed <- do_parseStoryFile env
                      (Path.join [projectDir env; cleanPath]) storyId
                      (projectDir env) ;;
          match parsed with
          | Some parsed =>
              ret (summary entry ++ parsed_fields parsed)%list
          | None => ret (summary entry)
          end
        else ret (summary entry)) ;;
     ret (success_story story)).
Proof.
  intros (response & data & Hf & Hok & Hj & He) Ht.
  pose proof (truthy_not_nullish _ Ht) as Hn.
  unfold getStory_try, destructure. rewrite bind_ret.
  unfold do_fetch. rewrite Hf, bind_call_ret, Hok. cbn [negb].
  unfold do_json. rewrite Hj, bind_call_ret, prepend_prepend. cbv zeta.
  rewrite He, Ht. cbn [negb].
  rewrite (story_summary_summary _ Hn), bind_ret.
  unfold get. rewrite Hn, bind_lift_ret. cbn [app].
  f_equal. f_equal.
  destruct (truthy (prop entry k_importPath)); [ | reflexivity ].
  apply bind_ext. intros cleanPath. apply bind_ext. intros [parsed | ];
    [ | reflexivity ].
  cbv zeta. unfold parsed_fields.
  destruct (truthy (Parsers.componentDocs parsed)); reflexivity.
Qed.

(** X6.  For an entry with an import path, [getStory] returns the summary
    of the entry and, when [parseStoryFile] returns a story, appends
    [component], [args] and [argTypes] (an empty object in place of a
    falsy value) and [docs] only if the parsed component documentation is
    truthy.  When the parser returns nothing the summary stands alone, and
    when it throws the request fails with the message of the error. *)
Theorem getStory_parsed_fields (env : Env) (storyId : string) (entry : value)
    (importPath : string) :
  story_request env storyId entry importPath ->
  (forall parsed,
     parseStoryFile env (story_path env importPath) storyId (projectDir env)
     = Ret (Some parsed) ->
     run (getStory env (ArgObj storyId))
     = Ret (success_story (summary entry ++ parsed_fields parsed)%list))
  /\ (parseStoryFile env (story_path env importPath) storyId (projectDir env)
      = Ret None ->
      run (getStory env (ArgObj storyId))
      = Ret (success_story (summary entry)))
  /\ (forall e,
        parseStoryFile env (story_path env importPath) storyId
          (projectDir env) = Throw e ->
        run (getStory env (ArgObj storyId)) = Ret (failure (message e))).
Proof.
  intros Hreq. destruct (story_request_entry _ _ _ _ Hreq) as (Hn & Ht & Hp).
  destruct Hreq as (Hs & _ & Hne).
  unfold getStory. rewrite (getStory_try_found _ _ _ Hs Ht), Hp.
  cbn [truthy]. rewrite Hne. cbn [negb].
  unfold replace_dot_slash, string_method. rewrite !bind_ret.
  fold (story_path env importPath). unfold do_parseStoryFile.
  rewrite try_catch_prepend, run_prepend, run_try_catch, !run_bind, run_call.
  split; [ | split ].
  - intros parsed H. rewrite H. reflexivity.
  - intros H. rewrite H. reflexivity.
  - intros e H. rewrite H. reflexivity.
Qed.

Lemma getStoryDocs_try_found (env : Env) (storyId : string) (entry : value) :
  serves env storyId entry ->
  truthy entry = true ->
  getStoryDocs_try env (ArgObj storyId) =
  prepend [Fetch (index_url env); ReadJson]
    (notMdx <- and_then (truthy (prop entry k_importPath))
                 (mdx <- endsWith (prop entry k_importPath) ".mdx" ;;
                  ret (negb mdx)) ;;
     docs <-
       (if notMdx then
          story_file_docs env (prop entry k_importPath)
            (header env storyId entry)
        else
          isMdx <- and_then (truthy (prop entry k_importPath))
                     (endsWith (prop entry k_importPath) ".mdx") ;;
          if isMdx then
            mdx_docs env (prop entry k_importPath) (header env storyId entry)
          else ret (header env storyId entry)) ;;
     ret (success_docs docs)).
Proof.
  intros (response & data & Hf & Hok & Hj & He) Ht.
  pose proof (truthy_not_nullish _ Ht) as Hn.
  unfold getStoryDocs_try, destructure. rewrite bind_ret.
  unfold do_fetch. rewrite Hf, bind_call_ret, Hok. cbn [negb].
  unfold do_json. rewrite Hj, bind_call_ret, prepend_prepend. cbv zeta.
  rewrite He, Ht. cbn [negb].
  rewrite (docs_header_eq _ _ _ Hn), bind_ret.
  unfold get. rewrite Hn, bind_lift_ret. reflexivity.
Qed.

(** X7.  An entry whose import path is missing or falsy is answered from
    the inventory alone: [getStory] returns its summary and [getStoryDocs]
    the header, and neither touches the file system or a parser. *)
Theorem entry_without_import_path (env : Env) (storyId : string)
    (entry : value) :
  serves env storyId entry ->
  truthy entry = true ->
  truthy (prop entry k_importPath) = false ->
  run (getStory env (ArgObj storyId)) = Ret (success_story (summary entry))
  /\ trace (getStory env (ArgObj storyId))
     = [Fetch (index_url env); ReadJson]
  /\ run (getStoryDocs env (ArgObj storyId))
     = Ret (success_docs (header env storyId entry))
  /\ trace (getStoryDocs env (ArgObj storyId))
     = [Fetch (index_url env); ReadJson].
Proof.
  intros Hs Ht Hp. unfold getStory, getStoryDocs.
  rewrite (getStory_try_found _ _ _ Hs Ht).
  rewrite (getStoryDocs_try_found _ _ _ Hs Ht), Hp.
  repeat split.
Qed.

(** X8.  An entry whose import path is truthy but not a string (a number,
    [true], an array, an object) makes both [getStory] and [getStoryDocs]
    fail with the message of the [TypeError] raised by the string method;
    no file is looked for. *)
Theorem import_path_not_a_string (env : Env) (storyId : string)
    (entry : value) :
  serves env storyId entry ->
  truthy entry = true ->
  truthy (prop entry k_importPath) = true ->
  is_string (prop entry k_importPath) = false ->
  (exists msg, run (getStory env (ArgObj storyId)) = Ret (failure msg))
  /\ (exists msg, run (getStoryDocs env (ArgObj storyId)) = Ret (failure msg))
  /\ trace (getStory env (ArgObj storyId))
     = [Fetch (index_url env); ReadJson]
  /\ trace (getStoryDocs env (ArgObj storyId))
     = [Fetch (index_url env); ReadJson].
Proof.
  intros Hs Ht Hp Hstr. unfold getStory, getStoryDocs.
  rewrite (getStory_try_found _ _ _ Hs Ht).
  rewrite (getStoryDocs_try_found _ _ _ Hs Ht), Hp.
  unfold and_then, endsWith, replace_dot_slash, string_method.
  destruct (prop entry k_importPath); try discriminate Hstr;
    (split; [eexists; reflexivity | ]);
    (split; [eexists; reflexivity | ]); split; reflexivity.
Qed.

(** ** Edges of [getStoryDocs] *)

(** X9.  When nothing is at the path of the story file, [getStoryDocs]
    still succeeds: [docs] is the header alone, the path is probed once
    and no parser is called.  When a directory is there, the read throws
    and the request fails. *)
Theorem story_file_absent (env : Env) (storyId : string) (entry : value)
    (importPath : string) :
  story_request env storyId entry importPath ->
  Str.ends_with importPath ".mdx" = false ->
  (fs env (story_path env importPath) = Missing ->
   run (getStoryDocs env (ArgObj storyId))
   = Ret (success_docs (header env storyId entry))
   /\ trace (getStoryDocs env (ArgObj storyId))
      = [ Fetch (index_url env); ReadJson;
          ExistsSync (story_path env importPath) ])
  /\ (fs env (story_path env importPath) = Dir ->
      run (getStoryDocs env (ArgObj storyId))
      = Ret (failure "EISDIR: illegal operation on a directory, read")
      /\ trace (getStoryDocs env (ArgObj storyId))
         = [ Fetch (index_url env); ReadJson;
             ExistsSync (story_path env importPath);
             ReadFileSync (story_path env importPath) ]).
Proof.
  intros Hreq Hmdx. rewrite (getStoryDocs_not_mdx _ _ _ _ Hreq Hmdx).
  unfold exists_at, readFileSync. split; intros H; rewrite H;
    split; reflexivity.
Qed.

(** X10.  When the component documents without a truthy selector, the
    request succeeds with the component and story fields but without
    [usageExamples], and the generator is not called, whatever variants
    the story file has. *)
Theorem falsy_selector_no_usage_examples (env : Env) (storyId : string)
    (entry : value) (importPath content componentName : string)
    (cd : Parsers.ComponentDoc) (se : Parsers.StoryFileDoc) :
  story_request env storyId entry importPath ->
  Str.ends_with importPath ".mdx" = false ->
  fs env (story_path env importPath) = File content ->
  resolves_component env (story_path env importPath) content componentName
    cd ->
  truthy (Parsers.selector cd) = false ->
  extractStoryExamples env (story_path env importPath) = Ret (Some se) ->
  let docs :=
    (header env storyId entry
     ++ [ ("component", VStr componentName);
          ("selector", Parsers.selector cd);
          ("template", Parsers.template cd);
          ("componentCode", Parsers.componentCode cd);
          ("properties", Parsers.properties cd);
          ("componentDescription", Parsers.description cd);
          ("imports", Parsers.imports se);
          ("metaCode", Parsers.meta se);
          ("storyExamples", Parsers.stories se) ])%list in
  run (getStoryDocs env (ArgObj storyId)) = Ret (success_docs docs)
  /\ own docs "usageExamples" = None
  /\ forallb (fun e => negb (is_generate_event e))
       (trace (getStoryDocs env (ArgObj storyId))) = true.
Proof.
  intros Hreq Hmdx Hfile Hres Hsel Hse docs.
  assert (Hex : story_examples env (story_path env importPath)
                  (with_component_docs
                     (obj_set (header env storyId entry) "component"
                        (VStr componentName)) cd)
                = (Ret docs,
                   [ExtractStoryExamples (story_path env importPath)])).
  { unfold story_examples, do_extractStoryExamples.
    rewrite Hse, bind_call_ret. cbv zeta.
    match goal with
    | |- context [lookup ?d "selector"] =>
        replace (lookup d "selector") with (Parsers.selector cd)
          by reflexivity
    end.
    rewrite Hsel. reflexivity. }
  split; [ | split ].
  - rewrite (run_story_file _ _ _ _ _ Hreq Hmdx Hfile).
    rewrite (component_info_resolved _ _ _ _ _ _ Hres), Hex. reflexivity.
  - reflexivity.
  - rewrite (trace_story_file _ _ _ _ _ Hreq Hmdx Hfile).
    rewrite (component_info_resolved _ _ _ _ _ _ Hres), Hex.
    cbn [app forallb is_generate_event negb andb].
    rewrite forallb_app, component_info_no_generate. reflexivity.
Qed.

Lemma usage_examples_fails (env : Env) (sel : value)
    (pre : list (string * value)) (variant : string * value)
    (post : list (string * value)) (e : exn) (acc : obj) :
  Forall (generation_returns env sel) pre ->
  generation_fails env sel variant e ->
  run (usage_examples env sel (pre ++ variant :: post) acc) = Throw e.
Proof.
  intros Hpre Hfail. revert acc.
  induction Hpre as [ | [name story] pre (a & example & Hget & Hgen) _ IH];
    intros acc.
  - destruct variant as [name story]. cbn [app usage_examples].
    rewrite run_bind, run_lift.
    destruct Hfail as [Hget | (a & Hget & Hgen)]; cbn [fst snd] in *.
    + rewrite Hget. reflexivity.
    + rewrite Hget. unfold do_generateUsageExample.
      rewrite run_bind, run_call, Hgen. reflexivity.
  - cbn [fst snd] in Hget, Hgen. cbn [app usage_examples].
    rewrite run_bind, run_lift, Hget. unfold do_generateUsageExample.
    rewrite run_bind, run_call, Hgen. apply IH.
Qed.

(** X11.  The usage examples are all or nothing: when reading the [args]
    of one variant or generating its example throws, after the variants
    before it went through, the whole request fails with the message of
    that error and none of the documentation gathered so far is
    returned. *)
Theorem failing_variant_fails_request (env : Env) (storyId : string)
    (entry : value) (importPath content componentName : string)
    (cd : Parsers.ComponentDoc) (se : Parsers.StoryFileDoc)
    (pre : list (string * value)) (variant : string * value)
    (post : list (string * value)) (e : exn) :
  story_request env storyId entry importPath ->
  Str.ends_with importPath ".mdx" = false ->
  fs env (story_path env importPath) = File content ->
  resolves_component env (story_path env importPath) content componentName
    cd ->
  truthy (Parsers.selector cd) = true ->
  extractStoryExamples env (story_path env importPath) = Ret (Some se) ->
  truthy (Parsers.stories se) = true ->
  object_entries (Parsers.stories se) = (pre ++ variant :: post)%list ->
  Forall (generation_returns env (Parsers.selector cd)) pre ->
  generation_fails env (Parsers.selector cd) variant e ->
  run (getStoryDocs env (ArgObj storyId)) = Ret (failure (message e)).
Proof.
  intros Hreq Hmdx Hfile Hres Hsel Hse Hst Hsplit Hpre Hfail.
  rewrite (run_story_file _ _ _ _ _ Hreq Hmdx Hfile).
  rewrite (component_info_resolved _ _ _ _ _ _ Hres).
  unfold story_examples, do_extractStoryExamples.
  rewrite run_bind, run_call, Hse. cbv zeta.
  match goal with
  | |- context [lookup ?d "selector"] =>
      replace (lookup d "selector") with (Parsers.selector cd)
        by reflexivity
  end.
  rewrite Hsel, Hst, Hsplit. cbn [andb].
  rewrite run_bind, (usage_examples_fails _ _ _ _ _ _ _ Hpre Hfail).
  reflexivity.
Qed.

(** ** The REST routes *)

Lemma returns_verdict_ret (v : value) :
  success_or_failure v -> returns_verdict (ret v).
Proof. intros H w E. inversion E. subst. exact H. Qed.

Lemma returns_verdict_bind {A : Type} (m : M A) (f : A -> M value) :
  (forall a, returns_verdict (f a)) -> returns_verdict (bind m f).
Proof.
  intros H v. rewrite run_bind. destruct (run m) as [a | e].
  - apply H.
  - discriminate.
Qed.

Lemma failure_is_failure (msg : string) : is_failure (failure msg) msg.
Proof. eexists. repeat split. Qed.

Ltac verdict_literal :=
  first
    [ left; eexists; split; reflexivity
    | right; eexists; eexists; split; [reflexivity | split; reflexivity] ].

Ltac returns_verdict :=
  repeat first
    [ apply returns_verdict_ret; verdict_literal
    | apply returns_verdict_bind; intros
    | match goal with
      | |- returns_verdict (if ?c then _ else _) => destruct c
      | |- returns_verdict (let _ := _ in _) => cbv zeta
      end ].

Lemma try_catch_verdict (body : M value) :
  returns_verdict body ->
  exists v, run (try_catch body) = Ret v /\ success_or_failure v.
Proof.
  intros H. rewrite run_try_catch. destruct (run body) as [v | e] eqn:E.
  - exists v. split; [reflexivity | apply H, E].
  - eexists. split; [reflexivity | ]. right. eexists.
    apply failure_is_failure.
Qed.

Lemma listStories_verdict (env : Env) (args : jsargs value) :
  exists v, run (listStories env args) = Ret v /\ success_or_failure v.
Proof.
  apply try_catch_verdict. unfold listStories_try. returns_verdict.
Qed.

Lemma getStory_verdict (env : Env) (args : jsargs string) :
  exists v, run (getStory env args) = Ret v /\ success_or_failure v.
Proof.
  apply try_catch_verdict. unfold getStory_try, not_ready. returns_verdict.
Qed.

Lemma getStoryDocs_verdict (env : Env) (args : jsargs string) :
  exists v, run (getStoryDocs env args) = Ret v /\ success_or_failure v.
Proof.
  apply try_catch_verdict. unfold getStoryDocs_try, not_ready.
  returns_verdict.
Qed.

Lemma getStoriesByKind_verdict (env : Env) (args : jsargs value) :
  exists v, run (getStoriesByKind env args) = Ret v /\ success_or_failure v.
Proof.
  apply try_catch_verdict. unfold getStoriesByKind_try, not_ready.
  returns_verdict.
Qed.

Lemma story_status_answer (body : value) :
  success_or_failure body ->
  story_route_answer (story_route_status body) body.
Proof.
  intros [(r & -> & Hs) | (msg & r & -> & Hs & He)].
  - left. split; [ | eexists; split; [reflexivity | exact Hs] ].
    unfold story_route_status, lookup. rewrite Hs. reflexivity.
  - right. exists msg. split; [eexists; repeat split; assumption | ].
    unfold story_route_status, error_says_not_found, lookup.
    rewrite Hs, He. reflexivity.
Qed.

Lemma list_status_answer (body : value) :
  success_or_failure body ->
  list_route_answer (list_route_status body) body.
Proof.
  intros [(r & -> & Hs) | (msg & r & -> & Hs & He)].
  - left. split; [ | eexists; split; [reflexivity | exact Hs] ].
    unfold list_route_status, lookup. rewrite Hs. reflexivity.
  - right. split; [ | exists msg; eexists; repeat split; assumption ].
    unfold list_route_status, lookup. rewrite Hs. reflexivity.
Qed.

(** X12.  Each of the four REST routes always answers.  The status is 200
    exactly for a body with [success: true].  For a failure the story and
    documentation routes answer 404 when the error text contains
    ['not found'] and 503 otherwise; the two listing routes answer 503.
    The choice between 404 and 503 looks at the text only: when the
    request to Storybook itself throws, the status is 404 if the message
    of that error happens to contain ['not found']. *)
Theorem rest_routes_answer (env : Env) :
  (forall kind,
     exists status body,
       run (stories_route env kind) = Ret (status, body)
       /\ list_route_answer status body)
  /\ (forall storyId,
        exists status body,
          run (story_route env storyId) = Ret (status, body)
          /\ story_route_answer status body)
  /\ (forall storyId,
        exists status body,
          run (docs_route env storyId) = Ret (status, body)
          /\ story_route_answer status body)
  /\ (forall kind,
        exists status body,
          run (kind_route env kind) = Ret (status, body)
          /\ list_route_answer status body)
  /\ (forall storyId e,
        fetch env (index_url env) = Throw e ->
        run (docs_route env storyId)
        = Ret (if Str.includes (message e) "not found"
               then 404%Z else 503%Z,
               failure (message e))).
Proof.
  split; [ | split; [ | split; [ | split ] ] ].
  - intros kind. destruct (listStories_verdict env (ArgObj kind))
      as (v & Hrun & Hv).
    exists (list_route_status v), v. unfold stories_route.
    rewrite run_bind, Hrun. split; [reflexivity | ].
    apply list_status_answer, Hv.
  - intros storyId. destruct (getStory_verdict env (ArgObj storyId))
      as (v & Hrun & Hv).
    exists (story_route_status v), v. unfold story_route.
    rewrite run_bind, Hrun. split; [reflexivity | ].
    apply story_status_answer, Hv.
  - intros storyId. destruct (getStoryDocs_verdict env (ArgObj storyId))
      as (v & Hrun & Hv).
    exists (story_route_status v), v. unfold docs_route.
    rewrite run_bind, Hrun. split; [reflexivity | ].
    apply story_status_answer, Hv.
  - intros kind. destruct (getStoriesByKind_verdict env (ArgObj (VStr kind)))
      as (v & Hrun & Hv).
    exists (list_route_status v), v. unfold kind_route.
    rewrite run_bind, Hrun. split; [reflexivity | ].
    apply list_status_answer, Hv.
  - intros storyId e Hf. unfold docs_route, getStoryDocs, getStoryDocs_try.
    unfold destructure, do_fetch. rewrite bind_ret, Hf.
    rewrite run_bind, run_try_catch, run_bind, run_call.
    rewrite run_ret, failure_status. reflexivity.
Qed.

(** ** What one request does at most *)

Lemma count_app (p : event -> bool) (l l' : list event) :
  count p (l ++ l') = count p l + count p l'.
Proof. unfold count. rewrite filter_app, length_app. reflexivity. Qed.

Lemma count_none (p q : event -> bool) (l : list event) :
  forallb q l = true -> (forall e, q e = true -> p e = false) ->
  count p l = 0.
Proof.
  intros Hq Hpq. induction l as [ | e l IH]; [reflexivity | ].
  simpl in Hq. apply andb_true_iff in Hq. destruct Hq as [He Hl].
  unfold count in *. simpl. rewrite (Hpq e He). apply IH, Hl.
Qed.

Lemma count_le_length (p : event -> bool) (l : list event) :
  count p l <= length l.
Proof. unfold count. apply filter_length_le. Qed.

(** The probe: existence checks, then at most one extraction. *)
Lemma probe_shape (env : Env) (exts : list string) (base : string)
    (docs : obj) :
  exists tried tail,
    trace (probe env exts base docs) = (probes base tried ++ tail)%list
    /\ length tried <= length exts
    /\ (tail = [] \/ exists p, tail = [ExtractComponentDocs p]).
Proof.
  induction exts as [ | ext rest IH]; cbn [probe].
  - exists [], []. split; [reflexivity | split; [simpl; lia | left; reflexivity] ].
  - rewrite existsSync_eq, bind_call_ret, trace_prepend.
    destruct (exists_at env (base ++ ext)).
    + unfold do_extractComponentDocs. rewrite trace_bind, trace_call, run_call.
      exists [ext], [ExtractComponentDocs (base ++ ext)].
      split; [ | split; [simpl; lia | right; eexists; reflexivity] ].
      destruct (extractComponentDocs env (base ++ ext)) as [[cd | ] | e];
        reflexivity.
    + destruct IH as (tried & tail & Htr & Hlen & Htail).
      exists (ext :: tried), tail. rewrite Htr.
      split; [reflexivity | split; [simpl; lia | exact Htail] ].
Qed.

Lemma count_probes_exists (base : string) (tried : list string) :
  count is_exists (probes base tried) = length tried.
Proof.
  induction tried as [ | ext tried IH]; unfold count in *; simpl;
    [ | rewrite IH ]; reflexivity.
Qed.

Lemma count_probes_other (p : event -> bool) (base : string)
    (tried : list string) :
  (forall q, p (ExistsSync q) = false) -> count p (probes base tried) = 0.
Proof.
  intros H. induction tried as [ | ext tried IH]; unfold count in *; simpl;
    [ | rewrite H ]; [reflexivity | exact IH].
Qed.

Lemma probe_bounded (env : Env) (exts : list string) (base : string)
    (docs : obj) :
  let t := trace (probe env exts base docs) in
  count is_fetch t = 0 /\ count is_exists t <= length exts
  /\ count is_read t = 0 /\ count is_extract_component t <= 1
  /\ count is_extract_stories t = 0 /\ count is_parse t = 0.
Proof.
  destruct (probe_shape env exts base docs)
    as (tried & tail & Htr & Hlen & Htail).
  cbv zeta. rewrite Htr, !count_app, count_probes_exists.
  rewrite !count_probes_other by reflexivity.
  destruct Htail as [-> | (p & ->)]; unfold count; simpl; repeat split; lia.
Qed.

Lemma component_info_bounded (env : Env) (storyFilePath content : string)
    (docs : obj) :
  let t := trace (component_info env storyFilePath content docs) in
  count is_fetch t = 0 /\ count is_exists t <= 7
  /\ count is_read t = 0 /\ count is_extract_component t <= 1
  /\ count is_extract_stories t = 0 /\ count is_parse t = 0.
Proof.
  unfold component_info.
  destruct (Regex.group1 (Regex.search Regex.component_re content));
    [ | unfold count; simpl; repeat split; lia ].
  cbv zeta.
  destruct (Regex.group1 (Regex.search (Regex.import_re _) content));
    [ apply (probe_bounded env extensions)
    | unfold count; simpl; repeat split; lia ].
Qed.

Lemma usage_examples_generate_only (env : Env) (sel : value)
    (variants : list (string * value)) (acc : obj) :
  forallb is_generate_event (trace (usage_examples env sel variants acc))
  = true.
Proof.
  revert acc. induction variants as [ | [name story] rest IH]; intros acc.
  - reflexivity.
  - cbn [usage_examples]. rewrite trace_bind, trace_lift, run_lift.
    cbn [app]. destruct (get story k_args) as [a | e]; [ | reflexivity ].
    unfold do_generateUsageExample.
    rewrite trace_bind, trace_call, run_call. cbn [app forallb].
    cbn [is_generate_event andb].
    destruct (generateUsageExample env sel a name (framework env));
      [ apply IH | reflexivity ].
Qed.

Lemma story_examples_shape (env : Env) (storyFilePath : string) (docs : obj) :
  exists generated,
    trace (story_examples env storyFilePath docs)
    = ExtractStoryExamples storyFilePath :: generated
    /\ forallb is_generate_event generated = true.
Proof.
  unfold story_examples, do_extractStoryExamples.
  rewrite trace_bind, trace_call, run_call. cbn [app].
  destruct (extractStoryExamples env storyFilePath) as [[se | ] | e];
    try (exists []; split; reflexivity).
  cbv zeta. match goal with |- context [if ?c then _ else _] => destruct c end.
  - eexists. split; [reflexivity | ]. rewrite trace_bind, forallb_app.
    rewrite usage_examples_generate_only. destruct (run _); reflexivity.
  - exists []. split; reflexivity.
Qed.

Lemma story_examples_bounded (env : Env) (storyFilePath : string)
    (docs : obj) :
  let t := trace (story_examples env storyFilePath docs) in
  count is_fetch t = 0 /\ count is_exists t = 0
  /\ count is_read t = 0 /\ count is_extract_component t = 0
  /\ count is_extract_stories t = 1 /\ count is_parse t = 0.
Proof.
  destruct (story_examples_shape env storyFilePath docs)
    as (generated & Htr & Hgen).
  cbv zeta. rewrite Htr.
  change (ExtractStoryExamples storyFilePath :: generated)
    with ([ExtractStoryExamples storyFilePath] ++ generated)%list.
  rewrite !count_app.
  rewrite !(count_none _ is_generate_event generated Hgen)
    by (intros [] H; try discriminate H; reflexivity).
  unfold count. simpl. repeat split.
Qed.

Lemma trace_story_summary (entry : value) : trace (story_summary entry) = [].
Proof.
  destruct (nullish entry) eqn:H.
  - unfold story_summary, get. rewrite H. reflexivity.
  - rewrite (story_summary_eq _ H). reflexivity.
Qed.

Lemma trace_mapM_nil {A B : Type} (f : A -> M B) (l : list A) :
  (forall x, trace (f x) = []) -> trace (mapM f l) = [].
Proof.
  intros H. induction l as [ | x l IH]; [reflexivity | ].
  cbn [mapM]. rewrite trace_bind, H. destruct (run (f x)); [ | reflexivity ].
  rewrite trace_bind, IH. destruct (run (mapM f l)); reflexivity.
Qed.

Lemma trace_filterM_nil {A : Type} (f : A -> M bool) (l : list A) :
  (forall x, trace (f x) = []) -> trace (filterM f l) = [].
Proof.
  intros H. induction l as [ | x l IH]; [reflexivity | ].
  cbn [filterM]. rewrite trace_bind, H. destruct (run (f x)); [ | reflexivity ].
  rewrite trace_bind, IH. destruct (run (filterM f l)); reflexivity.
Qed.

Lemma listStories_footprint (env : Env) (args : jsargs value) :
  is_prefix (trace (listStories env args)) [Fetch (index_url env); ReadJson].
Proof.
  unfold listStories. rewrite trace_try_catch. unfold listStories_try, do_fetch.
  rewrite trace_bind, trace_call, run_call.
  destruct (fetch env (index_url env)) as [response | e];
    [ | simpl; auto ].
  destruct (ok response); cbn [negb]; [ | simpl; auto ].
  unfold do_json. rewrite trace_bind, trace_call, run_call.
  destruct (json response) as [data | e]; [ | simpl; auto ].
  rewrite trace_bind, (trace_mapM_nil _ _ trace_story_summary).
  destruct (run (mapM story_summary (entry_values data)));
    [ | simpl; auto ].
  rewrite trace_bind. destruct args; simpl; auto.
Qed.

Lemma getStoriesByKind_footprint (env : Env) (args : jsargs value) :
  is_prefix (trace (getStoriesByKind env args))
    [Fetch (index_url env); ReadJson].
Proof.
  unfold getStoriesByKind. rewrite trace_try_catch.
  unfold getStoriesByKind_try. destruct args as [ | | kind];
    [simpl; auto | simpl; auto | ].
  unfold destructure, do_fetch. rewrite bind_ret.
  rewrite trace_bind, trace_call, run_call.
  destruct (fetch env (index_url env)) as [response | e];
    [ | simpl; auto ].
  destruct (ok response); cbn [negb]; [ | simpl; auto ].
  unfold do_json. rewrite trace_bind, trace_call, run_call.
  destruct (json response) as [data | e]; [ | simpl; auto ].
  rewrite trace_bind, trace_filterM_nil.
  - destruct (run (filterM _ _)) as [matching | e]; [ | simpl; auto ].
    rewrite trace_bind, trace_mapM_nil.
    + destruct (run (mapM _ _)); simpl; auto.
    + intros entry. destruct (nullish entry) eqn:H; unfold get; rewrite H.
      * reflexivity.
      * rewrite !bind_lift_ret. reflexivity.
  - intros entry. destruct (nullish entry) eqn:H; unfold get; rewrite H.
    + reflexivity.
    + rewrite bind_lift_ret.
      destruct (strict_eq (prop entry k_kind) kind); [reflexivity | ].
      rewrite bind_lift_ret. reflexivity.
Qed.

Lemma getStory_footprint (env : Env) (args : jsargs string) :
  exists p storyId,
    is_prefix (trace (getStory env args))
      [ Fetch (index_url env); ReadJson;
        ParseStoryFile p storyId (projectDir env) ].
Proof.
  unfold getStory. rewrite trace_try_catch.
  destruct args as [ | | storyId];
    [exists EmptyString, EmptyString; simpl; auto
    | exists EmptyString, EmptyString; simpl; auto | ].
  unfold getStory_try at 1, destructure, do_fetch. rewrite bind_ret.
  rewrite trace_bind, trace_call, run_call.
  destruct (fetch env (index_url env)) as [response | e] eqn:Hf;
    [ | exists EmptyString, EmptyString; simpl; auto ].
  destruct (ok response) eqn:Hok; cbn [negb];
    [ | exists EmptyString, EmptyString; simpl; auto ].
  unfold do_json. rewrite trace_bind, trace_call, run_call.
  destruct (json response) as [data | e] eqn:Hj;
    [ | exists EmptyString, EmptyString; simpl; auto ].
  cbv zeta. destruct (truthy (entry_of data storyId)) eqn:Ht; cbn [negb];
    [ | exists EmptyString, EmptyString; simpl; auto ].
  assert (Hs : serves env storyId (entry_of data storyId)).
  { exists response, data. repeat split; assumption. }
  pose proof (getStory_try_found _ _ _ Hs Ht) as Hnf.
  unfold getStory_try, destructure, do_fetch, do_json in Hnf.
  rewrite bind_ret, Hf, bind_call_ret, Hok in Hnf. cbn [negb] in Hnf.
  rewrite Hj, bind_call_ret, prepend_prepend in Hnf. cbv zeta in Hnf.
  rewrite Ht in Hnf. cbn [negb] in Hnf.
  apply (f_equal trace) in Hnf. rewrite !trace_prepend in Hnf.
  apply app_inv_head in Hnf. rewrite Hnf. clear Hnf.
  rewrite trace_bind.
  destruct (truthy (prop (entry_of data storyId) k_importPath)).
  - unfold replace_dot_slash, string_method.
    destruct (prop (entry_of data storyId) k_importPath);
      try (exists EmptyString, EmptyString; simpl; auto; fail).
    rewrite !bind_ret. unfold do_parseStoryFile.
    rewrite trace_bind, trace_call, run_bind, run_call.
    eexists. exists storyId.
    destruct (parseStoryFile env _ storyId (projectDir env))
      as [[parsed | ] | e]; simpl; auto.
  - exists EmptyString, EmptyString. simpl. auto.
Qed.

(** X13.  The listing handlers only ever call [fetch] and read the
    response body, in that order; [getStory] does the same and then calls
    [parseStoryFile] at most once.  None of the three probes or reads a
    file itself or calls an extractor or the generator. *)
Theorem light_handlers_footprint (env : Env) :
  (forall args,
     is_prefix (trace (listStories env args))
       [Fetch (index_url env); ReadJson])
  /\ (forall args,
        is_prefix (trace (getStoriesByKind env args))
          [Fetch (index_url env); ReadJson])
  /\ (forall args,
        exists p storyId,
          is_prefix (trace (getStory env args))
            [ Fetch (index_url env); ReadJson;
              ParseStoryFile p storyId (projectDir env) ]).
Proof.
  split; [ | split ].
  - apply listStories_footprint.
  - apply getStoriesByKind_footprint.
  - apply getStory_footprint.
Qed.

Lemma getStoryDocs_reach (env : Env) (args : jsargs string) :
  is_prefix (trace (getStoryDocs env args)) [Fetch (index_url env); ReadJson]
  \/ exists storyId entry importPath,
       args = ArgObj storyId /\ story_request env storyId entry importPath.
Proof.
  destruct args as [ | | storyId]; [left; simpl; auto | left; simpl; auto | ].
  destruct (fetch env (index_url env)) as [response | e] eqn:Hf.
  2: { left. unfold getStoryDocs, getStoryDocs_try, destructure, do_fetch.
       rewrite bind_ret, Hf. simpl. auto. }
  destruct (ok response) eqn:Hok.
  2: { left. unfold getStoryDocs, getStoryDocs_try, destructure, do_fetch.
       rewrite bind_ret, Hf, bind_call_ret, Hok. simpl. auto. }
  destruct (json response) as [data | e] eqn:Hj.
  2: { left. unfold getStoryDocs, getStoryDocs_try, destructure, do_fetch.
       rewrite bind_ret, Hf, bind_call_ret, Hok. cbn [negb].
       unfold do_json. rewrite Hj. simpl. auto. }
  destruct (truthy (entry_of data storyId)) eqn:Ht.
  2: { left. unfold getStoryDocs, getStoryDocs_try, destructure, do_fetch.
       rewrite bind_ret, Hf, bind_call_ret, Hok. cbn [negb].
       unfold do_json. rewrite Hj, bind_call_ret. cbv zeta. rewrite Ht.
       simpl. auto. }
  assert (Hs : serves env storyId (entry_of data storyId)).
  { exists response, data. repeat split; assumption. }
  pose proof (truthy_not_nullish _ Ht) as Hn.
  destruct (prop (entry_of data storyId) k_importPath) as
    [ | | b | n | ip | items | props | f] eqn:Hp.
  5: { destruct (Str.is_empty ip) eqn:Hne.
       - left. unfold getStoryDocs.
         rewrite (getStoryDocs_try_found _ _ _ Hs Ht), Hp.
         cbn [truthy]. rewrite Hne. simpl. auto.
       - right. exists storyId, (entry_of data storyId), ip.
         split; [reflexivity | ]. split; [exact Hs | ].
         split; [ | exact Hne ]. unfold get. rewrite Hn, Hp. reflexivity. }
  all: left; unfold getStoryDocs;
    rewrite (getStoryDocs_try_found _ _ _ Hs Ht), Hp;
    unfold and_then, endsWith, string_method; cbn [truthy].
  - simpl. auto.
  - simpl. auto.
  - destruct b; simpl; auto.
  - destruct (Z.eqb n 0); simpl; auto.
  - simpl. auto.
  - simpl. auto.
  - simpl. auto.
Qed.

Lemma bounded_prefix (l : list event) (u : string) (n : nat) :
  is_prefix l [Fetch u; ReadJson] -> bounded l n.
Proof.
  intros H.
  destruct l as [ | e1 [ | e2 [ | e3 l]]]; simpl in H.
  - constructor; unfold count; simpl; lia.
  - destruct H as [-> _]. constructor; unfold count; simpl; lia.
  - destruct H as [-> [-> _]]. constructor; unfold count; simpl; lia.
  - destruct H as [_ [_ []]].
Qed.

(** X14.  Whatever the arguments and the environment, one call of
    [getStoryDocs] fetches the inventory at most once, checks at most
    eight paths for existence (the story file and the seven candidates),
    reads at most one file, calls [extractComponentDocs] at most once and
    [extractStoryExamples] at most once, and never calls
    [parseStoryFile]. *)
Theorem getStoryDocs_footprint (env : Env) (args : jsargs string) :
  bounded (trace (getStoryDocs env args)) 8.
Proof.
  destruct (getStoryDocs_reach env args)
    as [H | (storyId & entry & importPath & -> & Hreq)].
  - apply (bounded_prefix _ _ _ H).
  - set (sp := story_path env importPath).
    destruct (Str.ends_with importPath ".mdx") eqn:Hmdx.
    + rewrite (getStoryDocs_mdx _ _ _ _ Hreq Hmdx).
      rewrite trace_prepend, trace_try_catch, trace_bind.
      unfold exists_at, readFileSync. fold sp.
      destruct (fs env sp); constructor; unfold count; simpl; lia.
    + destruct (fs env sp) as [ | content | ] eqn:Hfs.
      * rewrite (getStoryDocs_not_mdx _ _ _ _ Hreq Hmdx).
        unfold exists_at. fold sp. rewrite Hfs.
        constructor; unfold count; simpl; lia.
      * rewrite (trace_story_file _ _ _ _ _ Hreq Hmdx Hfs). fold sp.
        pose proof (component_info_bounded env sp content
                      (header env storyId entry))
          as (C1 & C2 & C3 & C4 & C5 & C6).
        assert (Hse : forall docs,
                   let t := trace (story_examples env sp docs) in
                   count is_fetch t = 0 /\ count is_exists t = 0
                   /\ count is_read t = 0 /\ count is_extract_component t = 0
                   /\ count is_extract_stories t = 1 /\ count is_parse t = 0)
          by (intros docs; apply story_examples_bounded).
        destruct (run (component_info env sp content
                         (header env storyId entry))) as [d | e].
        -- destruct (Hse d) as (S1 & S2 & S3 & S4 & S5 & S6).
           constructor; rewrite !count_app; unfold count at 1; simpl; lia.
        -- constructor; rewrite !count_app; unfold count at 1 3; simpl; lia.
      * rewrite (getStoryDocs_not_mdx _ _ _ _ Hreq Hmdx).
        unfold exists_at, readFileSync. fold sp. rewrite Hfs.
        constructor; unfold count; simpl; lia.
Qed.

(** * The MCP protocol handler *)

Section McpProperties.

Variable stringify_pretty : value -> string.
Variable stringify : value -> string.
Variable text_of_other : value -> string.

Abbreviation call_tool := (Mcp.call_tool stringify_pretty text_of_other).
Abbreviation read_resource := (Mcp.read_resource stringify_pretty text_of_other).
Abbreviation handleRequest := (Mcp.handleRequest stringify_pretty text_of_other).
Abbreviation post_mcp := (Mcp.post_mcp stringify_pretty text_of_other).
Abbreviation tool_content := (Mcp.tool_content stringify_pretty).

Lemma strict_eq_string (v : value) (s : string) :
  strict_eq v (VStr s) = true <-> v = VStr s.
Proof.
  destruct v; simpl; try (split; [discriminate | discriminate]).
  rewrite String.eqb_eq. split; [intros -> | intros H; inversion H];
    reflexivity.
Qed.

Lemma strict_eq_string_false (v : value) (s : string) :
  v <> VStr s -> strict_eq v (VStr s) = false.
Proof.
  intros H. destruct (strict_eq v (VStr s)) eqn:E; [ | reflexivity ].
  apply strict_eq_string in E. contradiction.
Qed.

Lemma tool_names_eq :
  Mcp.tool_names
  = [VStr "list_stories"; VStr "get_story"; VStr "get_story_docs"].
Proof. reflexivity. Qed.

Lemma call_tool_unknown (env : Env) (id name : value)
    (args : jsargs Mcp.ToolArguments) :
  ~ In name Mcp.tool_names ->
  call_tool env id name args
  = ret (Mcp.rpc_error id (-32601)
           ("Unknown tool: " ++ Mcp.text_of text_of_other name)).
Proof.
  rewrite tool_names_eq. intros H. unfold Mcp.call_tool.
  rewrite !strict_eq_string_false; [reflexivity | | | ];
    intros ->; apply H; simpl; auto.
Qed.

Lemma bind_ret_map {A B : Type} (m : M A) (f : A -> B) :
  run (x <- m ;; ret (f x))
  = match run m with Ret a => Ret (f a) | Throw e => Throw e end
  /\ trace (x <- m ;; ret (f x)) = trace m.
Proof.
  destruct m as [[a | e] l]; cbn; rewrite ?app_nil_r; split; reflexivity.
Qed.


Lemma call_tool_envelope (env : Env) (id name : value)
    (args : jsargs Mcp.ToolArguments) :
  exists response,
    run (call_tool env id name args) = Ret response
    /\ (is_rpc_result id response \/ is_rpc_error id response (-32601)).
Proof.
  unfold Mcp.call_tool.
  destruct (strict_eq name (VStr "list_stories")).
  { rewrite run_bind.
    destruct (listStories_verdict env (Mcp.list_arguments args))
      as (v & -> & _).
    eexists. split; [reflexivity | left; eexists; reflexivity]. }
  destruct (strict_eq name (VStr "get_story")).
  { rewrite run_bind.
    destruct (getStory_verdict env (Mcp.story_arguments args))
      as (v & -> & _).
    eexists. split; [reflexivity | left; eexists; reflexivity]. }
  destruct (strict_eq name (VStr "get_story_docs")).
  { rewrite run_bind.
    destruct (getStoryDocs_verdict env (Mcp.story_arguments args))
      as (v & -> & _).
    eexists. split; [reflexivity | left; eexists; reflexivity]. }
  eexists. split; [reflexivity | right; eexists; reflexivity].
Qed.

Lemma read_resource_envelope (env : Env) (id uri : value) :
  exists response,
    run (read_resource env id uri) = Ret response
    /\ (is_rpc_result id response \/ is_rpc_error id response (-32602)).
Proof.
  unfold Mcp.read_resource.
  destruct (strict_eq uri (VStr Mcp.stories_uri)).
  - rewrite run_bind.
    destruct (listStories_verdict env (ArgObj VUndefined)) as (v & -> & _).
    eexists. split; [reflexivity | left; eexists; reflexivity].
  - eexists. split; [reflexivity | right; eexists; reflexivity].
Qed.

(** What [handleRequest] does with a request: it throws exactly when a
    method that reads [params] comes without them. *)
Lemma handleRequest_cases (env : Env) (request : Mcp.Request) :
  (reads_params (Mcp.method request)
   /\ Mcp.params request = Mcp.ParamsNullish
   /\ exists e, run (handleRequest env request) = Throw e)
  \/ (~ (reads_params (Mcp.method request)
         /\ Mcp.params request = Mcp.ParamsNullish)
      /\ exists response,
           run (handleRequest env request) = Ret response
           /\ (is_rpc_result (Mcp.id request) response
               \/ is_rpc_error (Mcp.id request) response (-32601)
               \/ is_rpc_error (Mcp.id request) response (-32602))).
Proof.
  unfold Mcp.handleRequest, reads_params. cbv zeta.
  destruct request as [method params id]. cbn [Mcp.method Mcp.params Mcp.id].
  destruct (strict_eq method (VStr "initialize")) eqn:E1.
  { apply strict_eq_string in E1. subst method. right.
    split; [intros [[H | H] _]; discriminate H | ].
    eexists. split; [reflexivity | left; eexists; reflexivity]. }
  destruct (strict_eq method (VStr "initialized")) eqn:E2.
  { apply strict_eq_string in E2. subst method. right.
    split; [intros [[H | H] _]; discriminate H | ].
    eexists. split; [reflexivity | left; eexists; reflexivity]. }
  destruct (strict_eq method (VStr "tools/list")) eqn:E3.
  { apply strict_eq_string in E3. subst method. right.
    split; [intros [[H | H] _]; discriminate H | ].
    eexists. split; [reflexivity | left; eexists; reflexivity]. }
  destruct (strict_eq method (VStr "tools/call")) eqn:E4.
  { apply strict_eq_string in E4. subst method.
    destruct params as [ | name arguments uri | ].
    - left. split; [left; reflexivity | split; [reflexivity | ] ].
      eexists. reflexivity.
    - right. split; [intros [_ H]; discriminate H | ].
      cbn [Mcp.destructure_params]. rewrite bind_ret.
      destruct (call_tool_envelope env id name arguments)
        as (response & Hrun & [H | H]);
        exists response; (split; [exact Hrun | auto]).
    - right. split; [intros [_ H]; discriminate H | ].
      cbn [Mcp.destructure_params]. rewrite bind_ret.
      destruct (call_tool_envelope env id VUndefined ArgUndefined)
        as (response & Hrun & [H | H]);
        exists response; (split; [exact Hrun | auto]). }
  destruct (strict_eq method (VStr "resources/list")) eqn:E5.
  { apply strict_eq_string in E5. subst method. right.
    split; [intros [[H | H] _]; discriminate H | ].
    eexists. split; [reflexivity | left; eexists; reflexivity]. }
  destruct (strict_eq method (VStr "resources/read")) eqn:E6.
  { apply strict_eq_string in E6. subst method.
    destruct params as [ | name arguments uri | ].
    - left. split; [right; reflexivity | split; [reflexivity | ] ].
      eexists. reflexivity.
    - right. split; [intros [_ H]; discriminate H | ].
      cbn [Mcp.destructure_params]. rewrite bind_ret.
      destruct (read_resource_envelope env id uri)
        as (response & Hrun & [H | H]);
        exists response; (split; [exact Hrun | auto]).
    - right. split; [intros [_ H]; discriminate H | ].
      cbn [Mcp.destructure_params]. rewrite bind_ret.
      destruct (read_resource_envelope env id VUndefined)
        as (response & Hrun & [H | H]);
        exists response; (split; [exact Hrun | auto]). }
  right. split.
  - intros [[H | H] _]; subst method; discriminate.
  - destruct (strict_eq method (VStr "ping"));
      eexists; (split; [reflexivity | ]);
      [left; eexists; reflexivity | right; left; eexists; reflexivity].
Qed.

(** X16.  Every response of [handleRequest] is a JSON-RPC 2.0 object that
    carries the [id] of the request and either a [result] or an [error]
    whose code is -32601 (unknown method or tool) or -32602 (unknown
    resource); a failure reported by a tool handler is not among the
    errors. *)
Theorem responses_echo_the_id (env : Env) (request : Mcp.Request)
    (response : value) :
  run (handleRequest env request) = Ret response ->
  own (match response with VObj o => o | _ => [] end) "jsonrpc"
  = Some (VStr "2.0")
  /\ own (match response with VObj o => o | _ => [] end) "id"
     = Some (Mcp.id request)
  /\ (is_rpc_result (Mcp.id request) response
      \/ is_rpc_error (Mcp.id request) response (-32601)
      \/ is_rpc_error (Mcp.id request) response (-32602)).
Proof.
  intros Hrun.
  destruct (handleRequest_cases env request)
    as [(_ & _ & e & He) | (_ & response' & Hr & Hshape)];
    [congruence | ].
  assert (response' = response) by congruence. subst response'.
  split; [ | split; [ | exact Hshape] ];
    destruct Hshape as [(p & ->) | [(m & ->) | (m & ->)]]; reflexivity.
Qed.


(** X18.  Reading the resource [storybook://stories] and calling the tool
    [list_stories] without arguments serialise the same listing: the
    result of [listStories] with no kind. *)
Theorem stories_resource_is_the_listing (env : Env) (id : value) :
  exists listing,
    run (listStories env (ArgObj VUndefined)) = Ret listing
    /\ run (read_resource env id (VStr Mcp.stories_uri))
       = Ret (Mcp.rpc_result id
                (VObj [("contents",
                        VArr [VObj [ ("uri", VStr Mcp.stories_uri);
                                     ("mimeType", VStr "application/json");
                                     ("text",
                                      VStr (stringify_pretty listing)) ]])]))
    /\ (forall args,
          args = ArgUndefined \/ args = ArgNull ->
          run (call_tool env id (VStr "list_stories") args)
          = Ret (Mcp.rpc_result id (tool_content listing))).
Proof.
  destruct (listStories_verdict env (ArgObj VUndefined)) as (v & Hrun & _).
  exists v. split; [exact Hrun | split].
  - unfold Mcp.read_resource.
    cbn [strict_eq String.eqb Ascii.eqb Bool.eqb Mcp.stories_uri].
    rewrite run_bind, Hrun. reflexivity.
  - intros args [-> | ->]; unfold Mcp.call_tool;
      cbn [strict_eq String.eqb Ascii.eqb Bool.eqb Mcp.list_arguments];
      rewrite run_bind, Hrun; reflexivity.
Qed.

End McpProperties.

(** * The SSE transport *)

Lemma sse_get_set (st : Sse.Sessions) (k k' : string) (chunks : list string) :
  Sse.get (Sse.set st k chunks) k'
  = if String.eqb k k' then Some chunks else Sse.get st k'.
Proof.
  induction st as [ | [k0 c0] st IH]; simpl.
  - reflexivity.
  - destruct (String.eqb k0 k) eqn:E0; simpl.
    + apply String.eqb_eq in E0. subst k0.
      destruct (String.eqb k k'); reflexivity.
    + destruct (String.eqb k0 k') eqn:E1; [ | exact IH ].
      apply String.eqb_eq in E1. subst k0. rewrite String.eqb_sym, E0.
      reflexivity.
Qed.

Lemma sse_get_delete (st : Sse.Sessions) (k k' : string) :
  Sse.get (Sse.delete st k) k'
  = if String.eqb k k' then None else Sse.get st k'.
Proof.
  unfold Sse.delete. induction st as [ | [k0 c0] st IH]; simpl.
  - destruct (String.eqb k k'); reflexivity.
  - destruct (String.eqb k0 k) eqn:E0; simpl.
    + apply String.eqb_eq in E0. subst k0. rewrite IH.
      destruct (String.eqb k k'); reflexivity.
    + rewrite IH. destruct (String.eqb k0 k') eqn:E1; [ | reflexivity ].
      apply String.eqb_eq in E1. subst k0. rewrite String.eqb_sym, E0.
      reflexivity.
Qed.

Lemma sse_keys_set (st : Sse.Sessions) (k : string) (chunks : list string) :
  map fst (Sse.set st k chunks)
  = match Sse.get st k with
    | Some _ => map fst st
    | None => (map fst st ++ [k])%list
    end.
Proof.
  induction st as [ | [k0 c0] st IH]; simpl.
  - reflexivity.
  - destruct (String.eqb k0 k) eqn:E0; simpl.
    + apply String.eqb_eq in E0. subst k0. reflexivity.
    + rewrite IH. destruct (Sse.get st k); reflexivity.
Qed.

Lemma sse_get_none (st : Sse.Sessions) (k : string) :
  Sse.get st k = None -> ~ In k (map fst st).
Proof.
  induction st as [ | [k0 c0] st IH]; simpl; [tauto | ].
  destruct (String.eqb k0 k) eqn:E0; [discriminate | ].
  apply String.eqb_neq in E0. intros H [Heq | Hin]; [congruence | ].
  apply (IH H Hin).
Qed.

Section SseProperties.

Variable stringify_pretty : value -> string.
Variable stringify : value -> string.
Variable text_of_other : value -> string.

Abbreviation post_message :=
  (Sse.post_message stringify_pretty stringify text_of_other).
Abbreviation sse_after :=
  (Sse.after stringify_pretty stringify text_of_other).
Abbreviation sse_apply :=
  (Sse.apply stringify_pretty stringify text_of_other).
Abbreviation mcp_handleRequest :=
  (Mcp.handleRequest stringify_pretty text_of_other).

(** X19.  [POST /sse/messages] answers 400 for a missing or empty session
    id and 404, with the number of live sessions, for an id that is not
    registered; in both cases the request body is not handled and the
    registry stays as it is.  For a registered id the body is handled
    once: when the handler returns, its serialised response is appended
    as a message event to the stream of that session, no other stream
    changes, and the answer is 202; when it throws, nothing is written
    and the answer is 500. *)
Theorem post_message_delivers (env : Env) (st : Sse.Sessions)
    (sessionId : option string) (body : Mcp.Request) :
  (Sse.falsy_id sessionId = true ->
   post_message env st sessionId body
   = ret (st, (400%Z, VObj [("error", VStr "Missing sessionId parameter")])))
  /\ (forall sid,
        sessionId = Some sid -> Str.is_empty sid = false ->
        Sse.get st sid = None ->
        exists answer,
          post_message env st sessionId body = ret (st, (404%Z, VObj answer))
          /\ own answer "activeSessions"
             = Some (VNum (Z.of_nat (length st))))
  /\ (forall sid chunks,
        sessionId = Some sid -> Str.is_empty sid = false ->
        Sse.get st sid = Some chunks ->
        trace (post_message env st sessionId body)
        = trace (mcp_handleRequest env body)
        /\ (forall response,
              run (mcp_handleRequest env body) = Ret response ->
              exists st',
                run (post_message env st sessionId body)
                = Ret (st', (202%Z, VObj [("status", VStr "accepted")]))
                /\ Sse.get st' sid
                   = Some (chunks
                           ++ [Sse.message_event (stringify response)])%list
                /\ (forall other,
                      other <> sid -> Sse.get st' other = Sse.get st other)
                /\ map fst st' = map fst st)
        /\ (forall e,
              run (mcp_handleRequest env body) = Throw e ->
              run (post_message env st sessionId body)
              = Ret (st, (500%Z, VObj [("error", VStr (message e))])))).
Proof.
  split; [ | split ].
  - intros H. destruct sessionId as [sid | ]; [ | reflexivity ].
    simpl in H. unfold Sse.post_message. rewrite H. reflexivity.
  - intros sid -> Hne Hget. unfold Sse.post_message. rewrite Hne, Hget.
    eexists. split; reflexivity.
  - intros sid chunks -> Hne Hget. unfold Sse.post_message.
    rewrite Hne, Hget.
    destruct (mcp_handleRequest env body) as [[response | e] calls] eqn:E.
    + split; [reflexivity | split].
      * intros response' H. inversion H. subst response'.
        eexists. split; [reflexivity | ]. split; [ | split ].
        -- rewrite sse_get_set, String.eqb_refl. reflexivity.
        -- intros other Hother. rewrite sse_get_set.
           destruct (String.eqb sid other) eqn:Eo; [ | reflexivity ].
           apply String.eqb_eq in Eo. congruence.
        -- rewrite sse_keys_set, Hget. reflexivity.
      * intros e H. discriminate H.
    + split; [reflexivity | split].
      * intros response H. discriminate H.
      * intros e' H. inversion H. subst e'. reflexivity.
Qed.


Lemma registry_ok_set (st : Sse.Sessions) (k : string)
    (chunks : list string) :
  registry_ok st -> stream_of k chunks ->
  registry_ok (Sse.set st k chunks).
Proof.
  intros [Hnd Hall] Hk. split.
  - rewrite sse_keys_set. destruct (Sse.get st k) eqn:E; [exact Hnd | ].
    apply NoDup_app; [exact Hnd | constructor; [intros [] | constructor] | ].
    intros x Hx [<- | []]. apply (sse_get_none _ _ E Hx).
  - clear Hnd. induction st as [ | [k0 c0] st IH]; simpl.
    + constructor; [exact Hk | constructor].
    + inversion Hall as [ | ? ? H0 Hrest]. subst.
      destruct (String.eqb k0 k).
      * constructor; [exact Hk | exact Hrest].
      * constructor; [exact H0 | apply IH, Hrest].
Qed.

Lemma registry_ok_delete (st : Sse.Sessions) (k : string) :
  registry_ok st -> registry_ok (Sse.delete st k).
Proof.
  intros [Hnd Hall]. unfold Sse.delete. split.
  - clear Hall. induction st as [ | [k0 c0] st IH]; simpl; [constructor | ].
    inversion Hnd as [ | ? ? Hnotin Hnd']. subst.
    destruct (String.eqb k0 k); simpl; [apply IH, Hnd' | ].
    constructor; [ | apply IH, Hnd' ].
    intros Hin. apply Hnotin. apply in_map_iff in Hin.
    destruct Hin as (entry & Hfst & Hin). apply filter_In in Hin.
    apply in_map_iff. exists entry. split; [exact Hfst | apply Hin].
  - rewrite Forall_forall in *. intros entry Hin. apply filter_In in Hin.
    apply Hall, Hin.
Qed.

Lemma registry_get_stream (st : Sse.Sessions) (k : string)
    (chunks : list string) :
  registry_ok st -> Sse.get st k = Some chunks -> stream_of k chunks.
Proof.
  intros [_ Hall]. induction st as [ | [k0 c0] st IH]; simpl;
    [discriminate | ].
  inversion Hall as [ | ? ? H0 Hrest]. subst.
  destruct (String.eqb k0 k) eqn:E.
  - apply String.eqb_eq in E. subst k0. intros H. inversion H. subst.
    exact H0.
  - apply IH, Hrest.
Qed.

Lemma stream_of_append (k : string) (chunks : list string) (c : string) :
  stream_of k chunks -> later_chunk c -> stream_of k (chunks ++ [c]).
Proof.
  intros (protocol & host & port & rest & -> & Hrest) Hc.
  exists protocol, host, port, (rest ++ [c])%list. split; [reflexivity | ].
  apply Forall_app. split; [exact Hrest | constructor; [exact Hc | constructor] ].
Qed.

Lemma registry_ok_apply (env : Env) (st : Sse.Sessions) (s : Sse.step) :
  registry_ok st -> registry_ok (sse_apply env st s).
Proof.
  intros Hok. destruct s as [protocol host port sid | sid | sid | sid body];
    cbn [Sse.apply].
  - apply registry_ok_set; [exact Hok | ].
    exists protocol, host, port, []. split; [reflexivity | constructor].
  - apply registry_ok_delete, Hok.
  - unfold Sse.ping. destruct (Sse.get st sid) as [chunks | ] eqn:E;
      [ | exact Hok ].
    apply registry_ok_set; [exact Hok | ].
    apply stream_of_append; [apply (registry_get_stream _ _ _ Hok E) | ].
    left. reflexivity.
  - unfold Sse.post_message. destruct sid as [sid | ]; [ | exact Hok ].
    destruct (Str.is_empty sid); [exact Hok | ].
    destruct (Sse.get st sid) as [chunks | ] eqn:E; [ | exact Hok ].
    destruct (mcp_handleRequest env body) as [[response | e] l];
      [ | exact Hok ].
    cbn [run fst]. apply registry_ok_set; [exact Hok | ].
    apply stream_of_append; [apply (registry_get_stream _ _ _ Hok E) | ].
    right. eexists. reflexivity.
Qed.

(** X21.  Whatever connections, disconnections, timer firings and posted
    messages happen, in whatever order, every registered session has one
    entry in the registry, and its stream starts with the endpoint event
    whose URL ends in [sessionId=] and its own id, followed only by
    message events and keep-alive pings. *)
Theorem streams_start_with_endpoint (env : Env) (steps : list Sse.step) :
  registry_ok (sse_after env steps).
Proof.
  unfold Sse.after.
  assert (H : registry_ok []) by (split; constructor).
  revert H. generalize (@nil (string * list string)).
  induction steps as [ | s steps IH]; intros st Hok; cbn [fold_left].
  - exact Hok.
  - apply IH, registry_ok_apply, Hok.
Qed.

End SseProperties.

(** ** Locating a Storybook build *)


Lemma find_first {A : Type} (f : A -> bool) (l : list A) :
  (exists before x after,
      l = (before ++ x :: after)%list
      /\ find f l = Some x
      /\ f x = true
      /\ Forall (fun y => f y = false) before)
  \/ find f l = None.
Proof.
  induction l as [| a l IH]; [right; reflexivity | ].
  cbn [find]. destruct (f a) eqn:Ha.
  - left. exists [], a, l. repeat split; trivial.
  - destruct IH as [(before & x & after & -> & Hfind & Hx & Hbefore) | Hnone].
    + left. exists (a :: before), x, after.
      repeat split; trivial. constructor; assumption.
    + right. exact Hnone.
Qed.

Section DetectProperties.

Variable fs : string -> fsnode.
Variable parse : string -> outcome value.

Lemma run_exists_sync (p : string) :
  run (Cli.exists_sync fs p) = Ret (present fs p).
Proof. reflexivity. Qed.

Lemma scan_defaults_first (projectDir : string) (dirs : list string) :
  run (Cli.scan_defaults fs projectDir dirs) =
  Ret (option_map (auto_detected projectDir)
                  (find (holds_build fs projectDir) dirs)).
Proof.
  induction dirs as [| dir rest IH]; [reflexivity | ].
  cbn [Cli.scan_defaults find].
  rewrite run_bind, run_exists_sync.
  unfold holds_build at 1.
  destruct (present fs (Path.join [projectDir; dir])); cbn [andb and_then].
  - rewrite run_bind, run_exists_sync.
    destruct (present fs _); [reflexivity | exact IH].
  - rewrite bind_ret. exact IH.
Qed.

Lemma scan_projects_present (projectDir : string) (projects : list value)
    (dir : string) :
  run (Cli.scan_projects fs projectDir projects) = Ret (Some dir) ->
  present fs dir = true.
Proof.
  induction projects as [| project rest IH]; [discriminate | ].
  cbn [Cli.scan_projects]. rewrite run_bind.
  destruct (run (Cli.member project Cli.c_architect)) as [architect | e];
    [ | discriminate].
  destruct (truthy _); [ | exact IH].
  rewrite run_bind.
  destruct (run (Cli.join_output projectDir _)) as [outputDir | e];
    [ | discriminate].
  rewrite run_bind, run_exists_sync.
  destruct (present fs outputDir) eqn:Hpresent; [ | exact IH].
  rewrite run_ret. intros H. injection H as <-. exact Hpresent.
Qed.

Lemma scan_angular_present (projectDir angularJsonPath dir : string) :
  run (Cli.scan_angular fs parse projectDir angularJsonPath) = Ret (Some dir) ->
  present fs dir = true.
Proof.
  unfold Cli.scan_angular. rewrite run_bind.
  destruct (run (Cli.read_file_sync fs angularJsonPath)) as [text | e];
    [ | discriminate].
  rewrite run_bind, run_lift.
  destruct (parse text) as [angularJson | e]; [ | discriminate].
  rewrite run_bind.
  destruct (run (Cli.member angularJson Cli.c_projects)) as [projects | e];
    [ | discriminate].
  apply scan_projects_present.
Qed.

Lemma ignore_errors_returns (body : M (option string)) :
  exists r, run (Cli.ignore_errors body) = Ret r
            /\ (forall dir, r = Some dir -> run body = Ret (Some dir)).
Proof.
  destruct body as [[r | e] l].
  - exists r. split; [reflexivity | intros dir ->; reflexivity].
  - exists None. split; [reflexivity | discriminate].
Qed.

Lemma detect_cases (projectDir : string) :
  (exists dir,
      run (Cli.detectStorybookOutputDir fs parse projectDir)
      = Ret (Some (dir, "angular.json"))
      /\ present fs (Path.join [projectDir; "angular.json"]) = true
      /\ present fs dir = true)
  \/ run (Cli.detectStorybookOutputDir fs parse projectDir)
     = Ret (option_map (auto_detected projectDir)
                       (find (holds_build fs projectDir) Cli.defaultDirs)).
Proof.
  unfold Cli.detectStorybookOutputDir.
  rewrite run_bind, run_exists_sync.
  destruct (present fs (Path.join [projectDir; "angular.json"])) eqn:Hfile.
  - destruct (ignore_errors_returns
                (Cli.scan_angular fs parse projectDir
                   (Path.join [projectDir; "angular.json"])))
      as (r & Hrun & Hsome).
    rewrite run_bind, Hrun.
    destruct r as [dir | ].
    + left. exists dir. split; [reflexivity | ]. split; [reflexivity | ].
      eapply scan_angular_present, Hsome. reflexivity.
    + right. apply scan_defaults_first.
  - rewrite bind_ret. right. apply scan_defaults_first.
Qed.

(** X22. [detectStorybookOutputDir] never throws: whatever [angular.json]
    holds -- text that is not JSON, [null], a project that is [null], an
    [outputDir] that is not a string -- the function returns, with a
    directory or with [null]. *)
Theorem detection_never_throws (projectDir : string) :
  exists r, run (Cli.detectStorybookOutputDir fs parse projectDir) = Ret r.
Proof.
  destruct (detect_cases projectDir) as [(dir & Hrun & _) | Hrun];
    rewrite Hrun; eexists; reflexivity.
Qed.

(** X23. A directory that [detectStorybookOutputDir] returns exists.  With
    the source [angular.json], the file [angular.json] exists; with the
    source [auto-detected], the directory is one of the three default
    directories below the project, it holds an [index.json], and no
    default directory before it in the list does. *)
Theorem detection_is_sound (projectDir dir source : string) :
  run (Cli.detectStorybookOutputDir fs parse projectDir)
  = Ret (Some (dir, source)) ->
  present fs dir = true
  /\ ((source = "angular.json"
       /\ present fs (Path.join [projectDir; "angular.json"]) = true)
      \/ (source = "auto-detected"
          /\ exists before d after,
               Cli.defaultDirs = (before ++ d :: after)%list
               /\ dir = Path.join [projectDir; d]
               /\ present fs (Path.join [dir; "index.json"]) = true
               /\ Forall (fun d' => holds_build fs projectDir d' = false)
                         before)).
Proof.
  intros Hrun.
  destruct (detect_cases projectDir) as [(dir' & Hrun' & Hfile & Hdir) | Hrun'];
    rewrite Hrun' in Hrun.
  - injection Hrun as <- <-. split; [exact Hdir | ]. left. split; trivial.
  - destruct (find_first (holds_build fs projectDir) Cli.defaultDirs)
      as [(before & d & after & Hsplit & Hfind & Hd & Hbefore) | Hnone].
    + rewrite Hfind in Hrun. injection Hrun as <- <-.
      unfold holds_build in Hd. apply andb_true_iff in Hd as [Hd Hindex].
      split; [exact Hd | ]. right. split; [reflexivity | ].
      exists before, d, after. repeat split; assumption.
    + rewrite Hnone in Hrun. discriminate.
Qed.

(** X24. A default directory with an [index.json] is enough: when one of
    [storybook-static], [dist/storybook] and [build/storybook] exists below
    the project and holds an [index.json], detection returns a directory,
    whatever [angular.json] holds. *)
Theorem default_build_is_found (projectDir d : string) :
  In d Cli.defaultDirs ->
  holds_build fs projectDir d = true ->
  exists dir source,
    run (Cli.detectStorybookOutputDir fs parse projectDir)
    = Ret (Some (dir, source)).
Proof.
  intros Hin Hd.
  destruct (detect_cases projectDir) as [(dir & Hrun & _) | Hrun];
    rewrite Hrun; [eexists _, _; reflexivity | ].
  destruct (find (holds_build fs projectDir) Cli.defaultDirs) as [d' | ] eqn:Hfind.
  - eexists _, _. reflexivity.
  - apply find_none with (x := d) in Hfind; [ | exact Hin]. congruence.
Qed.

(** X25. An [angular.json] that is absent, or whose text [JSON.parse]
    rejects, is passed over: the answer is the first default directory
    that holds an [index.json], and [null] when there is none. *)
Theorem unusable_angular_json_is_ignored (projectDir : string) :
  (present fs (Path.join [projectDir; "angular.json"]) = false
   \/ exists text e,
        fs (Path.join [projectDir; "angular.json"]) = File text
        /\ parse text = Throw e) ->
  run (Cli.detectStorybookOutputDir fs parse projectDir)
  = Ret (option_map (auto_detected projectDir)
                    (find (holds_build fs projectDir) Cli.defaultDirs)).
Proof.
  intros H. unfold Cli.detectStorybookOutputDir.
  rewrite run_bind, run_exists_sync.
  destruct H as [Habsent | (text & e & Hfile & Hparse)].
  - rewrite Habsent. rewrite bind_ret. apply scan_defaults_first.
  - unfold present. rewrite Hfile.
    assert (Hscan : run (Cli.scan_angular fs parse projectDir
                           (Path.join [projectDir; "angular.json"]))
                    = Throw e).
    { unfold Cli.scan_angular, Cli.read_file_sync.
      rewrite Hfile, run_bind, run_call, run_bind, run_lift, Hparse.
      reflexivity. }
    rewrite run_bind.
    destruct (Cli.scan_angular fs parse projectDir _) as [[r | e'] l];
      [discriminate | ].
    cbn [Cli.ignore_errors run fst]. apply scan_defaults_first.
Qed.

End DetectProperties.

Lemma detection_is_sound_witness :
  run (Cli.detectStorybookOutputDir CliSample.fs CliSample.parse
         CliSample.projectDir)
  = Ret (Some ("/app/build/storybook", "auto-detected"))
  /\ present CliSample.fs "/app/build/storybook" = true.
Proof.
  split; [reflexivity | ].
  apply (detection_is_sound CliSample.fs CliSample.parse CliSample.projectDir
           "/app/build/storybook" "auto-detected").
  reflexivity.
Defined.

Lemma default_build_is_found_witness :
  In "build/storybook" Cli.defaultDirs
  /\ holds_build CliSample.fs CliSample.projectDir "build/storybook" = true
  /\ exists dir source,
       run (Cli.detectStorybookOutputDir CliSample.fs CliSample.parse
              CliSample.projectDir)
       = Ret (Some (dir, source)).
Proof.
  assert (Hin : In "build/storybook" Cli.defaultDirs)
    by (simpl; auto).
  assert (Hd : holds_build CliSample.fs CliSample.projectDir "build/storybook"
               = true) by reflexivity.
  split; [exact Hin | split; [exact Hd | ]].
  exact (default_build_is_found CliSample.fs CliSample.parse
           CliSample.projectDir "build/storybook" Hin Hd).
Defined.

Lemma unusable_angular_json_is_ignored_witness :
  run (Cli.detectStorybookOutputDir CliSample.fs CliSample.parse
         CliSample.projectDir)
  = Ret (Some ("/app/build/storybook", "auto-detected")).
Proof.
  apply (unusable_angular_json_is_ignored CliSample.fs CliSample.parse
           CliSample.projectDir).
  right. exists "{ projects: ", (Error "Unexpected token p in JSON at position 2").
  split; reflexivity.
Defined.

(** ** The static API *)

Lemma sanitized_char_safe (c : ascii) :
  Static.safe_char (if Static.safe_char c then c else "_"%char) = true.
Proof. destruct (Static.safe_char c) eqn:H; [exact H | reflexivity]. Qed.

Lemma safeId_all_safe (s : string) :
  all_chars Static.safe_char (Static.safeId s) = true.
Proof.
  unfold all_chars. induction s as [| c s IH]; [reflexivity | ].
  cbn [Static.safeId list_ascii_of_string forallb].
  rewrite sanitized_char_safe. exact IH.
Qed.

Lemma safeId_fixed (s : string) :
  all_chars Static.safe_char s = true -> Static.safeId s = s.
Proof.
  unfold all_chars. induction s as [| c s IH]; [reflexivity | ].
  cbn [Static.safeId list_ascii_of_string forallb].
  intros H. apply andb_true_iff in H as [Hc Hs].
  rewrite Hc, (IH Hs). reflexivity.
Qed.

(** X26. The file name of a story is made of characters of
    [[a-zA-Z0-9_-]] only and is as long as the story id; sanitising twice
    changes nothing, and an id that is made of these characters already is
    its own file name. *)
Theorem safeId_is_safe (storyId : string) :
  all_chars Static.safe_char (Static.safeId storyId) = true
  /\ String.length (Static.safeId storyId) = String.length storyId
  /\ Static.safeId (Static.safeId storyId) = Static.safeId storyId
  /\ (all_chars Static.safe_char storyId = true ->
      Static.safeId storyId = storyId).
Proof.
  split; [apply safeId_all_safe | ].
  split; [ | split; [apply safeId_fixed, safeId_all_safe | apply safeId_fixed]].
  induction storyId as [| c s IH]; [reflexivity | ].
  cbn [Static.safeId String.length]. rewrite IH. reflexivity.
Qed.

Lemma safe_char_not (c d : ascii) :
  Static.safe_char c = true -> Static.safe_char d = false ->
  Ascii.eqb c d = false.
Proof.
  intros Hc Hd. destruct (Ascii.eqb_spec c d) as [-> | _];
    [congruence | reflexivity].
Qed.

Lemma no_slash_app (a b : string) :
  forallb (fun c => negb (Ascii.eqb c Path.slash)) (list_ascii_of_string a)
  = true ->
  forallb (fun c => negb (Ascii.eqb c Path.slash)) (list_ascii_of_string b)
  = true ->
  forallb (fun c => negb (Ascii.eqb c Path.slash))
          (list_ascii_of_string (a ++ b)) = true.
Proof.
  intros Ha Hb. induction a as [| c a IH]; [exact Hb | ].
  cbn [append list_ascii_of_string forallb] in *.
  apply andb_true_iff in Ha as [Hc Ha]. rewrite Hc, (IH Ha). reflexivity.
Qed.

Lemma safe_no_slash (s : string) :
  all_chars Static.safe_char s = true ->
  forallb (fun c => negb (Ascii.eqb c Path.slash)) (list_ascii_of_string s)
  = true.
Proof.
  unfold all_chars. induction s as [| c s IH]; [reflexivity | ].
  cbn [list_ascii_of_string forallb]. intros H.
  apply andb_true_iff in H as [Hc Hs].
  rewrite (safe_char_not c Path.slash Hc) by reflexivity.
  exact (IH Hs).
Qed.

(** The name of a story's file is a plain path segment. *)
Lemma file_name_plain (storyId : string) :
  plain_segment (Static.safeId storyId ++ ".json") = true.
Proof.
  unfold plain_segment.
  rewrite no_slash_app;
    [ | apply safe_no_slash, safeId_all_safe | reflexivity].
  rewrite andb_true_r.
  destruct storyId as [| c s]; [reflexivity | ].
  cbn [Static.safeId append String.eqb].
  rewrite (safe_char_not _ "."%char (sanitized_char_safe c)) by reflexivity.
  reflexivity.
Qed.

Lemma join_plain_absolute (root rel : list string) :
  root <> [] -> rel <> [] ->
  forallb plain_segment root = true -> forallb plain_segment rel = true ->
  Path.join [absolute root; relative rel] = absolute (root ++ rel)
  /\ (root ++ rel)%list <> []
  /\ forallb plain_segment (root ++ rel) = true.
Proof.
  intros Hr Hl Hroot Hrel. split; [ | split].
  - rewrite join_plain by assumption.
    unfold absolute. rewrite relative_app by assumption.
    rewrite append_assoc. reflexivity.
  - destruct root; [congruence | discriminate].
  - rewrite forallb_app, Hroot, Hrel. reflexivity.
Qed.

Lemma file_in_directory (root : list string) (dir storyId : string) :
  root <> [] -> forallb plain_segment root = true ->
  Path.join [Path.join [Path.join [absolute root; "api"]; dir];
             Static.safeId storyId ++ ".json"]
  = absolute (root ++ ["api"; dir; Static.safeId storyId ++ ".json"])
  \/ plain_segment dir = false.
Proof.
  intros Hne Hroot. destruct (plain_segment dir) eqn:Hdir;
    [left | right; reflexivity].
  destruct (join_plain_absolute root ["api"] Hne) as (Eapi & Hne1 & Hplain1);
    [discriminate | exact Hroot | reflexivity | ].
  change (relative ["api"]) with "api" in Eapi. rewrite Eapi.
  destruct (join_plain_absolute (root ++ ["api"]) [dir] Hne1)
    as (Edir & Hne2 & Hplain2);
    [discriminate | exact Hplain1 | cbn [forallb]; rewrite Hdir; reflexivity
    | ].
  change (relative [dir]) with dir in Edir. rewrite Edir.
  destruct (join_plain_absolute ((root ++ ["api"]) ++ [dir])
              [Static.safeId storyId ++ ".json"] Hne2) as (Efile & _ & _);
    [discriminate | exact Hplain2
    | cbn [forallb]; rewrite file_name_plain; reflexivity | ].
  change (relative [Static.safeId storyId ++ ".json"])
    with (Static.safeId storyId ++ ".json") in Efile.
  rewrite Efile, <- !app_assoc. reflexivity.
Qed.

Lemma append_cancel_l (p a b : string) : p ++ a = p ++ b -> a = b.
Proof.
  induction p as [| c p IH]; [trivial | ].
  cbn [append]. intros H. injection H as H. exact (IH H).
Qed.

Lemma length_append (a b : string) :
  String.length (a ++ b) = String.length a + String.length b.
Proof.
  induction a as [| c a IH]; [reflexivity | ].
  cbn [append String.length]. rewrite IH. reflexivity.
Qed.

Lemma append_cancel_r (a b s : string) : a ++ s = b ++ s -> a = b.
Proof.
  revert b. induction a as [| c a IH]; intros [| d b] H.
  - reflexivity.
  - apply (f_equal String.length) in H.
    cbn [append String.length] in H. rewrite length_append in H. lia.
  - apply (f_equal String.length) in H.
    cbn [append String.length] in H. rewrite length_append in H. lia.
  - cbn [append] in H. injection H as -> H. rewrite (IH _ H). reflexivity.
Qed.

Lemma absolute_last_inj (pre : list string) (x y : string) :
  pre <> [] ->
  absolute (pre ++ [x]) = absolute (pre ++ [y]) -> x = y.
Proof.
  intros Hne. unfold absolute.
  rewrite !relative_app by (assumption || discriminate).
  change (relative [x]) with x. change (relative [y]) with y.
  intros H. do 3 apply append_cancel_l in H. exact H.
Qed.

(** X27. With the build directory in normal form, the two files of a story
    lie directly in [api/stories] and [api/docs] below it, whatever
    characters the id holds; and two stories are written to the same file
    exactly when their ids are the same after sanitising. *)
Theorem story_files_stay_inside (staticDir : string) (root : list string)
    (storyId : string) :
  clean_directory staticDir root ->
  Static.story_file staticDir storyId
  = absolute (root ++ ["api"; "stories"; Static.safeId storyId ++ ".json"])
  /\ Static.docs_file staticDir storyId
     = absolute (root ++ ["api"; "docs"; Static.safeId storyId ++ ".json"])
  /\ (forall other,
        Static.story_file staticDir storyId
        = Static.story_file staticDir other
        <-> Static.safeId storyId = Static.safeId other).
Proof.
  intros (-> & Hne & Hroot).
  assert (Hstory : forall id,
             Static.story_file (absolute root) id
             = absolute (root ++ ["api"; "stories";
                                  Static.safeId id ++ ".json"])).
  { intros id.
    destruct (file_in_directory root "stories" id Hne Hroot) as [E | E];
      [exact E | discriminate]. }
  split; [apply Hstory | ].
  split.
  - destruct (file_in_directory root "docs" storyId Hne Hroot) as [E | E];
      [exact E | discriminate].
  - intros other. rewrite !Hstory. split.
    + intros H.
      set (x := Static.safeId storyId ++ ".json") in H.
      set (y := Static.safeId other ++ ".json") in H.
      replace (root ++ ["api"; "stories"; x])%list
        with ((root ++ ["api"; "stories"]) ++ [x])%list in H
        by (rewrite <- app_assoc; reflexivity).
      replace (root ++ ["api"; "stories"; y])%list
        with ((root ++ ["api"; "stories"]) ++ [y])%list in H
        by (rewrite <- app_assoc; reflexivity).
      apply absolute_last_inj in H.
      * exact (append_cancel_r _ _ _ H).
      * destruct root; discriminate.
    + intros ->. reflexivity.
Qed.

Section GenerateProperties.

Variable getStory_json : string -> outcome string.
Variable getStoryDocs_json : string -> outcome string.
Variable staticDir : string.

Abbreviation entry_files :=
  (Static.entry_files getStory_json getStoryDocs_json staticDir).
Abbreviation generate_entries :=
  (Static.generate_entries getStory_json getStoryDocs_json staticDir).

(** A turn of the loop that ends without an error has an entry whose id is
    a string, and has written the two files of that id. *)
Lemma entry_files_done (entry : value) (out out' : Static.Output) :
  entry_files entry out = (out', None) ->
  exists storyId,
    has_id entry storyId
    /\ map fst (Static.writes out')
       = (map fst (Static.writes out) ++ files_of staticDir storyId)%list
    /\ Static.storyCount out' = S (Static.storyCount out)
    /\ Static.docsCount out' = S (Static.docsCount out).
Proof.
  unfold Static.entry_files, has_id.
  destruct (get entry k_id) as [[ | | b | n | storyId | items | o | f] | e];
    try discriminate.
  destruct (getStory_json storyId) as [storyText | e]; [ | discriminate].
  destruct (getStoryDocs_json storyId) as [docsText | e]; [ | discriminate].
  intros H. injection H as <-. exists storyId.
  split; [reflexivity | ].
  cbn [Static.write_docs Static.write_story Static.writes Static.storyCount
       Static.docsCount].
  rewrite !map_app, <- app_assoc. repeat split.
Qed.

Lemma generate_entries_done (stories : list value) (out out' : Static.Output) :
  generate_entries stories out = (out', None) ->
  exists ids,
    Forall2 has_id stories ids
    /\ map fst (Static.writes out')
       = (map fst (Static.writes out)
          ++ flat_map (files_of staticDir) ids)%list
    /\ Static.storyCount out' = Static.storyCount out + length stories
    /\ Static.docsCount out' = Static.docsCount out + length stories.
Proof.
  revert out. induction stories as [| entry rest IH]; intros out.
  - cbn [Static.generate_entries]. intros H. injection H as <-.
    exists []. cbn [flat_map length]. rewrite app_nil_r, !Nat.add_0_r.
    repeat split. constructor.
  - cbn [Static.generate_entries].
    destruct (entry_files entry out) as [out1 [e | ]] eqn:Hentry;
      [discriminate | ].
    intros Hrest.
    destruct (entry_files_done _ _ _ Hentry) as (storyId & Hid & Hw & Hs & Hd).
    destruct (IH _ Hrest) as (ids & Hids & Hw' & Hs' & Hd').
    exists (storyId :: ids). split; [constructor; assumption | ].
    cbn [flat_map length]. rewrite Hw', Hw, Hs', Hs, Hd', Hd.
    rewrite <- !app_assoc. repeat split; lia.
Qed.

(** X28. When the loop of [generateStaticApi] ends without an error, every
    entry of the inventory had a string as its id, the files written are
    the story file and the docs file of each id, in the order of the
    inventory, and both counters equal the number of entries -- also when
    several ids share a file. *)
Theorem generation_counts_entries (stories : list value)
    (out : Static.Output) :
  generate_entries stories Static.start = (out, None) ->
  exists ids,
    Forall2 has_id stories ids
    /\ map fst (Static.writes out) = flat_map (files_of staticDir) ids
    /\ Static.storyCount out = length stories
    /\ Static.docsCount out = length stories.
Proof.
  intros H. destruct (generate_entries_done _ _ _ H) as (ids & Hids & Hw & Hs & Hd).
  exists ids. repeat split; assumption.
Qed.

Lemma generate_entries_app (before after : list value)
    (out out' : Static.Output) :
  generate_entries before out = (out', None) ->
  generate_entries (before ++ after) out = generate_entries after out'.
Proof.
  revert out. induction before as [| entry rest IH]; intros out.
  - cbn [Static.generate_entries app]. intros H. injection H as <-.
    reflexivity.
  - cbn [Static.generate_entries app].
    destruct (entry_files entry out) as [out1 [e | ]]; [discriminate | ].
    apply IH.
Qed.

(** X29. An entry whose id is not a string stops the generation with an
    error before anything is written for it: the files of the entries
    before it stay written, the counters stay where they were, and no
    entry after it is looked at. *)
Theorem bad_id_stops_generation (before after : list value) (entry : value)
    (out : Static.Output) :
  generate_entries before Static.start = (out, None) ->
  (forall storyId, ~ has_id entry storyId) ->
  exists e,
    generate_entries (before ++ entry :: after) Static.start = (out, Some e).
Proof.
  intros Hbefore Hbad.
  rewrite (generate_entries_app _ _ _ _ Hbefore).
  cbn [Static.generate_entries]. unfold Static.entry_files.
  unfold has_id in Hbad.
  destruct (get entry k_id) as [[ | | b | n | storyId | items | o | f] | e];
    try (eexists; reflexivity).
  exfalso. exact (Hbad storyId eq_refl).
Qed.

End GenerateProperties.

Lemma story_files_stay_inside_witness :
  clean_directory StaticSample.staticDir ["app"; "storybook-static"]
  /\ Static.story_file StaticSample.staticDir "forms-input--v1.0"
     = "/app/storybook-static/api/stories/forms-input--v1_0.json".
Proof.
  assert (H : clean_directory StaticSample.staticDir
                ["app"; "storybook-static"]).
  { split; [reflexivity | split; [discriminate | reflexivity]]. }
  split; [exact H | ].
  exact (proj1 (story_files_stay_inside StaticSample.staticDir
                  ["app"; "storybook-static"] "forms-input--v1.0" H)).
Defined.

Lemma generation_counts_entries_witness :
  Static.generate_entries StaticSample.getStory_json
    StaticSample.getStoryDocs_json StaticSample.staticDir
    StaticSample.stories Static.start
  = (StaticSample.output, None)
  /\ Static.storyCount StaticSample.output = 2.
Proof.
  assert (H : Static.generate_entries StaticSample.getStory_json
                StaticSample.getStoryDocs_json StaticSample.staticDir
                StaticSample.stories Static.start
              = (StaticSample.output, None)) by reflexivity.
  split; [exact H | ].
  destruct (generation_counts_entries StaticSample.getStory_json
              StaticSample.getStoryDocs_json StaticSample.staticDir
              StaticSample.stories StaticSample.output H)
    as (ids & _ & _ & Hcount & _).
  exact Hcount.
Defined.

Lemma bad_id_stops_generation_witness :
  exists e,
    Static.generate_entries StaticSample.getStory_json
      StaticSample.getStoryDocs_json StaticSample.staticDir
      (StaticSample.stories ++ [StaticSample.broken; VNull])
      Static.start
    = (StaticSample.output, Some e).
Proof.
  apply (bad_id_stops_generation StaticSample.getStory_json
           StaticSample.getStoryDocs_json StaticSample.staticDir
           StaticSample.stories [VNull] StaticSample.broken
           StaticSample.output).
  - reflexivity.
  - intros storyId H. discriminate H.
Defined.

(** ** The properties at work on the sample project *)

Lemma case_inventory (index : IndexJson) (fs : string -> fsnode)
    (component : Parsers.ComponentDoc) (stories : Parsers.StoryFileDoc)
    (generate : value -> value -> string -> value -> outcome value) :
  inventory (Cases.project index true fs component stories generate) index.
Proof.
  exists {| ok := true; json := Ret index |}. repeat split; reflexivity.
Defined.

Lemma sample_inventory : inventory Sample.env Sample.index.
Proof.
  exists {| ok := true; json := Ret Sample.index |}.
  repeat split; reflexivity.
Defined.

Lemma sample_entries_present :
  Forall (fun entry => nullish entry = false) (entry_values Sample.index).
Proof. repeat constructor. Defined.

Lemma case_serves (index : IndexJson) (fs : string -> fsnode)
    (component : Parsers.ComponentDoc) (stories : Parsers.StoryFileDoc)
    (generate : value -> value -> string -> value -> outcome value)
    (storyId : string) :
  serves (Cases.project index true fs component stories generate) storyId
    (entry_of index storyId).
Proof.
  exists {| ok := true; json := Ret index |}, index.
  repeat split; reflexivity.
Defined.

Lemma case_request (fs : string -> fsnode)
    (component : Parsers.ComponentDoc) (stories : Parsers.StoryFileDoc)
    (generate : value -> value -> string -> value -> outcome value) :
  story_request
    (Cases.project Sample.index true fs component stories generate)
    Sample.button_id Sample.button_entry Sample.button_path.
Proof.
  split; [ | split; reflexivity ].
  apply (case_serves Sample.index fs component stories generate
           Sample.button_id).
Defined.

Lemma case_resolves (component : Parsers.ComponentDoc)
    (stories : Parsers.StoryFileDoc)
    (generate : value -> value -> string -> value -> outcome value) :
  resolves_component
    (Cases.project Sample.index true Sample.files component stories generate)
    (story_path
       (Cases.project Sample.index true Sample.files component stories
          generate) Sample.button_path)
    Sample.story_source "Button" component.
Proof.
  exists "./button.component", [""], ".ts",
    [".tsx"; ".js"; ".jsx"; ".vue"; ".svelte"].
  split; [apply sample_imports | ]. split; [reflexivity | ].
  split; [intros e [<- | []]; reflexivity | ].
  split; reflexivity.
Defined.

Lemma listStories_lists_witness :
  run (listStories Sample.env (ArgObj (VStr "Intro")))
  = Ret (VObj [ ("success", VBool true); ("count", VNum 1);
                ("stories", VArr [VObj (summary Sample.intro_entry)]) ])
  /\ trace (listStories Sample.env (ArgObj (VStr "Intro")))
     = [Fetch "http://localhost:6010/index.json"; ReadJson].
Proof.
  exact (listStories_lists Sample.env (ArgObj (VStr "Intro")) (VStr "Intro")
           Sample.index sample_inventory sample_entries_present eq_refl).
Defined.

Lemma getStoriesByKind_filters_witness :
  run (getStoriesByKind Sample.env (ArgObj (VStr "Example/Button")))
  = Ret (VObj [ ("success", VBool true); ("count", VNum 1);
                ("kind", VStr "Example/Button");
                ("stories", VArr [short_summary Sample.button_entry]) ]).
Proof.
  exact (proj1 (getStoriesByKind_filters Sample.env (VStr "Example/Button")
                  Sample.index sample_inventory sample_entries_present)).
Defined.

Lemma listing_handlers_agree_witness :
  run (listStories Sample.env (ArgObj (VStr "Example/Button")))
  = Ret (VObj [ ("success", VBool true); ("count", VNum 1);
                ("stories", VArr [VObj (summary Sample.button_entry)]) ])
  /\ run (getStoriesByKind Sample.env (ArgObj (VStr "Example/Button")))
     = Ret (VObj [ ("success", VBool true); ("count", VNum 1);
                   ("kind", VStr "Example/Button");
                   ("stories", VArr [short_summary Sample.button_entry]) ]).
Proof.
  exact (listing_handlers_agree Sample.env (VStr "Example/Button")
           Sample.index sample_inventory sample_entries_present eq_refl).
Defined.

Lemma null_entry_fails_listing_witness :
  (forall args, exists msg, run (listStories Cases.odd args) = Ret (failure msg))
  /\ (forall kind,
        exists msg,
          run (getStoriesByKind Cases.odd (ArgObj kind)) = Ret (failure msg)).
Proof.
  apply (null_entry_fails_listing Cases.odd Cases.odd_index VNull).
  - apply case_inventory.
  - simpl. auto.
  - reflexivity.
Defined.

Lemma not_ready_is_503_witness :
  (forall args,
     run (listStories Cases.starting args)
     = Ret (VObj [ ("success", VBool false);
                   ("error", VStr "Storybook is not ready. Please wait...");
                   ("hint",
                    VStr "Make sure Storybook is running at http://localhost:6010") ])
     /\ trace (listStories Cases.starting args)
        = [Fetch "http://localhost:6010/index.json"])
  /\ run (docs_route Cases.starting Sample.button_id)
     = Ret (503%Z,
            VObj [ ("success", VBool false);
                   ("error", VStr "Storybook is not ready") ]).
Proof.
  pose proof (not_ready_is_503 Cases.starting
                {| ok := false; json := Ret Sample.index |} eq_refl eq_refl)
    as (Hlist & _ & _ & _ & _ & _ & Hdocs & _).
  split; [exact Hlist | exact (Hdocs Sample.button_id)].
Defined.

Lemma getStory_parsed_fields_witness :
  run (getStory Cases.parsing (ArgObj Sample.button_id))
  = Ret (success_story
           (summary Sample.button_entry
            ++ [ ("component", VStr "Button");
                 ("args", VObj [("label", VStr "Click me")]);
                 ("argTypes", VObj []) ])%list).
Proof.
  exact (proj1 (getStory_parsed_fields Cases.parsing Sample.button_id
                  Sample.button_entry Sample.button_path
                  (case_request _ _ _ _))
           Cases.button_parsed eq_refl).
Defined.

Lemma entry_without_import_path_witness :
  run (getStoryDocs Cases.odd (ArgObj "bare--story"))
  = Ret (success_docs
           [ ("storyId", VStr "bare--story"); ("title", VStr "Bare");
             ("name", VStr "Story"); ("type", VStr "story");
             ("framework", VStr "angular") ])
  /\ trace (getStoryDocs Cases.odd (ArgObj "bare--story"))
     = [Fetch "http://localhost:6010/index.json"; ReadJson].
Proof.
  exact (proj2 (proj2
           (entry_without_import_path Cases.odd "bare--story"
              Cases.bare_entry (case_serves _ _ _ _ _ _) eq_refl eq_refl))).
Defined.

Lemma import_path_not_a_string_witness :
  (exists msg,
      run (getStory Cases.odd (ArgObj "numbered--story")) = Ret (failure msg))
  /\ (exists msg,
        run (getStoryDocs Cases.odd (ArgObj "numbered--story"))
        = Ret (failure msg)).
Proof.
  pose proof (import_path_not_a_string Cases.odd "numbered--story"
                Cases.numbered_entry (case_serves _ _ _ _ _ _)
                eq_refl eq_refl eq_refl) as (Hstory & Hdocs & _).
  split; assumption.
Defined.

Lemma story_file_absent_witness :
  run (getStoryDocs (Sample.project Cases.nothing Sample.button_stories)
         (ArgObj Sample.button_id))
  = Ret (success_docs
           [ ("storyId", VStr "example-button--primary");
             ("title", VStr "Example/Button"); ("name", VStr "Primary");
             ("type", VStr "story"); ("framework", VStr "angular") ])
  /\ trace (getStoryDocs (Sample.project Cases.nothing Sample.button_stories)
              (ArgObj Sample.button_id))
     = [ Fetch "http://localhost:6010/index.json"; ReadJson;
         ExistsSync "/proj/src/button.stories.ts" ].
Proof.
  exact (proj1 (story_file_absent
                  (Sample.project Cases.nothing Sample.button_stories)
                  Sample.button_id Sample.button_entry Sample.button_path
                  (sample_request _ _) eq_refl)
           eq_refl).
Defined.

Lemma falsy_selector_no_usage_examples_witness :
  exists docs,
    run (getStoryDocs Cases.unselected (ArgObj Sample.button_id))
    = Ret (success_docs docs)
    /\ own docs "storyExamples"
       = Some (Parsers.stories Sample.button_stories)
    /\ own docs "usageExamples" = None.
Proof.
  pose proof (falsy_selector_no_usage_examples Cases.unselected
                Sample.button_id Sample.button_entry Sample.button_path
                Sample.story_source "Button" Cases.no_selector
                Sample.button_stories (case_request _ _ _ _) eq_refl eq_refl
                (case_resolves _ _ _) eq_refl eq_refl) as (Hrun & Hnone & _).
  eexists. split; [exact Hrun | ]. split; [reflexivity | exact Hnone].
Defined.

Lemma failing_variant_fails_request_witness :
  run (getStoryDocs Cases.failing (ArgObj Sample.button_id))
  = Ret (failure "cannot render").
Proof.
  apply (failing_variant_fails_request Cases.failing Sample.button_id
           Sample.button_entry Sample.button_path Sample.story_source
           "Button" Sample.button_doc Cases.two_variants
           [("Primary", VObj [("args", VObj [("label", VStr "Click me")])])]
           ("Broken", VObj [("args", VObj [("label", VStr "Oops")])])
           [] (Error "cannot render")).
  - apply case_request.
  - reflexivity.
  - reflexivity.
  - apply case_resolves.
  - reflexivity.
  - reflexivity.
  - reflexivity.
  - reflexivity.
  - constructor; [ | constructor].
    exists (VObj [("label", VStr "Click me")]). eexists.
    split; reflexivity.
  - right. exists (VObj [("label", VStr "Oops")]). split; reflexivity.
Defined.

Lemma responses_echo_the_id_witness :
  exists response,
    run (Mcp.handleRequest Cases.stringify Cases.stringify Sample.env
           Cases.ping) = Ret response
    /\ own (match response with VObj o => o | _ => [] end) "id"
       = Some (VNum 1).
Proof.
  eexists. split; [reflexivity | ].
  exact (proj1 (proj2
           (responses_echo_the_id Cases.stringify Cases.stringify Sample.env
              Cases.ping _ eq_refl))).
Defined.


(** ** Starting Storybook *)

Section LaunchProperties.

Variable fs : string -> fsnode.
Variable parse : string -> outcome value.
Variable with_options : value -> string -> outcome string.
Variable port : string.
Variable projectDir : string.
Variable framework : value.
Variable version_at_least_8 : bool.

Lemma choose_cases (angularJson : value) (angularJsonPath : string)
    (projects : list (string * value)) :
  (exists o,
      Launch.choose fs parse with_options projectDir angularJson
        angularJsonPath projects = ([], o)
      /\ o <> Ret (Some Launch.npm_script)
      /\ forall chosen, o <> Ret (Some chosen))
  \/ (exists text,
        Launch.choose fs parse with_options projectDir angularJson
          angularJsonPath projects
        = ([(angularJsonPath, text)], Ret (Some Launch.npm_script)))
  \/ (exists text e,
        Launch.choose fs parse with_options projectDir angularJson
          angularJsonPath projects
        = ([(angularJsonPath, text)], Throw e)
        /\ Launch.uses_ng_run fs parse projectDir = Throw e).
Proof.
  induction projects as [| [projectName project] rest IH].
  - left. exists (Ret None). repeat split; try discriminate.
  - cbn [Launch.choose].
    destruct (nullish project).
    { left. eexists. repeat split; try discriminate. }
    destruct (truthy _); [ | exact IH].
    destruct (with_options angularJson projectName) as [text | e].
    + destruct (Launch.uses_ng_run fs parse projectDir) as [b | e] eqn:Huses.
      * right. left. exists text. reflexivity.
      * right. right. exists text, e. split; reflexivity.
    + left. eexists. repeat split; try discriminate.
Qed.

(** X30. [startStorybookProcess] hands one of two commands to [spawn]:
    [npm run storybook] or [npx storybook dev -p <port> --no-open].  The
    npm script is chosen only for the framework [angular] with a version
    of at least 8 and an [angular.json] in the project, and only after
    [angular.json] has been rewritten, once.  The fall-back to [npx]
    writes nothing, except when the look at [package.json] throws: then
    [angular.json] has been rewritten already. *)
Theorem npm_script_rewrites_angular_json :
  let started :=
    Launch.startStorybookProcess fs parse with_options port projectDir
      framework version_at_least_8 in
  let angularJsonPath := Path.join [projectDir; "angular.json"] in
  (Launch.command started = Launch.npm_script
   /\ framework = VStr "angular"
   /\ version_at_least_8 = true
   /\ present fs angularJsonPath = true
   /\ exists text, Launch.rewritten started = [(angularJsonPath, text)])
  \/ (Launch.command started = Launch.cli port
      /\ (Launch.rewritten started = []
          \/ exists text e,
               Launch.rewritten started = [(angularJsonPath, text)]
               /\ Launch.uses_ng_run fs parse projectDir = Throw e)).
Proof.
  cbv zeta. unfold Launch.startStorybookProcess.
  destruct (strict_eq framework (VStr "angular")) eqn:Hfw;
    [ | right; split; [reflexivity | left; reflexivity]].
  destruct version_at_least_8;
    [ | right; split; [reflexivity | left; reflexivity]].
  cbn [andb].
  destruct (present fs (Path.join [projectDir; "angular.json"])) eqn:Hfile;
    [ | right; split; [reflexivity | left; reflexivity]].
  assert (Hcases :
    (exists o,
        Launch.from_angular fs parse with_options projectDir
          (Path.join [projectDir; "angular.json"]) = ([], o)
        /\ forall chosen, o <> Ret (Some chosen))
    \/ (exists text,
          Launch.from_angular fs parse with_options projectDir
            (Path.join [projectDir; "angular.json"])
          = ([(Path.join [projectDir; "angular.json"], text)],
             Ret (Some Launch.npm_script)))
    \/ (exists text e,
          Launch.from_angular fs parse with_options projectDir
            (Path.join [projectDir; "angular.json"])
          = ([(Path.join [projectDir; "angular.json"], text)], Throw e)
          /\ Launch.uses_ng_run fs parse projectDir = Throw e)).
  { unfold Launch.from_angular.
    destruct (Launch.read fs _) as [text | e];
      [ | left; eexists; split; [reflexivity | intros c; discriminate]].
    destruct (parse text) as [angularJson | e];
      [ | left; eexists; split; [reflexivity | intros c; discriminate]].
    destruct (nullish angularJson);
      [left; eexists; split; [reflexivity | intros c; discriminate] | ].
    destruct (choose_cases angularJson (Path.join [projectDir; "angular.json"])
                (object_entries
                   (or_else (Cli.member_of angularJson Cli.c_projects)
                            (VObj []))))
      as [(o & -> & _ & Ho) | [(t & ->) | (t & e & -> & He)]].
    - left. exists o. split; [reflexivity | exact Ho].
    - right. left. exists t. reflexivity.
    - right. right. exists t, e. split; [reflexivity | exact He]. }
  destruct Hcases as [(o & -> & Ho) | [(text & ->) | (text & e & -> & He)]].
  - right. destruct o as [[chosen | ] | e].
    + exfalso. exact (Ho chosen eq_refl).
    + split; [reflexivity | left; reflexivity].
    + split; [reflexivity | left; reflexivity].
  - left. split; [reflexivity | ].
    split.
    { destruct framework; try discriminate Hfw.
      cbn [strict_eq] in Hfw. apply String.eqb_eq in Hfw. subst. reflexivity. }
    split; [reflexivity | ]. split; [reflexivity | ].
    exists text. reflexivity.
  - right. split; [reflexivity | ]. right. exists text, e.
    split; [reflexivity | exact He].
Qed.

End LaunchProperties.

(** On the sample workspace the look at [package.json] throws: Storybook
    is started through [npx], and [angular.json] has been rewritten. *)
Example launch_sample :
  Launch.command LaunchSample.started = Launch.cli "6010"
  /\ Launch.rewritten LaunchSample.started
     = [("/app/angular.json", "workspace with options for app")].
Proof. split; reflexivity. Qed.
